(** * Lands of Balance: the authoritative UDP game server, modelled in Rocq

    A shallow embedding of [src/server/game_server.c].  The process-wide
    tables of the C program ([players], [spectators], [bobbas], [dragons]
    and the counters) become one [Server] record that every routine
    threads explicitly; [sendto] appends to the [wire] log of that record;
    [recvfrom], [time] and [clock_gettime] are inputs of one loop
    iteration.  Floats are IEEE-754 binary32 values of the Standard
    Library's [SpecFloat], evaluated in single precision, with the
    promotions to [double] that the C expressions perform written out:
    every operation is rounded once, in the order the source writes it
    (no excess precision, no contraction into fused operations).  The
    calls of [time(NULL)] within one loop iteration all return the same
    second. *)

From Stdlib Require Import ZArith Lia Bool List.
From Stdlib Require Import Floats.SpecFloat.
From Stdlib Require Strings.Byte.
From stdpp Require Import base tactics option list.

Local Open Scope Z_scope.

(** ** Machine integers *)

Definition UINT32_MAX : Z := 4294967295.

(** Unsigned 32-bit wrap-around, as for [uint32_t] arithmetic. *)
Definition u32 (z : Z) : Z := z mod 2 ^ 32.

(** Truncation to [uint8_t]. *)
Definition u8 (z : Z) : Z := z mod 2 ^ 8.

(** ** Floating point *)

(** [float] is binary32 and [double] is binary64; both are carried by
    [spec_float], whose operations take the precision and the exponent
    bound.  Comparisons follow C: every comparison with a NaN is false. *)
Definition float : Type := spec_float.
Definition double : Type := spec_float.

Module F32.
Definition prec : Z := 24.
Definition emax : Z := 128.
Definition add : float -> float -> float := SFadd prec emax.
Definition sub : float -> float -> float := SFsub prec emax.
Definition mul : float -> float -> float := SFmul prec emax.
Definition div : float -> float -> float := SFdiv prec emax.
Definition ltb : float -> float -> bool := SFltb.
Definition leb : float -> float -> bool := SFleb.
Definition gtb (x y : float) : bool := SFltb y x.
Definition geb (x y : float) : bool := SFleb y x.
(** Conversion of an integer, round to nearest even. *)
Definition of_Z (n : Z) : float := binary_normalize prec emax n 0 false.
(** The decimal literal [n/d] for exactly representable [n] and [d]:
    a correctly rounded quotient is the float nearest to the literal. *)
Definition lit (n d : Z) : float := div (of_Z n) (of_Z d).
(** Rounding of a wider value to binary32 (a [double] stored in a
    [float] object). *)
Definition of_double (x : double) : float :=
  match x with
  | S754_finite s m e => binary_round prec emax s m e
  | _ => x
  end.
Definition zero : float := S754_zero false.
End F32.

Module F64.
Definition prec : Z := 53.
Definition emax : Z := 1024.
Definition add : double -> double -> double := SFadd prec emax.
Definition sub : double -> double -> double := SFsub prec emax.
Definition mul : double -> double -> double := SFmul prec emax.
Definition sqrt : double -> double := SFsqrt prec emax.
Definition gtb (x y : double) : bool := SFltb y x.
Definition geb (x y : double) : bool := SFleb y x.
(** Promotion of a [float]: the value is kept, the mantissa is
    re-aligned to 53 bits. *)
Definition of_float (x : float) : double :=
  match x with
  | S754_finite s m e => binary_round prec emax s m e
  | _ => x
  end.
(** [M_PI], the binary64 nearest to pi ([0x400921FB54442D18]). *)
Definition M_PI : double := S754_finite false 7074237752028440 (-51).
End F64.

Declare Scope f32_scope.
Delimit Scope f32_scope with f32.
Infix "+" := F32.add : f32_scope.
Infix "-" := F32.sub : f32_scope.
Infix "*" := F32.mul : f32_scope.
Infix "/" := F32.div : f32_scope.
Infix "<?" := F32.ltb : f32_scope.
Infix "<=?" := F32.leb : f32_scope.
Infix ">?" := F32.gtb : f32_scope.
Infix ">=?" := F32.geb : f32_scope.

Declare Scope f64_scope.
Delimit Scope f64_scope with f64.
Infix "+" := F64.add : f64_scope.
Infix "-" := F64.sub : f64_scope.
Infix "*" := F64.mul : f64_scope.
Infix ">?" := F64.gtb : f64_scope.
Infix ">=?" := F64.geb : f64_scope.

(** [sqrt] of [math.h] on a [float] expression whose result is stored in
    a [float]: promote, take the binary64 root, round back. *)
Definition sqrt (x : float) : float := F32.of_double (F64.sqrt (F64.of_float x)).

(** [fminf] and [fmaxf]: the other operand when one is a NaN. *)
Definition fminf (x y : float) : float :=
  match x, y with
  | S754_nan, _ => y
  | _, S754_nan => x
  | _, _ => if (x <? y)%f32 then x else y
  end.

Definition fmaxf (x y : float) : float :=
  match x, y with
  | S754_nan, _ => y
  | _, S754_nan => x
  | _, _ => if (x <? y)%f32 then y else x
  end.

(** ** The C library *)

(** What the server takes from libc and libm and this repository does not
    define: the trigonometric functions (on [double]), the value of
    [RAND_MAX], and the values successive calls of [rand] return after the
    [srand] of [main].  The server counts its calls in [rand_calls]. *)
Class LibC := {
  cos : double -> double;
  sin : double -> double;
  atan2 : double -> double -> double;
  rand_stream : nat -> Z;
  RAND_MAX : Z
}.

(** ** Constants of [game_server.c] *)

Definition MAX_PLAYERS : Z := 32.
Definition MAX_ENTITIES : Z := 64.
Definition MAX_BOBBAS : Z := 4.
Definition MAX_DRAGONS : Z := 1.
Definition MAX_SPECTATORS : Z := 32.
Definition BUFFER_SIZE : Z := 2048.
Definition PLAYER_TIMEOUT_SEC : Z := 10.
Definition BROADCAST_INTERVAL_MS : Z := 50.
Definition ENTITY_UPDATE_INTERVAL_MS : Z := 50.

Definition STATE_IDLE : Z := 0.

Definition PKT_JOIN : Z := 1.
Definition PKT_JOIN_ACK : Z := 2.
Definition PKT_LEAVE : Z := 3.
Definition PKT_WORLD_STATE : Z := 4.
Definition PKT_UPDATE : Z := 5.
Definition PKT_ACK : Z := 6.
Definition PKT_PING : Z := 7.
Definition PKT_PONG : Z := 8.
Definition PKT_ENTITY_STATE : Z := 9.
Definition PKT_ENTITY_DAMAGE : Z := 10.
Definition PKT_ARROW_SPAWN : Z := 11.
Definition PKT_ARROW_HIT : Z := 12.
Definition PKT_HOST_CHANGE : Z := 13.
Definition PKT_HEARTBEAT : Z := 14.
Definition PKT_SPECTATE : Z := 15.
Definition PKT_SPECTATE_ACK : Z := 16.
Definition PKT_PLAYER_DAMAGE : Z := 17.
Definition PKT_GAME_RESTART : Z := 18.

Definition ENTITY_BOBBA : Z := 0.
Definition ENTITY_DRAGON : Z := 1.

Definition BOBBA_ROAMING : Z := 0.
Definition BOBBA_CHASING : Z := 1.
Definition BOBBA_ATTACKING : Z := 2.
Definition BOBBA_IDLE : Z := 3.
Definition BOBBA_STUNNED : Z := 4.

Definition BOBBA_DETECTION_RADIUS : float := F32.of_Z 10.
Definition BOBBA_LOSE_RADIUS : float := F32.of_Z 20.
Definition BOBBA_ATTACK_DISTANCE : float := F32.of_Z 2.
Definition BOBBA_ROAM_SPEED : float := F32.of_Z 2.
Definition BOBBA_CHASE_SPEED : float := F32.of_Z 5.
Definition BOBBA_ROAM_CHANGE_TIME : float := F32.of_Z 3.
Definition BOBBA_ATTACK_DURATION : float := F32.lit 3 2.
Definition BOBBA_ATTACK_DAMAGE : float := F32.of_Z 70.
Definition BOBBA_KNOCKBACK_FORCE : float := F32.of_Z 12.
Definition BOBBA_HIT_WINDOW_START : float := F32.lit 3 10.
Definition BOBBA_HIT_WINDOW_END : float := F32.lit 7 10.

Definition DRAGON_PATROL : Z := 0.
Definition DRAGON_FLYING_TO_LAND : Z := 1.
Definition DRAGON_LANDING : Z := 2.
Definition DRAGON_WAIT : Z := 3.
Definition DRAGON_TAKING_OFF : Z := 4.
Definition DRAGON_ATTACKING : Z := 5.

Definition DRAGON_PATROL_RADIUS : float := F32.of_Z 100.
Definition DRAGON_PATROL_HEIGHT : float := F32.of_Z 80.
Definition DRAGON_PATROL_SPEED : float := F32.of_Z 25.
Definition DRAGON_LAPS_BEFORE_LANDING : Z := 2.
Definition DRAGON_WAIT_TIME : float := F32.of_Z 5.
Definition DRAGON_ATTACK_RANGE : float := F32.of_Z 40.
Definition DRAGON_LANDING_SPOT_X : float := F32.of_Z 0.
Definition DRAGON_LANDING_SPOT_Y : float := F32.of_Z 5.
Definition DRAGON_LANDING_SPOT_Z : float := F32.of_Z 50.

(** The initial search distance [999999.0f]. *)
Definition FAR_AWAY : float := F32.of_Z 999999.

(** ** Wire structures ([#pragma pack(1)]) *)

(** A network endpoint: the [s_addr] and [sin_port] of a [sockaddr_in],
    the two fields the server compares. *)
Record sockaddr_in := mk_sockaddr_in { sin_addr : Z; sin_port : Z }.

(** A C string field: the bytes of a [char] array. *)
Definition cstring : Type := list Byte.byte.

Record PlayerData := mkPlayerData {
  pd_player_id : Z;
  pd_pos_x : float; pd_pos_y : float; pd_pos_z : float;
  pd_rot_y : float;
  pd_state : Z;
  pd_combat_mode : Z;
  pd_character_class : Z;
  pd_health : float;
  pd_anim_name : cstring;
  pd_active : Z
}.

Record PacketHeader := mkPacketHeader {
  hdr_type : Z;
  hdr_sequence : Z;
  hdr_player_id : Z
}.

Record JoinPacket := mkJoinPacket {
  join_header : PacketHeader;
  join_player_name : cstring
}.

Record UpdatePacket := mkUpdatePacket {
  upd_header : PacketHeader;
  upd_data : PlayerData
}.

Record JoinAckPacket := mkJoinAckPacket {
  ack_header : PacketHeader;
  ack_assigned_id : Z;
  ack_data : PlayerData
}.

Record WorldStatePacket := mkWorldStatePacket {
  ws_header : PacketHeader;
  ws_state_seq : Z;
  ws_player_count : Z;
  ws_players : list PlayerData
}.

Record EntityData := mkEntityData {
  ed_entity_type : Z;
  ed_entity_id : Z;
  ed_pos_x : float; ed_pos_y : float; ed_pos_z : float;
  ed_rot_y : float;
  ed_state : Z;
  ed_health : float;
  ed_extra1 : Z;
  ed_extra2 : float
}.

Record EntityStatePacket := mkEntityStatePacket {
  es_header : PacketHeader;
  es_entity_count : Z;
  es_entities : list EntityData
}.

Record EntityDamagePacket := mkEntityDamagePacket {
  dmg_header : PacketHeader;
  dmg_entity_id : Z;
  dmg_damage : float;
  dmg_attacker_id : Z
}.

Record PlayerDamagePacket := mkPlayerDamagePacket {
  pdmg_header : PacketHeader;
  pdmg_target_player_id : Z;
  pdmg_damage : float;
  pdmg_attacker_entity_id : Z;
  pdmg_knockback_x : float; pdmg_knockback_y : float; pdmg_knockback_z : float
}.

Record GameRestartPacket := mkGameRestartPacket {
  gr_header : PacketHeader;
  gr_reason : Z
}.

(** [sizeof] of the packed structures: the sum of the field sizes. *)
Definition sizeof_PlayerData : Z := 4 + (4 + 4 + 4) + 4 + 1 + 1 + 1 + 4 + 32 + 1.
Definition sizeof_PacketHeader : Z := 1 + 4 + 4.
Definition sizeof_JoinPacket : Z := sizeof_PacketHeader + 32.
Definition sizeof_UpdatePacket : Z := sizeof_PacketHeader + sizeof_PlayerData.
Definition sizeof_JoinAckPacket : Z := sizeof_PacketHeader + 4 + sizeof_PlayerData.
Definition sizeof_WorldStatePacket : Z :=
  sizeof_PacketHeader + 4 + 1 + MAX_PLAYERS * sizeof_PlayerData.
Definition sizeof_EntityData : Z := 1 + 4 + (4 + 4 + 4) + 4 + 1 + 4 + 4 + 4.
Definition sizeof_EntityStatePacket : Z :=
  sizeof_PacketHeader + 1 + MAX_ENTITIES * sizeof_EntityData.
Definition sizeof_ArrowSpawnPacket : Z :=
  sizeof_PacketHeader + 4 + (4 + 4 + 4) + (4 + 4 + 4) + 4.
Definition sizeof_ArrowHitPacket : Z := sizeof_PacketHeader + 4 + (4 + 4 + 4) + 4.
Definition sizeof_EntityDamagePacket : Z := sizeof_PacketHeader + 4 + 4 + 4.
Definition sizeof_PlayerDamagePacket : Z :=
  sizeof_PacketHeader + 4 + 4 + 4 + (4 + 4 + 4).
Definition sizeof_GameRestartPacket : Z := sizeof_PacketHeader + 4.

(** The all-zero structures a [memset] leaves. *)
Definition zero_cstring (n : nat) : cstring := replicate n Byte.x00.

Definition PlayerData_zero : PlayerData :=
  {| pd_player_id := 0;
     pd_pos_x := F32.zero; pd_pos_y := F32.zero; pd_pos_z := F32.zero;
     pd_rot_y := F32.zero;
     pd_state := 0; pd_combat_mode := 0; pd_character_class := 0;
     pd_health := F32.zero;
     pd_anim_name := zero_cstring 32;
     pd_active := 0 |}.

Definition EntityData_zero : EntityData :=
  {| ed_entity_type := 0; ed_entity_id := 0;
     ed_pos_x := F32.zero; ed_pos_y := F32.zero; ed_pos_z := F32.zero;
     ed_rot_y := F32.zero; ed_state := 0; ed_health := F32.zero;
     ed_extra1 := 0; ed_extra2 := F32.zero |}.

(** [strncpy (dst, src, n)] into a zeroed destination: the bytes of [src]
    before its first NUL, at most [n] of them, then NUL padding up to [n]. *)
Fixpoint c_strlen_upto (n : nat) (src : cstring) : nat :=
  match n, src with
  | S k, b :: r => if Byte.eqb b Byte.x00 then O else S (c_strlen_upto k r)
  | _, _ => O
  end.

Definition strncpy (src : cstring) (n : nat) : cstring :=
  let k := c_strlen_upto n src in
  take k src ++ replicate (n - k)%nat Byte.x00.

(** The literal ["Idle"]. *)
Definition str_Idle : cstring := [Byte.x49; Byte.x64; Byte.x6c; Byte.x65].

(** ** Reading a received buffer

    The receive buffer is cast to the packed structures; fields are read
    at their offsets in the host byte order (little-endian). *)

Definition get_u8 (buf : list Byte.byte) (off : nat) : Z :=
  match buf !! off with
  | Some b => Z.of_N (Byte.to_N b)
  | None => 0
  end.

Definition get_u32 (buf : list Byte.byte) (off : nat) : Z :=
  get_u8 buf off
  + Z.shiftl (get_u8 buf (off + 1)) 8
  + Z.shiftl (get_u8 buf (off + 2)) 16
  + Z.shiftl (get_u8 buf (off + 3)) 24.

(** The binary32 value of a 32-bit pattern. *)
Definition float_of_bits (w : Z) : float :=
  let s := Z.testbit w 31 in
  let e := Z.land (Z.shiftr w 23) 255 in
  let m := Z.land w 8388607 in
  if e =? 255 then (if m =? 0 then S754_infinity s else S754_nan)
  else if e =? 0 then
    (if m =? 0 then S754_zero s else S754_finite s (Z.to_pos m) (-149))
  else S754_finite s (Z.to_pos (m + 8388608)) (e - 150).

Definition get_f32 (buf : list Byte.byte) (off : nat) : float :=
  float_of_bits (get_u32 buf off).

Definition get_bytes (buf : list Byte.byte) (off n : nat) : cstring :=
  take n (drop off buf ++ replicate n Byte.x00).

Definition as_PacketHeader (buf : list Byte.byte) : PacketHeader :=
  {| hdr_type := get_u8 buf 0;
     hdr_sequence := get_u32 buf 1;
     hdr_player_id := get_u32 buf 5 |}.

Definition get_PlayerData (buf : list Byte.byte) (off : nat) : PlayerData :=
  {| pd_player_id := get_u32 buf off;
     pd_pos_x := get_f32 buf (off + 4);
     pd_pos_y := get_f32 buf (off + 8);
     pd_pos_z := get_f32 buf (off + 12);
     pd_rot_y := get_f32 buf (off + 16);
     pd_state := get_u8 buf (off + 20);
     pd_combat_mode := get_u8 buf (off + 21);
     pd_character_class := get_u8 buf (off + 22);
     pd_health := get_f32 buf (off + 23);
     pd_anim_name := get_bytes buf (off + 27) 32;
     pd_active := get_u8 buf (off + 59) |}.

Definition as_JoinPacket (buf : list Byte.byte) : JoinPacket :=
  {| join_header := as_PacketHeader buf;
     join_player_name := get_bytes buf 9 32 |}.

Definition as_UpdatePacket (buf : list Byte.byte) : UpdatePacket :=
  {| upd_header := as_PacketHeader buf;
     upd_data := get_PlayerData buf 9 |}.

Definition as_EntityDamagePacket (buf : list Byte.byte) : EntityDamagePacket :=
  {| dmg_header := as_PacketHeader buf;
     dmg_entity_id := get_u32 buf 9;
     dmg_damage := get_f32 buf 13;
     dmg_attacker_id := get_u32 buf 17 |}.

Definition as_GameRestartPacket (buf : list Byte.byte) : GameRestartPacket :=
  {| gr_header := as_PacketHeader buf;
     gr_reason := get_u32 buf 9 |}.

(** ** What [sendto] puts on the wire *)

(** The object whose first bytes are sent: a structure the server built,
    or the receive buffer itself when a packet is relayed. *)
Inductive Packet :=
| PktHeader (h : PacketHeader)
| PktJoinAck (p : JoinAckPacket)
| PktWorldState (p : WorldStatePacket)
| PktEntityState (p : EntityStatePacket)
| PktPlayerDamage (p : PlayerDamagePacket)
| PktGameRestart (p : GameRestartPacket)
| PktRelay (buf : list Byte.byte).

(** One [sendto]: destination, object, number of bytes sent. *)
Record Datagram := mkDatagram {
  dg_to : sockaddr_in;
  dg_packet : Packet;
  dg_len : Z
}.

(** ** Server-side tables *)

(** The [int] flags the server only tests and sets to 0 or 1 ([active],
    [has_hit_this_attack], [test_multiplayer]) are booleans. *)

Record Player := mkPlayer {
  pl_player_id : Z;
  pl_name : cstring;
  pl_addr : sockaddr_in;
  pl_last_seen : Z;
  pl_data : PlayerData;
  pl_active : bool
}.

Record Spectator := mkSpectator {
  sp_addr : sockaddr_in;
  sp_last_seen : Z;
  sp_active : bool
}.

Record ServerBobba := mkServerBobba {
  bobba_entity_id : Z;
  bobba_pos_x : float; bobba_pos_y : float; bobba_pos_z : float;
  bobba_rot_y : float;
  bobba_state : Z;
  bobba_health : float;
  bobba_active : bool;
  bobba_target_player_id : Z;
  bobba_roam_dir_x : float; bobba_roam_dir_z : float;
  bobba_roam_timer : float;
  bobba_attack_timer : float;
  bobba_attack_start_time : float;
  bobba_stun_timer : float;
  bobba_has_hit_this_attack : bool
}.

Record ServerDragon := mkServerDragon {
  dragon_entity_id : Z;
  dragon_pos_x : float; dragon_pos_y : float; dragon_pos_z : float;
  dragon_rot_y : float;
  dragon_state : Z;
  dragon_health : float;
  dragon_active : bool;
  dragon_patrol_angle : float;
  dragon_patrol_center_x : float; dragon_patrol_center_z : float;
  dragon_laps_completed : Z;
  dragon_wait_timer : float;
  dragon_attack_timer : float;
  dragon_target_player_id : Z
}.

(** The global state of the process.  [wire] lists the datagrams handed
    to [sendto] on [server_socket], oldest first; [rand_calls] counts the
    calls of [rand]. *)
Record Server := mkServer {
  players : list Player;
  spectators : list Spectator;
  bobbas : list ServerBobba;
  dragons : list ServerDragon;
  next_player_id : Z;
  next_entity_id : Z;
  state_sequence : Z;
  test_multiplayer : bool;
  rand_calls : nat;
  wire : list Datagram
}.

Definition sockaddr_zero : sockaddr_in := {| sin_addr := 0; sin_port := 0 |}.

Definition Player_zero : Player :=
  {| pl_player_id := 0; pl_name := zero_cstring 32; pl_addr := sockaddr_zero;
     pl_last_seen := 0; pl_data := PlayerData_zero; pl_active := false |}.

Definition Spectator_zero : Spectator :=
  {| sp_addr := sockaddr_zero; sp_last_seen := 0; sp_active := false |}.

Definition ServerBobba_zero : ServerBobba :=
  {| bobba_entity_id := 0;
     bobba_pos_x := F32.zero; bobba_pos_y := F32.zero; bobba_pos_z := F32.zero;
     bobba_rot_y := F32.zero; bobba_state := 0; bobba_health := F32.zero;
     bobba_active := false; bobba_target_player_id := 0;
     bobba_roam_dir_x := F32.zero; bobba_roam_dir_z := F32.zero;
     bobba_roam_timer := F32.zero; bobba_attack_timer := F32.zero;
     bobba_attack_start_time := F32.zero; bobba_stun_timer := F32.zero;
     bobba_has_hit_this_attack := false |}.

Definition ServerDragon_zero : ServerDragon :=
  {| dragon_entity_id := 0;
     dragon_pos_x := F32.zero; dragon_pos_y := F32.zero; dragon_pos_z := F32.zero;
     dragon_rot_y := F32.zero; dragon_state := 0; dragon_health := F32.zero;
     dragon_active := false; dragon_patrol_angle := F32.zero;
     dragon_patrol_center_x := F32.zero; dragon_patrol_center_z := F32.zero;
     dragon_laps_completed := 0; dragon_wait_timer := F32.zero;
     dragon_attack_timer := F32.zero; dragon_target_player_id := 0 |}.

(** *** Field assignments *)

Module SetPD.
Definition player_id (v : Z) (d : PlayerData) : PlayerData :=
  mkPlayerData v (pd_pos_x d) (pd_pos_y d) (pd_pos_z d) (pd_rot_y d)
    (pd_state d) (pd_combat_mode d) (pd_character_class d) (pd_health d)
    (pd_anim_name d) (pd_active d).
Definition pos (x y z : float) (d : PlayerData) : PlayerData :=
  mkPlayerData (pd_player_id d) x y z (pd_rot_y d)
    (pd_state d) (pd_combat_mode d) (pd_character_class d) (pd_health d)
    (pd_anim_name d) (pd_active d).
Definition state (v : Z) (d : PlayerData) : PlayerData :=
  mkPlayerData (pd_player_id d) (pd_pos_x d) (pd_pos_y d) (pd_pos_z d) (pd_rot_y d)
    v (pd_combat_mode d) (pd_character_class d) (pd_health d)
    (pd_anim_name d) (pd_active d).
Definition health (v : float) (d : PlayerData) : PlayerData :=
  mkPlayerData (pd_player_id d) (pd_pos_x d) (pd_pos_y d) (pd_pos_z d) (pd_rot_y d)
    (pd_state d) (pd_combat_mode d) (pd_character_class d) v
    (pd_anim_name d) (pd_active d).
End SetPD.

Module SetPlayer.
Definition last_seen (v : Z) (p : Player) : Player :=
  mkPlayer (pl_player_id p) (pl_name p) (pl_addr p) v (pl_data p) (pl_active p).
Definition data (v : PlayerData) (p : Player) : Player :=
  mkPlayer (pl_player_id p) (pl_name p) (pl_addr p) (pl_last_seen p) v (pl_active p).
Definition active (v : bool) (p : Player) : Player :=
  mkPlayer (pl_player_id p) (pl_name p) (pl_addr p) (pl_last_seen p) (pl_data p) v.
End SetPlayer.

Module SetSpectator.
Definition last_seen (v : Z) (p : Spectator) : Spectator :=
  mkSpectator (sp_addr p) v (sp_active p).
Definition active (v : bool) (p : Spectator) : Spectator :=
  mkSpectator (sp_addr p) (sp_last_seen p) v.
End SetSpectator.

Module SetBobba.
Definition pos_x (v : float) (b : ServerBobba) : ServerBobba :=
  mkServerBobba (bobba_entity_id b) v (bobba_pos_y b) (bobba_pos_z b)
    (bobba_rot_y b) (bobba_state b) (bobba_health b) (bobba_active b)
    (bobba_target_player_id b) (bobba_roam_dir_x b) (bobba_roam_dir_z b)
    (bobba_roam_timer b) (bobba_attack_timer b) (bobba_attack_start_time b)
    (bobba_stun_timer b) (bobba_has_hit_this_attack b).
Definition pos_y (v : float) (b : ServerBobba) : ServerBobba :=
  mkServerBobba (bobba_entity_id b) (bobba_pos_x b) v (bobba_pos_z b)
    (bobba_rot_y b) (bobba_state b) (bobba_health b) (bobba_active b)
    (bobba_target_player_id b) (bobba_roam_dir_x b) (bobba_roam_dir_z b)
    (bobba_roam_timer b) (bobba_attack_timer b) (bobba_attack_start_time b)
    (bobba_stun_timer b) (bobba_has_hit_this_attack b).
Definition pos_z (v : float) (b : ServerBobba) : ServerBobba :=
  mkServerBobba (bobba_entity_id b) (bobba_pos_x b) (bobba_pos_y b) v
    (bobba_rot_y b) (bobba_state b) (bobba_health b) (bobba_active b)
    (bobba_target_player_id b) (bobba_roam_dir_x b) (bobba_roam_dir_z b)
    (bobba_roam_timer b) (bobba_attack_timer b) (bobba_attack_start_time b)
    (bobba_stun_timer b) (bobba_has_hit_this_attack b).
Definition rot_y (v : float) (b : ServerBobba) : ServerBobba :=
  mkServerBobba (bobba_entity_id b) (bobba_pos_x b) (bobba_pos_y b) (bobba_pos_z b)
    v (bobba_state b) (bobba_health b) (bobba_active b)
    (bobba_target_player_id b) (bobba_roam_dir_x b) (bobba_roam_dir_z b)
    (bobba_roam_timer b) (bobba_attack_timer b) (bobba_attack_start_time b)
    (bobba_stun_timer b) (bobba_has_hit_this_attack b).
Definition state (v : Z) (b : ServerBobba) : ServerBobba :=
  mkServerBobba (bobba_entity_id b) (bobba_pos_x b) (bobba_pos_y b) (bobba_pos_z b)
    (bobba_rot_y b) v (bobba_health b) (bobba_active b)
    (bobba_target_player_id b) (bobba_roam_dir_x b) (bobba_roam_dir_z b)
    (bobba_roam_timer b) (bobba_attack_timer b) (bobba_attack_start_time b)
    (bobba_stun_timer b) (bobba_has_hit_this_attack b).
Definition health (v : float) (b : ServerBobba) : ServerBobba :=
  mkServerBobba (bobba_entity_id b) (bobba_pos_x b) (bobba_pos_y b) (bobba_pos_z b)
    (bobba_rot_y b) (bobba_state b) v (bobba_active b)
    (bobba_target_player_id b) (bobba_roam_dir_x b) (bobba_roam_dir_z b)
    (bobba_roam_timer b) (bobba_attack_timer b) (bobba_attack_start_time b)
    (bobba_stun_timer b) (bobba_has_hit_this_attack b).
Definition active (v : bool) (b : ServerBobba) : ServerBobba :=
  mkServerBobba (bobba_entity_id b) (bobba_pos_x b) (bobba_pos_y b) (bobba_pos_z b)
    (bobba_rot_y b) (bobba_state b) (bobba_health b) v
    (bobba_target_player_id b) (bobba_roam_dir_x b) (bobba_roam_dir_z b)
    (bobba_roam_timer b) (bobba_attack_timer b) (bobba_attack_start_time b)
    (bobba_stun_timer b) (bobba_has_hit_this_attack b).
Definition target_player_id (v : Z) (b : ServerBobba) : ServerBobba :=
  mkServerBobba (bobba_entity_id b) (bobba_pos_x b) (bobba_pos_y b) (bobba_pos_z b)
    (bobba_rot_y b) (bobba_state b) (bobba_health b) (bobba_active b)
    v (bobba_roam_dir_x b) (bobba_roam_dir_z b)
    (bobba_roam_timer b) (bobba_attack_timer b) (bobba_attack_start_time b)
    (bobba_stun_timer b) (bobba_has_hit_this_attack b).
Definition roam_dir_x (v : float) (b : ServerBobba) : ServerBobba :=
  mkServerBobba (bobba_entity_id b) (bobba_pos_x b) (bobba_pos_y b) (bobba_pos_z b)
    (bobba_rot_y b) (bobba_state b) (bobba_health b) (bobba_active b)
    (bobba_target_player_id b) v (bobba_roam_dir_z b)
    (bobba_roam_timer b) (bobba_attack_timer b) (bobba_attack_start_time b)
    (bobba_stun_timer b) (bobba_has_hit_this_attack b).
Definition roam_dir_z (v : float) (b : ServerBobba) : ServerBobba :=
  mkServerBobba (bobba_entity_id b) (bobba_pos_x b) (bobba_pos_y b) (bobba_pos_z b)
    (bobba_rot_y b) (bobba_state b) (bobba_health b) (bobba_active b)
    (bobba_target_player_id b) (bobba_roam_dir_x b) v
    (bobba_roam_timer b) (bobba_attack_timer b) (bobba_attack_start_time b)
    (bobba_stun_timer b) (bobba_has_hit_this_attack b).
Definition roam_timer (v : float) (b : ServerBobba) : ServerBobba :=
  mkServerBobba (bobba_entity_id b) (bobba_pos_x b) (bobba_pos_y b) (bobba_pos_z b)
    (bobba_rot_y b) (bobba_state b) (bobba_health b) (bobba_active b)
    (bobba_target_player_id b) (bobba_roam_dir_x b) (bobba_roam_dir_z b)
    v (bobba_attack_timer b) (bobba_attack_start_time b)
    (bobba_stun_timer b) (bobba_has_hit_this_attack b).
Definition attack_timer (v : float) (b : ServerBobba) : ServerBobba :=
  mkServerBobba (bobba_entity_id b) (bobba_pos_x b) (bobba_pos_y b) (bobba_pos_z b)
    (bobba_rot_y b) (bobba_state b) (bobba_health b) (bobba_active b)
    (bobba_target_player_id b) (bobba_roam_dir_x b) (bobba_roam_dir_z b)
    (bobba_roam_timer b) v (bobba_attack_start_time b)
    (bobba_stun_timer b) (bobba_has_hit_this_attack b).
Definition attack_start_time (v : float) (b : ServerBobba) : ServerBobba :=
  mkServerBobba (bobba_entity_id b) (bobba_pos_x b) (bobba_pos_y b) (bobba_pos_z b)
    (bobba_rot_y b) (bobba_state b) (bobba_health b) (bobba_active b)
    (bobba_target_player_id b) (bobba_roam_dir_x b) (bobba_roam_dir_z b)
    (bobba_roam_timer b) (bobba_attack_timer b) v
    (bobba_stun_timer b) (bobba_has_hit_this_attack b).
Definition stun_timer (v : float) (b : ServerBobba) : ServerBobba :=
  mkServerBobba (bobba_entity_id b) (bobba_pos_x b) (bobba_pos_y b) (bobba_pos_z b)
    (bobba_rot_y b) (bobba_state b) (bobba_health b) (bobba_active b)
    (bobba_target_player_id b) (bobba_roam_dir_x b) (bobba_roam_dir_z b)
    (bobba_roam_timer b) (bobba_attack_timer b) (bobba_attack_start_time b)
    v (bobba_has_hit_this_attack b).
Definition has_hit_this_attack (v : bool) (b : ServerBobba) : ServerBobba :=
  mkServerBobba (bobba_entity_id b) (bobba_pos_x b) (bobba_pos_y b) (bobba_pos_z b)
    (bobba_rot_y b) (bobba_state b) (bobba_health b) (bobba_active b)
    (bobba_target_player_id b) (bobba_roam_dir_x b) (bobba_roam_dir_z b)
    (bobba_roam_timer b) (bobba_attack_timer b) (bobba_attack_start_time b)
    (bobba_stun_timer b) v.
End SetBobba.

Module SetDragon.
Definition pos (x y z : float) (d : ServerDragon) : ServerDragon :=
  mkServerDragon (dragon_entity_id d) x y z
    (dragon_rot_y d) (dragon_state d) (dragon_health d) (dragon_active d)
    (dragon_patrol_angle d) (dragon_patrol_center_x d) (dragon_patrol_center_z d)
    (dragon_laps_completed d) (dragon_wait_timer d) (dragon_attack_timer d)
    (dragon_target_player_id d).
Definition rot_y (v : float) (d : ServerDragon) : ServerDragon :=
  mkServerDragon (dragon_entity_id d) (dragon_pos_x d) (dragon_pos_y d) (dragon_pos_z d)
    v (dragon_state d) (dragon_health d) (dragon_active d)
    (dragon_patrol_angle d) (dragon_patrol_center_x d) (dragon_patrol_center_z d)
    (dragon_laps_completed d) (dragon_wait_timer d) (dragon_attack_timer d)
    (dragon_target_player_id d).
Definition state (v : Z) (d : ServerDragon) : ServerDragon :=
  mkServerDragon (dragon_entity_id d) (dragon_pos_x d) (dragon_pos_y d) (dragon_pos_z d)
    (dragon_rot_y d) v (dragon_health d) (dragon_active d)
    (dragon_patrol_angle d) (dragon_patrol_center_x d) (dragon_patrol_center_z d)
    (dragon_laps_completed d) (dragon_wait_timer d) (dragon_attack_timer d)
    (dragon_target_player_id d).
Definition health (v : float) (d : ServerDragon) : ServerDragon :=
  mkServerDragon (dragon_entity_id d) (dragon_pos_x d) (dragon_pos_y d) (dragon_pos_z d)
    (dragon_rot_y d) (dragon_state d) v (dragon_active d)
    (dragon_patrol_angle d) (dragon_patrol_center_x d) (dragon_patrol_center_z d)
    (dragon_laps_completed d) (dragon_wait_timer d) (dragon_attack_timer d)
    (dragon_target_player_id d).
Definition active (v : bool) (d : ServerDragon) : ServerDragon :=
  mkServerDragon (dragon_entity_id d) (dragon_pos_x d) (dragon_pos_y d) (dragon_pos_z d)
    (dragon_rot_y d) (dragon_state d) (dragon_health d) v
    (dragon_patrol_angle d) (dragon_patrol_center_x d) (dragon_patrol_center_z d)
    (dragon_laps_completed d) (dragon_wait_timer d) (dragon_attack_timer d)
    (dragon_target_player_id d).
Definition patrol_angle (v : float) (d : ServerDragon) : ServerDragon :=
  mkServerDragon (dragon_entity_id d) (dragon_pos_x d) (dragon_pos_y d) (dragon_pos_z d)
    (dragon_rot_y d) (dragon_state d) (dragon_health d) (dragon_active d)
    v (dragon_patrol_center_x d) (dragon_patrol_center_z d)
    (dragon_laps_completed d) (dragon_wait_timer d) (dragon_attack_timer d)
    (dragon_target_player_id d).
Definition laps_completed (v : Z) (d : ServerDragon) : ServerDragon :=
  mkServerDragon (dragon_entity_id d) (dragon_pos_x d) (dragon_pos_y d) (dragon_pos_z d)
    (dragon_rot_y d) (dragon_state d) (dragon_health d) (dragon_active d)
    (dragon_patrol_angle d) (dragon_patrol_center_x d) (dragon_patrol_center_z d)
    v (dragon_wait_timer d) (dragon_attack_timer d)
    (dragon_target_player_id d).
Definition wait_timer (v : float) (d : ServerDragon) : ServerDragon :=
  mkServerDragon (dragon_entity_id d) (dragon_pos_x d) (dragon_pos_y d) (dragon_pos_z d)
    (dragon_rot_y d) (dragon_state d) (dragon_health d) (dragon_active d)
    (dragon_patrol_angle d) (dragon_patrol_center_x d) (dragon_patrol_center_z d)
    (dragon_laps_completed d) v (dragon_attack_timer d)
    (dragon_target_player_id d).
Definition attack_timer (v : float) (d : ServerDragon) : ServerDragon :=
  mkServerDragon (dragon_entity_id d) (dragon_pos_x d) (dragon_pos_y d) (dragon_pos_z d)
    (dragon_rot_y d) (dragon_state d) (dragon_health d) (dragon_active d)
    (dragon_patrol_angle d) (dragon_patrol_center_x d) (dragon_patrol_center_z d)
    (dragon_laps_completed d) (dragon_wait_timer d) v
    (dragon_target_player_id d).
Definition target_player_id (v : Z) (d : ServerDragon) : ServerDragon :=
  mkServerDragon (dragon_entity_id d) (dragon_pos_x d) (dragon_pos_y d) (dragon_pos_z d)
    (dragon_rot_y d) (dragon_state d) (dragon_health d) (dragon_active d)
    (dragon_patrol_angle d) (dragon_patrol_center_x d) (dragon_patrol_center_z d)
    (dragon_laps_completed d) (dragon_wait_timer d) (dragon_attack_timer d)
    v.
End SetDragon.

Definition set_players (v : list Player) (s : Server) : Server :=
  mkServer v (spectators s) (bobbas s) (dragons s) (next_player_id s)
    (next_entity_id s) (state_sequence s) (test_multiplayer s) (rand_calls s) (wire s).
Definition set_spectators (v : list Spectator) (s : Server) : Server :=
  mkServer (players s) v (bobbas s) (dragons s) (next_player_id s)
    (next_entity_id s) (state_sequence s) (test_multiplayer s) (rand_calls s) (wire s).
Definition set_bobbas (v : list ServerBobba) (s : Server) : Server :=
  mkServer (players s) (spectators s) v (dragons s) (next_player_id s)
    (next_entity_id s) (state_sequence s) (test_multiplayer s) (rand_calls s) (wire s).
Definition set_dragons (v : list ServerDragon) (s : Server) : Server :=
  mkServer (players s) (spectators s) (bobbas s) v (next_player_id s)
    (next_entity_id s) (state_sequence s) (test_multiplayer s) (rand_calls s) (wire s).
Definition set_next_player_id (v : Z) (s : Server) : Server :=
  mkServer (players s) (spectators s) (bobbas s) (dragons s) v
    (next_entity_id s) (state_sequence s) (test_multiplayer s) (rand_calls s) (wire s).
Definition set_next_entity_id (v : Z) (s : Server) : Server :=
  mkServer (players s) (spectators s) (bobbas s) (dragons s) (next_player_id s)
    v (state_sequence s) (test_multiplayer s) (rand_calls s) (wire s).
Definition set_state_sequence (v : Z) (s : Server) : Server :=
  mkServer (players s) (spectators s) (bobbas s) (dragons s) (next_player_id s)
    (next_entity_id s) v (test_multiplayer s) (rand_calls s) (wire s).
Definition set_rand_calls (v : nat) (s : Server) : Server :=
  mkServer (players s) (spectators s) (bobbas s) (dragons s) (next_player_id s)
    (next_entity_id s) (state_sequence s) (test_multiplayer s) v (wire s).
Definition set_wire (v : list Datagram) (s : Server) : Server :=
  mkServer (players s) (spectators s) (bobbas s) (dragons s) (next_player_id s)
    (next_entity_id s) (state_sequence s) (test_multiplayer s) (rand_calls s) v.

(** [sendto (server_socket, pkt, len, 0, to, ...)]; failures are ignored. *)
Definition sendto (pkt : Packet) (len : Z) (to : sockaddr_in) (s : Server) : Server :=
  set_wire (wire s ++ [mkDatagram to pkt len]) s.

(** [++state_sequence] *)
Definition bump_state_sequence (s : Server) : Server :=
  set_state_sequence (u32 (state_sequence s + 1)) s.

(** One call of [rand]. *)
Definition rand `{LibC} (s : Server) : Z * Server :=
  (rand_stream (rand_calls s), set_rand_calls (S (rand_calls s)) s).


(** ** Endpoints and table look-ups *)

(** The comparison of two endpoints: [s_addr] and [sin_port] both equal. *)
Definition same_endpoint (a b : sockaddr_in) : Prop :=
  sin_addr a = sin_addr b ∧ sin_port a = sin_port b.

#[global] Instance same_endpoint_dec (a b : sockaddr_in) : Decision (same_endpoint a b) :=
  and_dec (Z.eq_dec (sin_addr a) (sin_addr b)) (Z.eq_dec (sin_port a) (sin_port b)).

(** The tables are fixed-size arrays scanned from slot 0; a table is the
    list of its slots, and a returned pointer is the slot index together
    with the slot's content. *)

Definition find_player_by_addr (s : Server) (addr : sockaddr_in) : option (nat * Player) :=
  list_find (λ p, pl_active p = true ∧ same_endpoint (pl_addr p) addr) (players s).

Definition find_player_by_id (s : Server) (id : Z) : option (nat * Player) :=
  list_find (λ p, pl_active p = true ∧ pl_player_id p = id) (players s).

Definition find_free_slot (s : Server) : option nat :=
  fst <$> list_find (λ p, pl_active p = false) (players s).

Definition count_active_players (s : Server) : Z :=
  Z.of_nat (length (filter (λ p, pl_active p = true) (players s))).

Section Game.

Context `{libc : LibC}.

(** [((float)rand() / RAND_MAX) * 2.0f * M_PI], stored in a [float]. *)
Definition random_angle (s : Server) : float * Server :=
  let '(r, s) := rand s in
  let turn := ((F32.of_Z r / F32.of_Z RAND_MAX) * F32.of_Z 2)%f32 in
  (F32.of_double (F64.of_float turn * F64.M_PI)%f64, s).

(** [cos(angle)] and [sin(angle)] stored in a [float]. *)
Definition cosf_of (angle : float) : float := F32.of_double (cos (F64.of_float angle)).
Definition sinf_of (angle : float) : float := F32.of_double (sin (F64.of_float angle)).
Definition atan2f_of (y x : float) : float :=
  F32.of_double (atan2 (F64.of_float y) (F64.of_float x)).

(** *** Spawn points *)

Definition spawn_points : list (float * float * float) :=
  [ (F32.of_Z (-60), F32.of_Z 2, F32.of_Z (-80));
    (F32.of_Z (-40), F32.of_Z 2, F32.of_Z (-100));
    (F32.of_Z (-80), F32.of_Z 2, F32.of_Z (-40)) ].

Definition NUM_SPAWN_POINTS : Z := 3.

Definition generate_spawn_position (s : Server) : (float * float * float) * Server :=
  let '(r, s) := rand s in
  let spawn_idx := Z.rem r NUM_SPAWN_POINTS in
  let '(angle, s) := random_angle s in
  let '(r, s) := rand s in
  let distance := ((F32.of_Z r / F32.of_Z RAND_MAX) * F32.of_Z 8)%f32 in
  let '(px, py, pz) :=
    default (F32.zero, F32.zero, F32.zero) (spawn_points !! Z.to_nat spawn_idx) in
  let x := F32.of_double
             (F64.of_float px + cos (F64.of_float angle) * F64.of_float distance)%f64 in
  let z := F32.of_double
             (F64.of_float pz + sin (F64.of_float angle) * F64.of_float distance)%f64 in
  ((x, py, z), s).

(** *** Chaser ("Bobba") AI *)

Definition spawn_bobba (x y z : float) (s : Server) : Server :=
  match list_find (λ b, bobba_active b = false) (bobbas s) with
  | None => s
  | Some (i, _) =>
    let id := next_entity_id s in
    let s := set_next_entity_id (u32 (id + 1)) s in
    let '(angle, s) := random_angle s in
    let b :=
      {| bobba_entity_id := id;
         bobba_pos_x := x; bobba_pos_y := y; bobba_pos_z := z;
         bobba_rot_y := F32.of_Z 0;
         bobba_state := BOBBA_ROAMING;
         bobba_health := F32.of_Z 100;
         bobba_active := true;
         bobba_target_player_id := 0;
         bobba_roam_dir_x := cosf_of angle;
         bobba_roam_dir_z := sinf_of angle;
         bobba_roam_timer := BOBBA_ROAM_CHANGE_TIME;
         bobba_attack_timer := F32.zero;
         bobba_attack_start_time := F32.zero;
         bobba_stun_timer := F32.zero;
         bobba_has_hit_this_attack := false |} in
    set_bobbas (<[i := b]> (bobbas s)) s
  end.

Definition distance_3d (x1 y1 z1 x2 y2 z2 : float) : float :=
  let dx := (x2 - x1)%f32 in
  let dy := (y2 - y1)%f32 in
  let dz := (z2 - z1)%f32 in
  sqrt (dx * dx + dy * dy + dz * dz)%f32.

(** The scan of [find_nearest_player] from slot [i] on, with the current
    [nearest] and [min_dist]. *)
Fixpoint nearest_from (x y z : float) (ps : list Player) (i : nat)
    (nearest : option (nat * Player)) (min_dist : float)
    : option (nat * Player) * float :=
  match ps with
  | [] => (nearest, min_dist)
  | p :: rest =>
    if pl_active p then
      let dist := distance_3d x y z (pd_pos_x (pl_data p)) (pd_pos_y (pl_data p))
                    (pd_pos_z (pl_data p)) in
      if (dist <? min_dist)%f32
      then nearest_from x y z rest (S i) (Some (i, p)) dist
      else nearest_from x y z rest (S i) nearest min_dist
    else nearest_from x y z rest (S i) nearest min_dist
  end.

(** Returns the nearest active player and, through [out_distance], the
    minimum distance (the initial [999999.0f] when nobody is active). *)
Definition find_nearest_player (x y z : float) (s : Server)
    : option (nat * Player) * float :=
  nearest_from x y z (players s) 0 None FAR_AWAY.

Definition bobba_pick_roam_direction (b : ServerBobba) (s : Server)
    : ServerBobba * Server :=
  let '(angle, s) := random_angle s in
  let b := SetBobba.roam_dir_x (cosf_of angle) b in
  let b := SetBobba.roam_dir_z (sinf_of angle) b in
  let b := SetBobba.roam_timer BOBBA_ROAM_CHANGE_TIME b in
  (b, s).

(** The packet [send_player_damage] builds once [state_sequence] has
    been incremented. *)
Definition player_damage_packet (target_player_id : Z) (damage : float)
    (attacker_entity_id : Z) (knockback_x knockback_y knockback_z : float)
    (s : Server) : PlayerDamagePacket :=
  {| pdmg_header := {| hdr_type := PKT_PLAYER_DAMAGE;
                       hdr_sequence := state_sequence s;
                       hdr_player_id := 0 |};
     pdmg_target_player_id := target_player_id;
     pdmg_damage := damage;
     pdmg_attacker_entity_id := attacker_entity_id;
     pdmg_knockback_x := knockback_x;
     pdmg_knockback_y := knockback_y;
     pdmg_knockback_z := knockback_z |}.

Definition send_player_damage (target_player_id : Z) (damage : float)
    (attacker_entity_id : Z) (knockback_x knockback_y knockback_z : float)
    (s : Server) : Server :=
  match find_player_by_id s target_player_id with
  | Some (_, target) =>
    if pl_active target then
      let s := bump_state_sequence s in
      let packet :=
        player_damage_packet target_player_id damage attacker_entity_id
          knockback_x knockback_y knockback_z s in
      sendto (PktPlayerDamage packet) sizeof_PlayerDamagePacket (pl_addr target) s
    else s
  | None => s
  end.

(** The knockback of a hit: the horizontal offset from the chaser to the
    target, normalised when longer than [0.01f], with [dy = 0.3f]. *)
Definition knockback_direction (b : ServerBobba) (target : Player)
    : float * float * float :=
  let dx := (pd_pos_x (pl_data target) - bobba_pos_x b)%f32 in
  let dy := F32.lit 3 10 in
  let dz := (pd_pos_z (pl_data target) - bobba_pos_z b)%f32 in
  let len := sqrt (dx * dx + dz * dz)%f32 in
  if (len >? F32.lit 1 100)%f32
  then ((dx / len)%f32, dy, (dz / len)%f32)
  else (dx, dy, dz).

(** [update_bobba_ai], the branch for [state == BOBBA_ATTACKING]. *)
Definition bobba_attack (b : ServerBobba) (delta : float) (s : Server)
    : ServerBobba * Server :=
  let b := SetBobba.attack_timer (bobba_attack_timer b - delta)%f32 b in
  let attack_progress :=
    (F32.of_Z 1 - bobba_attack_timer b / bobba_attack_start_time b)%f32 in
  let '(b, s) :=
    if negb (bobba_has_hit_this_attack b)
       && (attack_progress >=? BOBBA_HIT_WINDOW_START)%f32
       && (attack_progress <=? BOBBA_HIT_WINDOW_END)%f32
       && negb (bobba_target_player_id b =? 0)
    then
      match find_player_by_id s (bobba_target_player_id b) with
      | Some (_, target) =>
        if pl_active target then
          let dist := distance_3d (bobba_pos_x b) (bobba_pos_y b) (bobba_pos_z b)
                        (pd_pos_x (pl_data target)) (pd_pos_y (pl_data target))
                        (pd_pos_z (pl_data target)) in
          if (dist <=? BOBBA_ATTACK_DISTANCE * F32.of_Z 2)%f32 then
            let '(dx, dy, dz) := knockback_direction b target in
            let b := SetBobba.has_hit_this_attack true b in
            (b, send_player_damage (bobba_target_player_id b) BOBBA_ATTACK_DAMAGE
                  (bobba_entity_id b)
                  (dx * BOBBA_KNOCKBACK_FORCE)%f32
                  (dy * BOBBA_KNOCKBACK_FORCE)%f32
                  (dz * BOBBA_KNOCKBACK_FORCE)%f32 s)
          else (b, s)
        else (b, s)
      | None => (b, s)
      end
    else (b, s) in
  let b := if (bobba_attack_timer b <=? F32.of_Z 0)%f32
           then SetBobba.state BOBBA_CHASING b else b in
  (b, s).

(** [update_bobba_ai], "Find target" and "Look for new target if none":
    returns the locals [target] and [dist_to_target] as well. *)
Definition bobba_acquire_target (b : ServerBobba) (s : Server)
    : ServerBobba * Server * option Player * float :=
  let '(b, s, target, dist_to_target) :=
    if negb (bobba_target_player_id b =? 0) then
      match find_player_by_id s (bobba_target_player_id b) with
      | Some (_, p) =>
        if pl_active p then
          let dist := distance_3d (bobba_pos_x b) (bobba_pos_y b) (bobba_pos_z b)
                        (pd_pos_x (pl_data p)) (pd_pos_y (pl_data p))
                        (pd_pos_z (pl_data p)) in
          if (dist >? BOBBA_LOSE_RADIUS)%f32 then
            let b := SetBobba.target_player_id 0 b in
            let b := SetBobba.state BOBBA_ROAMING b in
            let '(b, s) := bobba_pick_roam_direction b s in
            (b, s, None, dist)
          else (b, s, Some p, dist)
        else (SetBobba.target_player_id 0 b, s, None, FAR_AWAY)
      | None => (SetBobba.target_player_id 0 b, s, None, FAR_AWAY)
      end
    else (b, s, None, FAR_AWAY) in
  if bobba_target_player_id b =? 0 then
    let '(nearest, dist_to_target) :=
      find_nearest_player (bobba_pos_x b) (bobba_pos_y b) (bobba_pos_z b) s in
    match nearest with
    | Some (_, p) =>
      if (dist_to_target <=? BOBBA_DETECTION_RADIUS)%f32 then
        let b := SetBobba.target_player_id (pl_player_id p) b in
        let b := SetBobba.state BOBBA_CHASING b in
        (b, s, Some p, dist_to_target)
      else (b, s, target, dist_to_target)
    | None => (b, s, target, dist_to_target)
    end
  else (b, s, target, dist_to_target).

(** [update_bobba_ai], the [switch (bobba->state)]. *)
Definition bobba_state_machine (b : ServerBobba) (delta : float) (s : Server)
    (target : option Player) (dist_to_target : float) : ServerBobba * Server :=
  if bobba_state b =? BOBBA_ROAMING then
    let b := SetBobba.pos_x
               (bobba_pos_x b + bobba_roam_dir_x b * BOBBA_ROAM_SPEED * delta)%f32 b in
    let b := SetBobba.pos_z
               (bobba_pos_z b + bobba_roam_dir_z b * BOBBA_ROAM_SPEED * delta)%f32 b in
    let b := SetBobba.rot_y (atan2f_of (bobba_roam_dir_x b) (bobba_roam_dir_z b)) b in
    let b := SetBobba.roam_timer (bobba_roam_timer b - delta)%f32 b in
    if (bobba_roam_timer b <=? F32.of_Z 0)%f32
    then bobba_pick_roam_direction b s
    else (b, s)
  else if bobba_state b =? BOBBA_CHASING then
    match target with
    | None => (SetBobba.state BOBBA_ROAMING b, s)
    | Some target =>
      if (dist_to_target <=? BOBBA_ATTACK_DISTANCE)%f32 then
        let b := SetBobba.state BOBBA_ATTACKING b in
        let b := SetBobba.attack_timer BOBBA_ATTACK_DURATION b in
        let b := SetBobba.attack_start_time BOBBA_ATTACK_DURATION b in
        let b := SetBobba.has_hit_this_attack false b in
        (b, s)
      else
        let dx := (pd_pos_x (pl_data target) - bobba_pos_x b)%f32 in
        let dz := (pd_pos_z (pl_data target) - bobba_pos_z b)%f32 in
        let len := sqrt (dx * dx + dz * dz)%f32 in
        if (len >? F32.lit 1 10)%f32 then
          let dx := (dx / len)%f32 in
          let dz := (dz / len)%f32 in
          let b := SetBobba.pos_x (bobba_pos_x b + dx * BOBBA_CHASE_SPEED * delta)%f32 b in
          let b := SetBobba.pos_z (bobba_pos_z b + dz * BOBBA_CHASE_SPEED * delta)%f32 b in
          let b := SetBobba.rot_y (atan2f_of dx dz) b in
          (b, s)
        else (b, s)
    end
  else (b, s).

(** [update_bobba_ai (bobba, delta)]: [b] is the slot [bobba] points to;
    nothing the routine calls reads or writes the [bobbas] table. *)
Definition update_bobba_ai (b : ServerBobba) (delta : float) (s : Server)
    : ServerBobba * Server :=
  if negb (bobba_active b) then (b, s)
  else if test_multiplayer s then (SetBobba.state BOBBA_IDLE b, s)
  else if (bobba_stun_timer b >? F32.of_Z 0)%f32 then
    let b := SetBobba.stun_timer (bobba_stun_timer b - delta)%f32 b in
    let b :=
      if (bobba_stun_timer b <=? F32.of_Z 0)%f32
      then SetBobba.state
             (if negb (bobba_target_player_id b =? 0)
              then BOBBA_CHASING else BOBBA_ROAMING) b
      else b in
    (b, s)
  else if bobba_state b =? BOBBA_ATTACKING then bobba_attack b delta s
  else
    let '(b, s, target, dist_to_target) := bobba_acquire_target b s in
    bobba_state_machine b delta s target dist_to_target.

(** The loop of [update_all_bobbas] over the slots [bs]. *)
Fixpoint update_bobbas_from (bs : list ServerBobba) (delta : float) (s : Server)
    : list ServerBobba * Server :=
  match bs with
  | [] => ([], s)
  | b :: rest =>
    let '(b, s) := if bobba_active b then update_bobba_ai b delta s else (b, s) in
    let '(rest, s) := update_bobbas_from rest delta s in
    (b :: rest, s)
  end.

Definition update_all_bobbas (delta : float) (s : Server) : Server :=
  let '(bs, s) := update_bobbas_from (bobbas s) delta s in
  set_bobbas bs s.

(** The loop of [respawn_all_bobbas] over the slots [bs]. *)
Fixpoint respawn_bobbas_from (bs : list ServerBobba) (s : Server)
    : list ServerBobba * Server :=
  match bs with
  | [] => ([], s)
  | b :: rest =>
    let '(b, s) :=
      if bobba_entity_id b =? 0 then (b, s)
      else
        let '(angle, s) := random_angle s in
        ({| bobba_entity_id := bobba_entity_id b;
            bobba_pos_x := F32.of_Z 5; bobba_pos_y := F32.of_Z 0;
            bobba_pos_z := F32.of_Z 5;
            bobba_rot_y := F32.of_Z 0;
            bobba_state := BOBBA_ROAMING;
            bobba_health := F32.of_Z 100;
            bobba_active := true;
            bobba_target_player_id := 0;
            bobba_roam_dir_x := cosf_of angle;
            bobba_roam_dir_z := sinf_of angle;
            bobba_roam_timer := BOBBA_ROAM_CHANGE_TIME;
            bobba_attack_timer := F32.of_Z 0;
            bobba_attack_start_time := bobba_attack_start_time b;
            bobba_stun_timer := F32.of_Z 0;
            bobba_has_hit_this_attack := false |}, s) in
    let '(rest, s) := respawn_bobbas_from rest s in
    (b :: rest, s)
  end.

Definition respawn_all_bobbas (s : Server) : Server :=
  let '(bs, s) := respawn_bobbas_from (bobbas s) s in
  set_bobbas bs s.

(** The loop of [respawn_all_players] over the slots [ps]. *)
Fixpoint respawn_players_from (ps : list Player) (s : Server)
    : list Player * Server :=
  match ps with
  | [] => ([], s)
  | p :: rest =>
    let '(p, s) :=
      if pl_active p then
        let d := SetPD.health (F32.of_Z 100) (pl_data p) in
        let d := SetPD.state STATE_IDLE d in
        let '((x, y, z), s) := generate_spawn_position s in
        (SetPlayer.data (SetPD.pos x y z d) p, s)
      else (p, s) in
    let '(rest, s) := respawn_players_from rest s in
    (p :: rest, s)
  end.

Definition respawn_all_players (s : Server) : Server :=
  let '(ps, s) := respawn_players_from (players s) s in
  set_players ps s.

(** *** Broadcasts *)

(** A loop [for (i...) if (players[i].active) sendto (...)]. *)
Definition send_to_active_players (pkt : Packet) (len : Z) (s : Server) : Server :=
  foldl (λ s p, if pl_active p then sendto pkt len (pl_addr p) s else s) s (players s).

Definition send_to_active_spectators (pkt : Packet) (len : Z) (s : Server) : Server :=
  foldl (λ s sp, if sp_active sp then sendto pkt len (sp_addr sp) s else s) s (spectators s).

Definition bobba_entity (b : ServerBobba) : EntityData :=
  {| ed_entity_type := ENTITY_BOBBA;
     ed_entity_id := bobba_entity_id b;
     ed_pos_x := bobba_pos_x b; ed_pos_y := bobba_pos_y b; ed_pos_z := bobba_pos_z b;
     ed_rot_y := bobba_rot_y b;
     ed_state := bobba_state b;
     ed_health := bobba_health b;
     ed_extra1 := 0;
     ed_extra2 := F32.zero |}.

Definition dragon_entity (d : ServerDragon) : EntityData :=
  {| ed_entity_type := ENTITY_DRAGON;
     ed_entity_id := dragon_entity_id d;
     ed_pos_x := dragon_pos_x d; ed_pos_y := dragon_pos_y d; ed_pos_z := dragon_pos_z d;
     ed_rot_y := dragon_rot_y d;
     ed_state := dragon_state d;
     ed_health := dragon_health d;
     ed_extra1 := u32 (dragon_laps_completed d);
     ed_extra2 := dragon_patrol_angle d |}.

(** The records the two filling loops write, in order: active chasers,
    then active patrollers, while [idx < MAX_ENTITIES]. *)
Definition entity_records (s : Server) : list EntityData :=
  take (Z.to_nat MAX_ENTITIES)
    ((bobba_entity <$> filter (λ b, bobba_active b = true) (bobbas s))
     ++ (dragon_entity <$> filter (λ d, dragon_active d = true) (dragons s))).

(** The packet [broadcast_entity_state] builds once [state_sequence] has
    been incremented: the zeroed structure with its header, the records
    and their count. *)
Definition entity_state_packet (s : Server) : EntityStatePacket :=
  let records := entity_records s in
  {| es_header := {| hdr_type := PKT_ENTITY_STATE;
                     hdr_sequence := state_sequence s;
                     hdr_player_id := 0 |};
     es_entity_count := u8 (Z.of_nat (length records));
     es_entities :=
       records ++ replicate (Z.to_nat MAX_ENTITIES - length records) EntityData_zero |}.

Definition broadcast_entity_state (s : Server) : Server :=
  let entity_count :=
    (length (filter (λ b, bobba_active b = true) (bobbas s))
     + length (filter (λ d, dragon_active d = true) (dragons s)))%nat in
  if decide (entity_count = 0%nat) then s
  else
    let s := bump_state_sequence s in
    let packet := entity_state_packet s in
    let idx := Z.of_nat (length (entity_records s)) in
    let len := sizeof_PacketHeader + 1 + idx * sizeof_EntityData in
    let s := send_to_active_players (PktEntityState packet) len s in
    send_to_active_spectators (PktEntityState packet) len s.

(** The records the filling loop of [broadcast_world_state] writes: the
    [data] of the active slots, while [count < MAX_PLAYERS]. *)
Definition world_records (s : Server) : list PlayerData :=
  take (Z.to_nat MAX_PLAYERS)
    (pl_data <$> filter (λ p, pl_active p = true) (players s)).

(** The packet [broadcast_world_state] builds once [state_sequence] has
    been incremented. *)
Definition world_state_packet (s : Server) : WorldStatePacket :=
  let records := world_records s in
  {| ws_header := {| hdr_type := PKT_WORLD_STATE;
                     hdr_sequence := state_sequence s;
                     hdr_player_id := 0 |};
     ws_state_seq := state_sequence s;
     ws_player_count := u8 (Z.of_nat (length records));
     ws_players :=
       records ++ replicate (Z.to_nat MAX_PLAYERS - length records) PlayerData_zero |}.

Definition broadcast_world_state (s : Server) : Server :=
  let s := bump_state_sequence s in
  let packet := world_state_packet s in
  let s := send_to_active_players (PktWorldState packet) sizeof_WorldStatePacket s in
  send_to_active_spectators (PktWorldState packet) sizeof_WorldStatePacket s.

(** *** Restart and damage *)

(** The packet [handle_game_restart] builds once [state_sequence] has
    been incremented. *)
Definition game_restart_packet (reason : Z) (s : Server) : GameRestartPacket :=
  {| gr_header := {| hdr_type := PKT_GAME_RESTART;
                     hdr_sequence := state_sequence s;
                     hdr_player_id := 0 |};
     gr_reason := reason |}.

Definition handle_game_restart (reason requester_id : Z) (s : Server) : Server :=
  let s := respawn_all_bobbas s in
  let s := respawn_all_players s in
  let s := bump_state_sequence s in
  let packet := game_restart_packet reason s in
  let s := send_to_active_players (PktGameRestart packet) sizeof_GameRestartPacket s in
  let s := broadcast_entity_state s in
  broadcast_world_state s.

Definition handle_entity_damage_server (entity_id : Z) (damage : float)
    (attacker_id : Z) (s : Server) : Server :=
  match list_find (λ b, bobba_active b = true ∧ bobba_entity_id b = entity_id) (bobbas s) with
  | Some (i, b) =>
    let b := SetBobba.health (bobba_health b - damage)%f32 b in
    let b := SetBobba.stun_timer (F32.lit 1 2) b in
    let b := SetBobba.state BOBBA_STUNNED b in
    let b := SetBobba.target_player_id attacker_id b in
    if (bobba_health b <=? F32.of_Z 0)%f32 then
      let b := SetBobba.active false b in
      handle_game_restart 1 0 (set_bobbas (<[i := b]> (bobbas s)) s)
    else set_bobbas (<[i := b]> (bobbas s)) s
  | None =>
    match list_find (λ d, dragon_active d = true ∧ dragon_entity_id d = entity_id) (dragons s) with
    | Some (i, d) =>
      let d := SetDragon.health (dragon_health d - damage)%f32 d in
      let d := if (dragon_health d <=? F32.of_Z 0)%f32
               then SetDragon.active false d else d in
      set_dragons (<[i := d]> (dragons s)) s
    | None => s
    end
  end.

(** *** Patroller ("Dragon") AI *)

Definition spawn_dragon (center_x center_z : float) (s : Server) : Server :=
  match list_find (λ d, dragon_active d = false) (dragons s) with
  | None => s
  | Some (i, _) =>
    let id := next_entity_id s in
    let s := set_next_entity_id (u32 (id + 1)) s in
    let d :=
      {| dragon_entity_id := id;
         dragon_pos_x := (center_x + DRAGON_PATROL_RADIUS)%f32;
         dragon_pos_y := DRAGON_PATROL_HEIGHT;
         dragon_pos_z := center_z;
         dragon_rot_y := F32.of_Z 0;
         dragon_state := DRAGON_PATROL;
         dragon_health := F32.of_Z 500;
         dragon_active := true;
         dragon_patrol_angle := F32.zero;
         dragon_patrol_center_x := center_x;
         dragon_patrol_center_z := center_z;
         dragon_laps_completed := 0;
         dragon_wait_timer := F32.zero;
         dragon_attack_timer := F32.zero;
         dragon_target_player_id := 0 |} in
    set_dragons (<[i := d]> (dragons s)) s
  end.

Definition get_dragon_patrol_position (d : ServerDragon) : float * float * float :=
  let angle := F64.of_float (dragon_patrol_angle d) in
  let out_x := F32.of_double
      (F64.of_float (dragon_patrol_center_x d)
       + cos angle * F64.of_float DRAGON_PATROL_RADIUS)%f64 in
  let out_z := F32.of_double
      (F64.of_float (dragon_patrol_center_z d)
       + sin angle * F64.of_float DRAGON_PATROL_RADIUS * F64.of_float (F32.lit 7 10))%f64 in
  let out_y := F32.of_double
      (F64.of_float DRAGON_PATROL_HEIGHT
       + sin (F64.of_float (dragon_patrol_angle d * F32.of_Z 2)%f32)
         * F64.of_float (F32.of_Z 5))%f64 in
  (out_x, out_y, out_z).

(** [2.0f * M_PI], a [double]. *)
Definition TWO_PI : double := (F64.of_float (F32.of_Z 2) * F64.M_PI)%f64.

(** A step of length [speed * delta] from the current position along the
    normalised offset [(dx, dy, dz)] of length [len]; [turn] tells whether
    the heading is updated. *)
Definition dragon_fly (d : ServerDragon) (dx dy dz len speed delta : float)
    (turn : bool) : ServerDragon :=
  if (len >? F32.lit 1 10)%f32 then
    let dx := (dx / len)%f32 in
    let dy := (dy / len)%f32 in
    let dz := (dz / len)%f32 in
    let d := SetDragon.pos (dragon_pos_x d + dx * speed * delta)%f32
                           (dragon_pos_y d + dy * speed * delta)%f32
                           (dragon_pos_z d + dz * speed * delta)%f32 d in
    if turn then SetDragon.rot_y (atan2f_of dx dz) d else d
  else d.

Definition update_dragon_ai (d : ServerDragon) (delta : float) (s : Server)
    : ServerDragon :=
  if negb (dragon_active d) then d
  else if test_multiplayer s then
    let d := SetDragon.state DRAGON_PATROL d in
    let d := SetDragon.patrol_angle
               (dragon_patrol_angle d + DRAGON_PATROL_SPEED * delta / DRAGON_PATROL_RADIUS)%f32 d in
    let d := if (F64.of_float (dragon_patrol_angle d) >? TWO_PI)%f64
             then SetDragon.patrol_angle
                    (F32.of_double (F64.of_float (dragon_patrol_angle d) - TWO_PI)%f64) d
             else d in
    let '(tx, ty, tz) := get_dragon_patrol_position d in
    SetDragon.pos tx ty tz d
  else if dragon_state d =? DRAGON_PATROL then
    let d := SetDragon.patrol_angle
               (dragon_patrol_angle d + DRAGON_PATROL_SPEED / DRAGON_PATROL_RADIUS * delta)%f32 d in
    let d :=
      if (F64.of_float (dragon_patrol_angle d) >=? TWO_PI)%f64 then
        let d := SetDragon.patrol_angle
                   (F32.of_double (F64.of_float (dragon_patrol_angle d) - TWO_PI)%f64) d in
        let d := SetDragon.laps_completed (dragon_laps_completed d + 1) d in
        if dragon_laps_completed d >=? DRAGON_LAPS_BEFORE_LANDING then
          let d := SetDragon.laps_completed 0 d in
          SetDragon.state DRAGON_FLYING_TO_LAND d
        else d
      else d in
    let '(tx, ty, tz) := get_dragon_patrol_position d in
    let dx := (tx - dragon_pos_x d)%f32 in
    let dy := (ty - dragon_pos_y d)%f32 in
    let dz := (tz - dragon_pos_z d)%f32 in
    let len := sqrt (dx * dx + dy * dy + dz * dz)%f32 in
    dragon_fly d dx dy dz len DRAGON_PATROL_SPEED delta true
  else if dragon_state d =? DRAGON_FLYING_TO_LAND then
    let dx := (DRAGON_LANDING_SPOT_X - dragon_pos_x d)%f32 in
    let dy := (DRAGON_LANDING_SPOT_Y + F32.of_Z 20 - dragon_pos_y d)%f32 in
    let dz := (DRAGON_LANDING_SPOT_Z - dragon_pos_z d)%f32 in
    let dist := sqrt (dx * dx + dy * dy + dz * dz)%f32 in
    let d := dragon_fly d dx dy dz dist DRAGON_PATROL_SPEED delta true in
    if (dist <? F32.of_Z 10)%f32 then SetDragon.state DRAGON_LANDING d else d
  else if dragon_state d =? DRAGON_LANDING then
    let dx := (DRAGON_LANDING_SPOT_X - dragon_pos_x d)%f32 in
    let dy := (DRAGON_LANDING_SPOT_Y - dragon_pos_y d)%f32 in
    let dz := (DRAGON_LANDING_SPOT_Z - dragon_pos_z d)%f32 in
    let dist := sqrt (dx * dx + dy * dy + dz * dz)%f32 in
    let speed := fminf (dist * F32.lit 1 2)%f32 DRAGON_PATROL_SPEED in
    let speed := fmaxf speed (F32.of_Z 2) in
    let d := dragon_fly d dx dy dz dist speed delta false in
    if (dist <? F32.of_Z 5)%f32 then
      let d := SetDragon.pos DRAGON_LANDING_SPOT_X DRAGON_LANDING_SPOT_Y
                 DRAGON_LANDING_SPOT_Z d in
      let d := SetDragon.state DRAGON_WAIT d in
      SetDragon.wait_timer F32.zero d
    else d
  else if dragon_state d =? DRAGON_WAIT then
    let d := SetDragon.wait_timer (dragon_wait_timer d + delta)%f32 d in
    let '(nearest, nearest_dist) :=
      find_nearest_player (dragon_pos_x d) (dragon_pos_y d) (dragon_pos_z d) s in
    match nearest with
    | Some (_, p) =>
      if (nearest_dist <? DRAGON_ATTACK_RANGE)%f32 then
        let d := SetDragon.state DRAGON_ATTACKING d in
        let d := SetDragon.attack_timer (F32.of_Z 2) d in
        SetDragon.target_player_id (pl_player_id p) d
      else if (dragon_wait_timer d >=? DRAGON_WAIT_TIME)%f32
      then SetDragon.state DRAGON_TAKING_OFF d else d
    | None =>
      if (dragon_wait_timer d >=? DRAGON_WAIT_TIME)%f32
      then SetDragon.state DRAGON_TAKING_OFF d else d
    end
  else if dragon_state d =? DRAGON_ATTACKING then
    let d := SetDragon.attack_timer (dragon_attack_timer d - delta)%f32 d in
    if (dragon_attack_timer d <=? F32.of_Z 0)%f32 then
      let dist :=
        match find_player_by_id s (dragon_target_player_id d) with
        | Some (_, target) =>
          if pl_active target then
            distance_3d (dragon_pos_x d) (dragon_pos_y d) (dragon_pos_z d)
              (pd_pos_x (pl_data target)) (pd_pos_y (pl_data target))
              (pd_pos_z (pl_data target))
          else FAR_AWAY
        | None => FAR_AWAY
        end in
      if (dist <? DRAGON_ATTACK_RANGE)%f32
      then SetDragon.attack_timer (F32.of_Z 2) d
      else SetDragon.wait_timer F32.zero (SetDragon.state DRAGON_WAIT d)
    else d
  else if dragon_state d =? DRAGON_TAKING_OFF then
    let d := SetDragon.pos (dragon_pos_x d)
               (dragon_pos_y d + F32.of_Z 15 * delta)%f32 (dragon_pos_z d) d in
    if (dragon_pos_y d >=? DRAGON_PATROL_HEIGHT * F32.lit 8 10)%f32 then
      let d := SetDragon.state DRAGON_PATROL d in
      SetDragon.patrol_angle F32.zero d
    else d
  else d.

Definition update_all_dragons (delta : float) (s : Server) : Server :=
  set_dragons
    ((λ d, if dragon_active d then update_dragon_ai d delta s else d) <$> dragons s) s.

(** *** Packet handlers

    [now] is the value [time (NULL)] returns during the call. *)

(** The first loop of [handle_join], "Remove from spectators if they
    were spectating": the first active spectator slot bound to
    [client_addr] is deactivated. *)
Definition promote_spectator (client_addr : sockaddr_in) (s : Server) : Server :=
  match list_find (λ sp, sp_active sp = true ∧ same_endpoint (sp_addr sp) client_addr)
          (spectators s) with
  | Some (i, sp) => set_spectators (<[i := SetSpectator.active false sp]> (spectators s)) s
  | None => s
  end.

Definition handle_join (pkt : JoinPacket) (client_addr : sockaddr_in) (now : Z)
    (s : Server) : Server :=
  let s := promote_spectator client_addr s in
  match find_player_by_addr s client_addr with
  | Some (i, existing) =>
    set_players (<[i := SetPlayer.last_seen now existing]> (players s)) s
  | None =>
    match find_free_slot s with
    | None => s
    | Some slot =>
      let id := next_player_id s in
      let s := set_next_player_id (u32 (id + 1)) s in
      let '((x, y, z), s) := generate_spawn_position s in
      let data :=
        {| pd_player_id := id;
           pd_pos_x := x; pd_pos_y := y; pd_pos_z := z;
           pd_rot_y := F32.of_Z 0;
           pd_state := STATE_IDLE;
           pd_combat_mode := 1;
           pd_character_class := 1;
           pd_health := F32.of_Z 100;
           pd_anim_name := strncpy str_Idle 32;
           pd_active := 1 |} in
      let player :=
        {| pl_player_id := id;
           pl_name := strncpy (join_player_name pkt) 31 ++ [Byte.x00];
           pl_addr := client_addr;
           pl_last_seen := now;
           pl_data := data;
           pl_active := true |} in
      let s := set_players (<[slot := player]> (players s)) s in
      let ack :=
        {| ack_header := {| hdr_type := PKT_JOIN_ACK;
                            hdr_sequence := u32 now;
                            hdr_player_id := id |};
           ack_assigned_id := id;
           ack_data := data |} in
      let s := sendto (PktJoinAck ack) sizeof_JoinAckPacket client_addr s in
      broadcast_world_state s
    end
  end.

Definition handle_update (pkt : UpdatePacket) (client_addr : sockaddr_in) (now : Z)
    (s : Server) : Server :=
  match find_player_by_id s (hdr_player_id (upd_header pkt)) with
  | None => s
  | Some (i, player) =>
    if decide (sin_addr (pl_addr player) ≠ sin_addr client_addr
               ∨ sin_port (pl_addr player) ≠ sin_port client_addr)
    then s
    else
      let player := SetPlayer.data (upd_data pkt) player in
      let player :=
        SetPlayer.data (SetPD.player_id (pl_player_id player) (pl_data player)) player in
      let player := SetPlayer.last_seen now player in
      set_players (<[i := player]> (players s)) s
  end.

Definition handle_spectate (hdr : PacketHeader) (client_addr : sockaddr_in) (now : Z)
    (s : Server) : Server :=
  match list_find (λ sp, sp_active sp = true ∧ same_endpoint (sp_addr sp) client_addr)
          (spectators s) with
  | Some (i, sp) =>
    set_spectators (<[i := SetSpectator.last_seen now sp]> (spectators s)) s
  | None =>
    match list_find (λ sp, sp_active sp = false) (spectators s) with
    | None => s
    | Some (slot, _) =>
      let sp := {| sp_addr := client_addr; sp_last_seen := now; sp_active := true |} in
      let s := set_spectators (<[slot := sp]> (spectators s)) s in
      let ack := {| hdr_type := PKT_SPECTATE_ACK;
                    hdr_sequence := hdr_sequence hdr;
                    hdr_player_id := 0 |} in
      sendto (PktHeader ack) sizeof_PacketHeader client_addr s
    end
  end.

Definition handle_leave (hdr : PacketHeader) (client_addr : sockaddr_in)
    (s : Server) : Server :=
  let s :=
    match find_player_by_id s (hdr_player_id hdr) with
    | Some (i, player) =>
      set_players (<[i := SetPlayer.active false player]> (players s)) s
    | None => s
    end in
  broadcast_world_state s.

Definition cleanup_inactive_players (now : Z) (s : Server) : Server :=
  set_players
    ((λ p, if pl_active p && (now - pl_last_seen p >? PLAYER_TIMEOUT_SEC)
           then SetPlayer.active false p else p) <$> players s) s.

(** *** Relays *)

(** The loop shared by [relay_entity_state], [relay_arrow_spawn] and
    [relay_arrow_hit]: every active session but the sender's endpoint. *)
Definition relay_to_others (packet : list Byte.byte) (len : Z)
    (sender_addr : sockaddr_in) (s : Server) : Server :=
  foldl (λ s p,
           if pl_active p then
             if decide (same_endpoint (pl_addr p) sender_addr) then s
             else sendto (PktRelay packet) len (pl_addr p) s
           else s) s (players s).

Definition relay_entity_state := relay_to_others.
Definition relay_arrow_spawn := relay_to_others.
Definition relay_arrow_hit := relay_to_others.

(** The host search of [relay_entity_damage] over the slots [ps]. *)
Fixpoint lowest_id_from (ps : list Player) (host : option Player) (lowest_id : Z)
    : option Player :=
  match ps with
  | [] => host
  | p :: rest =>
    if pl_active p && (pl_player_id p <? lowest_id)
    then lowest_id_from rest (Some p) (pl_player_id p)
    else lowest_id_from rest host lowest_id
  end.

Definition relay_entity_damage (pkt : list Byte.byte) (len : Z)
    (sender_addr : sockaddr_in) (s : Server) : Server :=
  match lowest_id_from (players s) None UINT32_MAX with
  | Some host => sendto (PktRelay pkt) len (pl_addr host) s
  | None => s
  end.

(** *** The event loop *)

(** The [switch (header->type)] of [main] on a received datagram of
    [recv_len = length buffer > 0] bytes. *)
Definition dispatch (buffer : list Byte.byte) (client_addr : sockaddr_in) (now : Z)
    (s : Server) : Server :=
  let recv_len := Z.of_nat (length buffer) in
  if recv_len >=? sizeof_PacketHeader then
    let header := as_PacketHeader buffer in
    if hdr_type header =? PKT_JOIN then
      if recv_len >=? sizeof_JoinPacket
      then handle_join (as_JoinPacket buffer) client_addr now s else s
    else if hdr_type header =? PKT_UPDATE then
      if recv_len >=? sizeof_UpdatePacket
      then handle_update (as_UpdatePacket buffer) client_addr now s else s
    else if hdr_type header =? PKT_LEAVE then
      handle_leave header client_addr s
    else if hdr_type header =? PKT_PING then
      let pong := {| hdr_type := PKT_PONG;
                     hdr_sequence := hdr_sequence header;
                     hdr_player_id := hdr_player_id header |} in
      sendto (PktHeader pong) sizeof_PacketHeader client_addr s
    else if hdr_type header =? PKT_ENTITY_DAMAGE then
      if recv_len >=? sizeof_EntityDamagePacket then
        let dmg := as_EntityDamagePacket buffer in
        handle_entity_damage_server (dmg_entity_id dmg) (dmg_damage dmg)
          (dmg_attacker_id dmg) s
      else s
    else if hdr_type header =? PKT_ARROW_SPAWN then
      if recv_len >=? sizeof_ArrowSpawnPacket
      then relay_arrow_spawn buffer recv_len client_addr s else s
    else if hdr_type header =? PKT_ARROW_HIT then
      if recv_len >=? sizeof_ArrowHitPacket
      then relay_arrow_hit buffer recv_len client_addr s else s
    else if hdr_type header =? PKT_HEARTBEAT then s
    else if hdr_type header =? PKT_SPECTATE then
      handle_spectate header client_addr now s
    else if hdr_type header =? PKT_GAME_RESTART then
      if recv_len >=? sizeof_GameRestartPacket then
        handle_game_restart (gr_reason (as_GameRestartPacket buffer))
          (hdr_player_id header) s
      else s
    else s
  else s.

Record timespec := mk_timespec { tv_sec : Z; tv_nsec : Z }.

(** The locals of [main] that live across iterations, with the globals. *)
Record Loop := mkLoop {
  server : Server;
  last_broadcast : timespec;
  last_entity_update : timespec;
  last_cleanup : timespec
}.

(** What one iteration reads from outside: the monotonic clock, the
    wall clock, and the result of [recvfrom] ([None] when nothing is
    pending or the call fails). *)
Record Inputs := mkInputs {
  clock_now : timespec;
  time_now : Z;
  received : option (sockaddr_in * list Byte.byte)
}.

Definition elapsed_ms (now last : timespec) : Z :=
  (tv_sec now - tv_sec last) * 1000 + Z.quot (tv_nsec now - tv_nsec last) 1000000.

(** The periodic AI update: [update_all_bobbas], [update_all_dragons],
    [broadcast_entity_state]. *)
Definition entity_update (entity_elapsed : Z) (s : Server) : Server :=
  let delta := (F32.of_Z entity_elapsed / F32.of_Z 1000)%f32 in
  broadcast_entity_state (update_all_dragons delta (update_all_bobbas delta s)).

(** One iteration of the [while (running)] loop. *)
Definition loop_iteration (inp : Inputs) (l : Loop) : Loop :=
  let now := clock_now inp in
  let broadcast_elapsed := elapsed_ms now (last_broadcast l) in
  let entity_elapsed := elapsed_ms now (last_entity_update l) in
  let cleanup_elapsed := elapsed_ms now (last_cleanup l) in
  let s := server l in
  let s :=
    match received inp with
    | Some (client_addr, payload) =>
      let buffer := take (Z.to_nat BUFFER_SIZE) payload in
      if Z.of_nat (length buffer) >? 0
      then dispatch buffer client_addr (time_now inp) s else s
    | None => s
    end in
  let '(s, lb) :=
    if broadcast_elapsed >=? BROADCAST_INTERVAL_MS
    then (broadcast_world_state s, now) else (s, last_broadcast l) in
  let '(s, le) :=
    if entity_elapsed >=? ENTITY_UPDATE_INTERVAL_MS
    then (entity_update entity_elapsed s, now) else (s, last_entity_update l) in
  let '(s, lc) :=
    if cleanup_elapsed >=? 1000
    then (cleanup_inactive_players (time_now inp) s, now) else (s, last_cleanup l) in
  {| server := s; last_broadcast := lb; last_entity_update := le; last_cleanup := lc |}.

(** The loop over the successive inputs of its iterations. *)
Definition run_loop (inputs : list Inputs) (l : Loop) : Loop :=
  foldl (λ l inp, loop_iteration inp l) l inputs.

End Game.

(** ** The state [main] starts the loop in *)

(** Zeroed tables of the declared capacities. *)
Definition server_zero (test : bool) : Server :=
  {| players := replicate (Z.to_nat MAX_PLAYERS) Player_zero;
     spectators := replicate (Z.to_nat MAX_SPECTATORS) Spectator_zero;
     bobbas := replicate (Z.to_nat MAX_BOBBAS) ServerBobba_zero;
     dragons := replicate (Z.to_nat MAX_DRAGONS) ServerDragon_zero;
     next_player_id := 1;
     next_entity_id := 1;
     state_sequence := 0;
     test_multiplayer := test;
     rand_calls := 0;
     wire := [] |}.

(** After "Spawn initial entities". *)
Definition server_init `{LibC} (test : bool) : Server :=
  spawn_dragon (F32.of_Z 0) (F32.of_Z 10)
    (spawn_bobba (F32.of_Z 5) (F32.of_Z 0) (F32.of_Z 5) (server_zero test)).

(** ** Executable scenarios *)

(** A deterministic C library to run scenarios with: [rand] always
    returns 0, [cos] is constantly 1 and [sin] and [atan2] constantly 0
    (the values of the angle 0 every draw then produces). *)
Definition libc_zero : LibC :=
  {| cos := λ _, F64.of_float (F32.of_Z 1);
     sin := λ _, S754_zero false;
     atan2 := λ _ _, S754_zero false;
     rand_stream := λ _, 0;
     RAND_MAX := 2147483647 |}.

(** Client-side encoders, as a client fills its packed structures. *)
Definition byte_of_Z (z : Z) : Byte.byte :=
  default Byte.x00 (Byte.of_N (Z.to_N (z mod 256))).

Definition put_u32 (z : Z) : list Byte.byte :=
  [byte_of_Z z; byte_of_Z (Z.shiftr z 8); byte_of_Z (Z.shiftr z 16);
   byte_of_Z (Z.shiftr z 24)].

Definition client_header (type sequence player_id : Z) : list Byte.byte :=
  byte_of_Z type :: put_u32 sequence ++ put_u32 player_id.

(** A join request with the name ["A"]. *)
Definition client_join (sequence : Z) : list Byte.byte :=
  client_header PKT_JOIN sequence 0 ++ Byte.x41 :: replicate 31 Byte.x00.

(** An entity-damage request; [damage_bits] is the binary32 pattern. *)
Definition client_entity_damage (sequence player_id entity_id damage_bits attacker_id : Z)
    : list Byte.byte :=
  client_header PKT_ENTITY_DAMAGE sequence player_id
  ++ put_u32 entity_id ++ put_u32 damage_bits ++ put_u32 attacker_id.

(** An update whose player-state record is all zero. *)
Definition client_update_zero (sequence player_id : Z) : list Byte.byte :=
  client_header PKT_UPDATE sequence player_id
  ++ replicate (Z.to_nat sizeof_PlayerData) Byte.x00.

Definition endpoint_A : sockaddr_in := {| sin_addr := 167772161; sin_port := 40001 |}.
Definition endpoint_B : sockaddr_in := {| sin_addr := 167772162; sin_port := 40002 |}.

(** The server after its start-up and one join from [endpoint_A] at
    wall-clock second 1000. *)
Definition server_one_player : Server :=
  dispatch (libc := libc_zero) (client_join 1) endpoint_A 1000
    (server_init (H := libc_zero) false).

(** ** Vocabulary of the specification *)

(** The endpoints of the active sessions and of the active spectators,
    in slot order. *)
Definition player_addrs (s : Server) : list sockaddr_in :=
  pl_addr <$> filter (λ p, pl_active p = true) (players s).

Definition spectator_addrs (s : Server) : list sockaddr_in :=
  sp_addr <$> filter (λ sp, sp_active sp = true) (spectators s).

(** The datagrams of one packet sent to each of [addrs] in turn. *)
Definition multicast (pkt : Packet) (len : Z) (addrs : list sockaddr_in) : list Datagram :=
  (λ a, mkDatagram a pkt len) <$> addrs.

(** The header a datagram starts with. *)
Definition packet_header (p : Packet) : PacketHeader :=
  match p with
  | PktHeader h => h
  | PktJoinAck a => ack_header a
  | PktWorldState w => ws_header w
  | PktEntityState e => es_header e
  | PktPlayerDamage d => pdmg_header d
  | PktGameRestart g => gr_header g
  | PktRelay buf => as_PacketHeader buf
  end.

Definition dg_type (d : Datagram) : Z := hdr_type (packet_header (dg_packet d)).
Definition dg_sequence (d : Datagram) : Z := hdr_sequence (packet_header (dg_packet d)).

(** The structure a datagram was sent from. *)
Inductive kind :=
| KHeader | KJoinAck | KWorldState | KEntityState | KPlayerDamage | KGameRestart | KRelay.

Definition kind_of (p : Packet) : kind :=
  match p with
  | PktHeader _ => KHeader
  | PktJoinAck _ => KJoinAck
  | PktWorldState _ => KWorldState
  | PktEntityState _ => KEntityState
  | PktPlayerDamage _ => KPlayerDamage
  | PktGameRestart _ => KGameRestart
  | PktRelay _ => KRelay
  end.

(** The sequence number of a datagram whose packet the server stamps with
    [++state_sequence]: world-state, entity-state, player-damage and
    game-restart.  The other datagrams (join-ack, pong, spectate-ack,
    relayed client packets) have no stamp. *)
Definition stamp (d : Datagram) : option Z :=
  match dg_packet d with
  | PktWorldState _ | PktEntityState _ | PktPlayerDamage _ | PktGameRestart _ =>
    Some (dg_sequence d)
  | _ => None
  end.

(** The counter [c] after [k] increments [++state_sequence]. *)
Definition bumped (k : nat) (c : Z) : Z := Nat.iter k (λ c, u32 (c + 1)) c.

(** Where the sender stands between two increments of the counter: no
    increment yet ([Stale]), just incremented ([Fresh]), or sending the
    packet [p] built after the last increment ([Cur p]). *)
Inductive chain_state := Stale | Fresh | Cur (p : Packet).

(** [chain c st k out K]: starting in [st] after [k] increments of a
    counter that was [c], the datagrams [out] are sent in this order while
    the counter goes through [K] increments in all; a stamped datagram
    carries the counter of the moment, and a new stamped packet is only
    sent after a new increment. *)
Inductive chain (c : Z) : chain_state → nat → list Datagram → nat → Prop :=
| chain_nil st k : chain c st k [] k
| chain_bump st k out K : chain c Fresh (S k) out K → chain c st k out K
| chain_plain st k d out K :
    stamp d = None → chain c st k out K → chain c st k (d :: out) K
| chain_first k d out K :
    stamp d = Some (bumped k c) →
    chain c (Cur (dg_packet d)) k out K → chain c Fresh k (d :: out) K
| chain_again k d out K :
    stamp d = Some (bumped k c) →
    chain c (Cur (dg_packet d)) k out K → chain c (Cur (dg_packet d)) k (d :: out) K.

(** [emits ks s s']: from [s] to [s'] the server only appended datagrams
    of the kinds [ks] to the wire, stamping as [chain] says, and its
    counter went through the increments counted there. *)
Definition emits (ks : list kind) (s s' : Server) : Prop :=
  ∃ out K,
    wire s' = wire s ++ out
    ∧ state_sequence s' = bumped K (state_sequence s)
    ∧ chain (state_sequence s) Stale 0 out K
    ∧ Forall (λ d, kind_of (dg_packet d) ∈ ks) out.

(** [runs ks s s']: [emits], and the spectator table is untouched. *)
Definition runs (ks : list kind) (s s' : Server) : Prop :=
  spectators s' = spectators s ∧ emits ks s s'.

(** [rand_only s s']: nothing but the count of [rand] calls changed. *)
Definition rand_only (s s' : Server) : Prop := ∃ n, s' = set_rand_calls n s.


(** [spectating i a s]: slot [i] of the spectator table is active and
    bound to the endpoint [a]. *)
Definition spectating (i : nat) (a : sockaddr_in) (s : Server) : Prop :=
  ∃ sp, spectators s !! i = Some sp ∧ sp_active sp = true ∧ sp_addr sp = a.

(** The datagram an iteration receives is a join request from [addr]. *)
Definition join_from (addr : sockaddr_in) (inp : Inputs) : Prop :=
  ∃ payload, received inp = Some (addr, payload)
             ∧ hdr_type (as_PacketHeader payload) = PKT_JOIN.


(** A heartbeat from the session with identifier 1. *)
Definition client_heartbeat (sequence : Z) : list Byte.byte :=
  client_header PKT_HEARTBEAT sequence 1.

(** An update of session [player_id] placing it at the position with the
    binary32 patterns [x_bits], [y_bits], [z_bits], with health 100,
    armed, idle. *)
Definition client_update (sequence player_id x_bits y_bits z_bits : Z) : list Byte.byte :=
  client_header PKT_UPDATE sequence player_id
  ++ put_u32 player_id
  ++ put_u32 x_bits ++ put_u32 y_bits ++ put_u32 z_bits
  ++ put_u32 0
  ++ [byte_of_Z 0; byte_of_Z 1; byte_of_Z 1]
  ++ put_u32 1120403456
  ++ strncpy str_Idle 32
  ++ [byte_of_Z 1].

(** The inputs of an iteration at [ms] milliseconds of monotonic time
    and wall-clock second [1000 + ms / 1000]. *)
Definition at_ms (ms : Z) (rx : option (sockaddr_in * list Byte.byte)) : Inputs :=
  {| clock_now := {| tv_sec := ms / 1000; tv_nsec := (ms mod 1000) * 1000000 |};
     time_now := 1000 + ms / 1000;
     received := rx |}.

(** The loop entered right after the join of [server_one_player]. *)
Definition loop_one_player : Loop :=
  {| server := server_one_player;
     last_broadcast := {| tv_sec := 0; tv_nsec := 0 |};
     last_entity_update := {| tv_sec := 0; tv_nsec := 0 |};
     last_cleanup := {| tv_sec := 0; tv_nsec := 0 |} |}.

(** Iterations every 50 ms from [from] ms on, [n] of them, receiving
    nothing. *)
Definition idle_ticks (from : Z) (n : nat) : list Inputs :=
  (λ k, at_ms (from + 50 * Z.of_nat k) None) <$> seq 0 n.

(** One heartbeat a second from the session's endpoint, for [n] seconds. *)
Definition heartbeats (n : nat) : list Inputs :=
  (λ k, at_ms (1000 * Z.of_nat (S k)) (Some (endpoint_A, client_heartbeat (Z.of_nat k))))
  <$> seq 0 n.

(** The session moves to (5, 0, 6.5), at distance 1.5 of the chaser
    spawned at (5, 0, 5), and [n] iterations follow, 50 ms apart. *)
Definition bite_inputs (n : nat) : list Inputs :=
  at_ms 10 (Some (endpoint_A, client_update 2 1 1084227584 0 1087373312))
  :: idle_ticks 50 n.

(** The server 12 iterations into that scenario: the chaser is attacking
    and has landed its hit. *)
Definition server_after_bite : Server :=
  server (run_loop (libc := libc_zero) (bite_inputs 12) loop_one_player).

(** *** The attack cycle of a chaser *)

(** The test of [update_bobba_ai] on the attack progress
    [1 - attack_timer / attack_start_time]. *)
Definition in_hit_window (attack_timer attack_start_time : float) : bool :=
  let attack_progress := (F32.of_Z 1 - attack_timer / attack_start_time)%f32 in
  (attack_progress >=? BOBBA_HIT_WINDOW_START)%f32
  && (attack_progress <=? BOBBA_HIT_WINDOW_END)%f32.

(** The AI updates of one chaser during one attack.  Each update comes
    with the measured [delta] of its iteration and with the session table
    as the packets received since the previous update have left it;
    [update_bobba_ai] is called for as long as the chaser is in the
    attacking state. *)
Fixpoint attack_cycle `{LibC} (updates : list (float * list Player))
    (b : ServerBobba) (s : Server) : ServerBobba * Server :=
  match updates with
  | [] => (b, s)
  | (delta, table) :: updates =>
    if bobba_state b =? BOBBA_ATTACKING then
      let '(b, s) := update_bobba_ai b delta (set_players table s) in
      attack_cycle updates b s
    else (b, s)
  end.

(** The first update of the attack that finds the progress inside the
    hit window, if any: the timer is decremented by each [delta] in turn,
    and the attack is over once it is zero or below. *)
Fixpoint hit_update (deltas : list float) (attack_timer attack_start_time : float)
    : option nat :=
  match deltas with
  | [] => None
  | delta :: deltas =>
    let attack_timer := (attack_timer - delta)%f32 in
    if in_hit_window attack_timer attack_start_time then Some 0%nat
    else if (attack_timer <=? F32.of_Z 0)%f32 then None
    else S <$> hit_update deltas attack_timer attack_start_time
  end.

(** The session a chaser is bound to, in a session table. *)
Definition target_in (table : list Player) (b : ServerBobba) : option (nat * Player) :=
  list_find (λ p, pl_active p = true ∧ pl_player_id p = bobba_target_player_id b) table.

(** The player-damage datagram of a hit of [b] on [target], built when
    the counter is [state_sequence s] before its increment. *)
Definition bite_datagram (b : ServerBobba) (target : Player) (s : Server) : Datagram :=
  let '(dx, dy, dz) := knockback_direction b target in
  mkDatagram (pl_addr target)
    (PktPlayerDamage
       (player_damage_packet (bobba_target_player_id b) BOBBA_ATTACK_DAMAGE
          (bobba_entity_id b)
          (dx * BOBBA_KNOCKBACK_FORCE)%f32
          (dy * BOBBA_KNOCKBACK_FORCE)%f32
          (dz * BOBBA_KNOCKBACK_FORCE)%f32
          (bump_state_sequence s)))
    sizeof_PlayerDamagePacket.

(** The measured [delta] of an iteration that comes 50 ms after the last
    AI update: [entity_elapsed / 1000.0f]. *)
Definition delta_50ms : float := (F32.of_Z 50 / F32.of_Z 1000)%f32.

(** The target within reach of a hit: at most twice the attack distance
    from the chaser. *)
Definition in_hit_range (b : ServerBobba) (target : Player) : bool :=
  (distance_3d (bobba_pos_x b) (bobba_pos_y b) (bobba_pos_z b)
     (pd_pos_x (pl_data target)) (pd_pos_y (pl_data target)) (pd_pos_z (pl_data target))
   <=? BOBBA_ATTACK_DISTANCE * F32.of_Z 2)%f32.

(** Updates that all measure the same [elapsed] milliseconds. *)
Definition steady_deltas (elapsed : Z) (n : nat) : list float :=
  replicate n (F32.of_Z elapsed / F32.of_Z 1000)%f32.

(** [n] updates [elapsed] milliseconds apart during which the session
    table stays [table]. *)
Definition steady_updates (elapsed : Z) (n : nat) (table : list Player)
    : list (float * list Player) :=
  (λ delta, (delta, table)) <$> steady_deltas elapsed n.

(** The server one iteration into the bite scenario: the chaser has just
    entered the attacking state. *)
Definition server_attack_begins : Server :=
  server (run_loop (libc := libc_zero) (bite_inputs 1) loop_one_player).

(** The session moves to (5.005, 0, 5), 0.005 away from the chaser, and
    [n] iterations follow, 50 ms apart. *)
Definition close_inputs (n : nat) : list Inputs :=
  at_ms 10 (Some (endpoint_A, client_update 2 1 1084238070 0 1084227584))
  :: idle_ticks 50 n.

(** The bite scenario with a stalled loop: the AI updates come at 50 ms,
    1250 ms and 1550 ms. *)
Definition slow_inputs : list Inputs :=
  [at_ms 10 (Some (endpoint_A, client_update 2 1 1084227584 0 1087373312));
   at_ms 50 None; at_ms 1250 None; at_ms 1550 None].

(** ** Further client datagrams and scenarios *)

Definition client_leave (sequence player_id : Z) : list Byte.byte :=
  client_header PKT_LEAVE sequence player_id.

Definition client_spectate (sequence : Z) : list Byte.byte :=
  client_header PKT_SPECTATE sequence 0.

(** An arrow-spawn packet whose fields after the header are all zero. *)
Definition client_arrow_spawn (sequence player_id : Z) : list Byte.byte :=
  client_header PKT_ARROW_SPAWN sequence player_id
  ++ replicate (Z.to_nat (sizeof_ArrowSpawnPacket - sizeof_PacketHeader)) Byte.x00.

Definition client_game_restart (sequence player_id reason : Z) : list Byte.byte :=
  client_header PKT_GAME_RESTART sequence player_id ++ put_u32 reason.

(** The server after a second join, from [endpoint_B]. *)
Definition server_two_players : Server :=
  dispatch (libc := libc_zero) (client_join 2) endpoint_B 1000 server_one_player.

Definition endpoint_n (n : nat) : sockaddr_in :=
  {| sin_addr := 167772160 + Z.of_nat n; sin_port := 40000 |}.

(** The server after [MAX_PLAYERS] joins from as many endpoints, and a
    spectate request from [endpoint_B]. *)
Definition server_full : Server :=
  dispatch (libc := libc_zero) (client_spectate 1) endpoint_B 1000
    (foldl (λ s k, dispatch (libc := libc_zero) (client_join (Z.of_nat k)) (endpoint_n k) 1000 s)
       (server_init (H := libc_zero) false) (seq 1 32)).

(** [respawned p p']: what [respawn_all_players] makes of a session slot.
    An active session keeps everything but its health, state and
    position, which become 100, idle and a spawn position at height 2; an
    inactive slot is left as it is. *)
Definition respawned (p p' : Player) : Prop :=
  if pl_active p then
    ∃ x z,
      p' = SetPlayer.data
             (SetPD.pos x (F32.of_Z 2) z
                (SetPD.state STATE_IDLE (SetPD.health (F32.of_Z 100) (pl_data p)))) p
  else p' = p.

(** ** Vocabulary for the session table *)

(** [same_sessions s s']: the session table, the next identifier and the
    test flag are as they were. *)
Definition same_sessions (s s' : Server) : Prop :=
  players s' = players s
  ∧ next_player_id s' = next_player_id s
  ∧ test_multiplayer s' = test_multiplayer s.

(** [kept_slot now p p']: the slot is bound as before (identifier,
    endpoint, active flag) and its last-seen second is the old one or
    [now]. *)
Definition kept_slot (now : Z) (p p' : Player) : Prop :=
  pl_player_id p' = pl_player_id p
  ∧ pl_addr p' = pl_addr p
  ∧ pl_active p' = pl_active p
  ∧ (pl_last_seen p' = pl_last_seen p ∨ pl_last_seen p' = now).

Definition kept_sessions (now : Z) (s s' : Server) : Prop :=
  Forall2 (kept_slot now) (players s) (players s')
  ∧ next_player_id s' = next_player_id s
  ∧ test_multiplayer s' = test_multiplayer s.

(** [session_born now s s']: one inactive slot has become an active
    session with the next identifier, which has been incremented. *)
Definition session_born (now : Z) (s s' : Server) : Prop :=
  ∃ slot q player,
    players s !! slot = Some q ∧ pl_active q = false
    ∧ players s' = <[slot := player]> (players s)
    ∧ pl_player_id player = next_player_id s
    ∧ pl_active player = true
    ∧ pl_last_seen player = now
    ∧ next_player_id s' = u32 (next_player_id s + 1)
    ∧ test_multiplayer s' = test_multiplayer s.

(** [session_left id s s']: one active session with identifier [id] has
    been deactivated. *)
Definition session_left (id : Z) (s s' : Server) : Prop :=
  ∃ i p,
    players s !! i = Some p ∧ pl_active p = true ∧ pl_player_id p = id
    ∧ players s' = <[i := SetPlayer.active false p]> (players s)
    ∧ next_player_id s' = next_player_id s
    ∧ test_multiplayer s' = test_multiplayer s.

(** The identifiers of the active sessions are pairwise distinct and
    below the next identifier. *)
Definition unique_session_ids (s : Server) : Prop :=
  (∀ i p, players s !! i = Some p → pl_active p = true →
     pl_player_id p < next_player_id s)
  ∧ (∀ i j p q, players s !! i = Some p → players s !! j = Some q →
       pl_active p = true → pl_active q = true →
       pl_player_id p = pl_player_id q → i = j).

(** [live_session t0 i id a s]: slot [i] holds an active session with
    identifier [id] and endpoint [a], last seen at second [t0] or later. *)
Definition live_session (t0 : Z) (i : nat) (id : Z) (a : sockaddr_in) (s : Server) : Prop :=
  ∃ p, players s !! i = Some p ∧ pl_active p = true ∧ pl_player_id p = id
       ∧ pl_addr p = a ∧ t0 ≤ pl_last_seen p.

(** The datagram an iteration receives is a leave naming [id]. *)
Definition leave_of (id : Z) (inp : Inputs) : Prop :=
  ∃ addr payload, received inp = Some (addr, payload)
                  ∧ hdr_type (as_PacketHeader payload) = PKT_LEAVE
                  ∧ hdr_player_id (as_PacketHeader payload) = id.


(** The loop as [main] enters it, with the timers at the monotonic
    origin. *)
Definition loop_init : Loop :=
  {| server := server_init (H := libc_zero) false;
     last_broadcast := {| tv_sec := 0; tv_nsec := 0 |};
     last_entity_update := {| tv_sec := 0; tv_nsec := 0 |};
     last_cleanup := {| tv_sec := 0; tv_nsec := 0 |} |}.

(** Two joins, from [endpoint_A] and [endpoint_B], then an update of the
    first session and a leave of the second, 50 ms apart. *)
Definition two_joins_inputs : list Inputs :=
  [at_ms 50 (Some (endpoint_A, client_join 1));
   at_ms 100 (Some (endpoint_B, client_join 2));
   at_ms 150 (Some (endpoint_A, client_update 3 1 1084227584 0 1087373312));
   at_ms 200 (Some (endpoint_B, client_leave 4 2))].


(** The distance [find_nearest_player] computes from [(x, y, z)] to a
    session. *)
Definition distance_to (x y z : float) (p : Player) : float :=
  distance_3d x y z (pd_pos_x (pl_data p)) (pd_pos_y (pl_data p)) (pd_pos_z (pl_data p)).

(** [whole_world_state d]: the datagram [d] carries the world-state type
    exactly when it is sent from a [WorldStatePacket], and it is then the
    whole structure, [sizeof (WorldStatePacket)] bytes of it. *)
Definition whole_world_state (d : Datagram) : Prop :=
  match dg_packet d with
  | PktWorldState _ =>
    dg_type d = PKT_WORLD_STATE ∧ dg_len d = sizeof_WorldStatePacket
  | _ => dg_type d ≠ PKT_WORLD_STATE
  end.

(** [whole_world_states s s']: from [s] to [s'] the server only appended
    datagrams to the wire, every one of them as [whole_world_state]
    says. *)
Definition whole_world_states (s s' : Server) : Prop :=
  ∃ out, wire s' = wire s ++ out ∧ Forall whole_world_state out.

(** * Properties *)

(** ** Records and the wire *)

Lemma set_wire_id (s : Server) : set_wire (wire s) s = s.
Proof. by destruct s. Qed.

Lemma set_wire_set_wire (w1 w2 : list Datagram) (s : Server) :
  set_wire w2 (set_wire w1 s) = set_wire w2 s.
Proof. reflexivity. Qed.

Lemma same_endpoint_eq (a b : sockaddr_in) : same_endpoint a b ↔ a = b.
Proof.
  destruct a, b; unfold same_endpoint; simpl; split.
  - by intros [-> ->].
  - intros [= -> ->]; done.
Qed.

(** A sending loop over a table appends one datagram per selected slot
    and changes nothing else. *)
Lemma foldl_sendto {A} (sel : A → bool) (to : A → sockaddr_in)
    (pkt : Packet) (len : Z) (l : list A) (s : Server) :
  foldl (λ s x, if sel x then sendto pkt len (to x) s else s) s l
  = set_wire (wire s ++ multicast pkt len (to <$> filter (λ x, sel x = true) l)) s.
Proof.
  revert s; induction l as [|x l IH]; intros s; simpl.
  - by rewrite app_nil_r, set_wire_id.
  - rewrite IH, filter_cons. destruct (sel x) eqn:E; simpl; [|done].
    unfold sendto; simpl. by rewrite <- app_assoc.
Qed.

Lemma send_to_active_players_eq (pkt : Packet) (len : Z) (s : Server) :
  send_to_active_players pkt len s
  = set_wire (wire s ++ multicast pkt len (player_addrs s)) s.
Proof. apply foldl_sendto. Qed.

Lemma send_to_active_spectators_eq (pkt : Packet) (len : Z) (s : Server) :
  send_to_active_spectators pkt len s
  = set_wire (wire s ++ multicast pkt len (spectator_addrs s)) s.
Proof. apply foldl_sendto. Qed.

Lemma multicast_app (pkt : Packet) (len : Z) (l1 l2 : list sockaddr_in) :
  multicast pkt len (l1 ++ l2) = multicast pkt len l1 ++ multicast pkt len l2.
Proof. apply fmap_app. Qed.

(** A broadcast: the packet goes to every active session, then to every
    active spectator. *)
Lemma broadcast_eq (pkt : Packet) (len : Z) (s : Server) :
  send_to_active_spectators pkt len (send_to_active_players pkt len s)
  = set_wire (wire s ++ multicast pkt len (player_addrs s ++ spectator_addrs s)) s.
Proof.
  rewrite send_to_active_players_eq, send_to_active_spectators_eq.
  rewrite multicast_app, app_assoc. reflexivity.
Qed.

Lemma broadcast_world_state_eq (s : Server) :
  broadcast_world_state s
  = set_wire (wire s ++ multicast (PktWorldState (world_state_packet (bump_state_sequence s)))
                          sizeof_WorldStatePacket (player_addrs s ++ spectator_addrs s))
      (bump_state_sequence s).
Proof. unfold broadcast_world_state. by rewrite broadcast_eq. Qed.

(** ** C8: an update from the wrong endpoint *)

Lemma dispatch_update (buffer : list Byte.byte) (client_addr : sockaddr_in)
    (now : Z) `{LibC} (s : Server) :
  hdr_type (as_PacketHeader buffer) = PKT_UPDATE →
  dispatch buffer client_addr now s
  = if (Z.of_nat (length buffer) >=? sizeof_UpdatePacket)
    then handle_update (as_UpdatePacket buffer) client_addr now s else s.
Proof.
  intros Ht. unfold dispatch. rewrite Ht. simpl.
  destruct (Z.of_nat (length buffer) >=? sizeof_PacketHeader) eqn:E; [done|].
  destruct (Z.of_nat (length buffer) >=? sizeof_UpdatePacket) eqn:E'; [|done].
  unfold sizeof_UpdatePacket, sizeof_PacketHeader, sizeof_PlayerData in *. lia.
Qed.

(** C8.  An update datagram whose source endpoint differs from the
    endpoint bound to the session its header names is dropped: the whole
    server state, the wire included, is left as it was. *)
Theorem update_from_wrong_endpoint_dropped `{LibC} (s : Server)
    (buffer : list Byte.byte) (client_addr : sockaddr_in) (now : Z)
    (i : nat) (player : Player) :
  hdr_type (as_PacketHeader buffer) = PKT_UPDATE →
  find_player_by_id s (hdr_player_id (as_PacketHeader buffer)) = Some (i, player) →
  ¬ same_endpoint (pl_addr player) client_addr →
  dispatch buffer client_addr now s = s.
Proof.
  intros Ht Hfind Hne. rewrite dispatch_update by done.
  destruct (_ >=? _); [|done].
  unfold handle_update, as_UpdatePacket. cbn [upd_header upd_data]. rewrite Hfind.
  destruct (decide _) as [_|Hsame]; [done|].
  exfalso. apply Hne. unfold same_endpoint.
  split; apply dec_stable; intros ?; apply Hsame; tauto.
Qed.

Lemma update_from_wrong_endpoint_dropped_witness :
  let s := server_one_player in
  let buffer := client_update_zero 7 1 in
  let player := default Player_zero (players s !! 0%nat) in
  hdr_type (as_PacketHeader buffer) = PKT_UPDATE
  ∧ find_player_by_id s (hdr_player_id (as_PacketHeader buffer)) = Some (0%nat, player)
  ∧ ¬ same_endpoint (pl_addr player) endpoint_B
  ∧ dispatch (libc := libc_zero) buffer endpoint_B 1001 s = s.
Proof.
  intros s buffer player.
  assert (H1 : hdr_type (as_PacketHeader buffer) = PKT_UPDATE) by (by vm_compute).
  assert (H2 : find_player_by_id s (hdr_player_id (as_PacketHeader buffer))
               = Some (0%nat, player)) by (by vm_compute).
  assert (H3 : ¬ same_endpoint (pl_addr player) endpoint_B).
  { vm_compute. intros [E _]. discriminate E. }
  split; [exact H1|]. split; [exact H2|]. split; [exact H3|].
  exact (update_from_wrong_endpoint_dropped (H := libc_zero) s buffer endpoint_B 1001
           0%nat player H1 H2 H3).
Defined.

(** ** C9: a leave from any endpoint *)

Lemma dispatch_leave `{LibC} (buffer : list Byte.byte) (client_addr : sockaddr_in)
    (now : Z) (s : Server) :
  hdr_type (as_PacketHeader buffer) = PKT_LEAVE →
  sizeof_PacketHeader ≤ Z.of_nat (length buffer) →
  dispatch buffer client_addr now s = handle_leave (as_PacketHeader buffer) client_addr s.
Proof.
  intros Ht Hlen. unfold dispatch. rewrite Ht. simpl.
  destruct (Z.of_nat (length buffer) >=? sizeof_PacketHeader) eqn:E; [done|lia].
Qed.

(** C9.  A leave datagram of at least header size deactivates the active
    session whose identifier is the header's sender identifier, whatever
    endpoint [client_addr] it comes from, and broadcasts the world state
    at once: the result is [broadcast_world_state] run on the table with
    that slot deactivated.  So the slot is inactive afterwards, the
    outbound counter has advanced by one, and a world-state datagram has
    gone to every remaining session and every spectator. *)
Theorem leave_deactivates_from_any_endpoint `{LibC} (s : Server)
    (buffer : list Byte.byte) (client_addr : sockaddr_in) (now : Z)
    (i : nat) (player : Player) :
  hdr_type (as_PacketHeader buffer) = PKT_LEAVE →
  sizeof_PacketHeader ≤ Z.of_nat (length buffer) →
  find_player_by_id s (hdr_player_id (as_PacketHeader buffer)) = Some (i, player) →
  let left := set_players (<[i := SetPlayer.active false player]> (players s)) s in
  let s' := dispatch buffer client_addr now s in
  s' = broadcast_world_state left
  ∧ players s' = <[i := SetPlayer.active false player]> (players s)
  ∧ (pl_active <$> players s' !! i) = Some false
  ∧ state_sequence s' = u32 (state_sequence s + 1)
  ∧ wire s' = wire s ++ multicast (PktWorldState (world_state_packet (bump_state_sequence left)))
                          sizeof_WorldStatePacket (player_addrs left ++ spectator_addrs s).
Proof.
  intros Ht Hlen Hfind left s'. subst s' left.
  rewrite dispatch_leave by done. unfold handle_leave. rewrite Hfind.
  split; [reflexivity|]. rewrite broadcast_world_state_eq.
  cbn [players state_sequence wire set_wire set_players bump_state_sequence
       set_state_sequence spectators].
  split; [reflexivity|]. split; [|split; reflexivity].
  apply list_find_Some in Hfind as (Hi & _ & _).
  rewrite list_lookup_insert_eq; [done|]. by eapply lookup_lt_Some.
Qed.

Lemma leave_deactivates_from_any_endpoint_witness :
  let s := server_one_player in
  let buffer := client_header PKT_LEAVE 9 1 in
  let player := default Player_zero (players s !! 0%nat) in
  hdr_type (as_PacketHeader buffer) = PKT_LEAVE
  ∧ sizeof_PacketHeader ≤ Z.of_nat (length buffer)
  ∧ find_player_by_id s (hdr_player_id (as_PacketHeader buffer)) = Some (0%nat, player)
  ∧ pl_addr player ≠ endpoint_B
  ∧ (pl_active <$> players (dispatch (libc := libc_zero) buffer endpoint_B 1001 s) !! 0%nat)
    = Some false.
Proof.
  intros s buffer player.
  assert (H1 : hdr_type (as_PacketHeader buffer) = PKT_LEAVE) by (by vm_compute).
  assert (H2 : sizeof_PacketHeader ≤ Z.of_nat (length buffer)) by (by vm_compute).
  assert (H3 : find_player_by_id s (hdr_player_id (as_PacketHeader buffer))
               = Some (0%nat, player)) by (by vm_compute).
  split; [exact H1|]. split; [exact H2|]. split; [exact H3|].
  split; [by vm_compute|].
  exact (proj1 (proj2 (proj2
    (leave_deactivates_from_any_endpoint (H := libc_zero) s buffer endpoint_B 1001
       0%nat player H1 H2 H3)))).
Defined.

(** ** The outbound counter along the wire *)

Lemma bumped_add (a k : nat) (c : Z) : bumped (a + k) c = bumped k (bumped a c).
Proof.
  unfold bumped. rewrite Nat.add_comm. apply Nat.iter_add.
Qed.


Lemma u32_range (z : Z) : 0 ≤ u32 z < 2 ^ 32.
Proof. unfold u32. apply Z.mod_pos_bound. lia. Qed.


Lemma chain_weaken c st k out K :
  chain c Stale k out K → chain c st k out K.
Proof.
  intros H. remember Stale as st0 eqn:E. revert st E.
  induction H; intros st' E; subst; try discriminate.
  - constructor.
  - by apply chain_bump.
  - apply chain_plain; [done|]. by apply IHchain.
Qed.

Lemma chain_app c st k out1 K1 out2 K2 :
  chain c st k out1 K1 → chain c Stale K1 out2 K2 → chain c st k (out1 ++ out2) K2.
Proof.
  intros H1 H2. induction H1; simpl.
  - by apply chain_weaken.
  - apply chain_bump. by apply IHchain.
  - apply chain_plain; [done|]. by apply IHchain.
  - apply chain_first; [done|]. by apply IHchain.
  - apply chain_again; [done|]. by apply IHchain.
Qed.

Lemma chain_shift a c st k out K :
  chain (bumped a c) st k out K → chain c st (a + k) out (a + K).
Proof.
  induction 1.
  - constructor.
  - apply chain_bump. by rewrite <- Nat.add_succ_r.
  - by apply chain_plain.
  - apply chain_first; [|done]. by rewrite bumped_add.
  - apply chain_again; [|done]. by rewrite bumped_add.
Qed.

(** One packet, built after an increment, sent to a list of endpoints. *)
Lemma chain_multicast c k pkt len addrs :
  stamp (mkDatagram sockaddr_zero pkt len) = Some (bumped (S k) c) →
  chain c Stale k (multicast pkt len addrs) (S k).
Proof.
  intros Hs. apply chain_bump.
  assert (Hd : ∀ a, stamp (mkDatagram a pkt len) = Some (bumped (S k) c)).
  { intros a. unfold stamp, dg_sequence in *. simpl in *. done. }
  destruct addrs as [|a addrs]; simpl; [constructor|].
  apply (chain_first c (S k) (mkDatagram a pkt len)); [apply Hd|]. simpl.
  induction addrs as [|a' addrs IH]; simpl; [constructor|].
  apply (chain_again c (S k) (mkDatagram a' pkt len)); [apply Hd|]. exact IH.
Qed.

Lemma chain_all_plain c st k out :
  Forall (λ d, stamp d = None) out → chain c st k out k.
Proof.
  induction 1; [constructor|]. by apply chain_plain.
Qed.

(** *** [emits] and [runs] compose *)

Lemma emits_refl ks s : emits ks s s.
Proof.
  exists [], 0%nat. rewrite app_nil_r. repeat split; constructor.
Qed.

Lemma emits_trans ks s1 s2 s3 : emits ks s1 s2 → emits ks s2 s3 → emits ks s1 s3.
Proof.
  intros (o1 & K1 & Hw1 & Hc1 & Hch1 & Hk1) (o2 & K2 & Hw2 & Hc2 & Hch2 & Hk2).
  exists (o1 ++ o2), (K1 + K2)%nat. split; [|split; [|split]].
  - by rewrite Hw2, Hw1, app_assoc.
  - by rewrite Hc2, Hc1, bumped_add.
  - eapply chain_app; [exact Hch1|].
    rewrite Hc1 in Hch2. apply chain_shift in Hch2.
    by rewrite Nat.add_0_r in Hch2.
  - by apply Forall_app.
Qed.

Lemma emits_mono ks ks' s s' : ks ⊆ ks' → emits ks s s' → emits ks' s s'.
Proof.
  intros Hsub (o & K & Hw & Hc & Hch & Hk).
  exists o, K. repeat split; try done.
  eapply Forall_impl; [exact Hk|]. intros d Hd. by apply Hsub.
Qed.

(** A change that leaves the wire and the counter alone. *)
Lemma emits_silent ks s s' :
  wire s' = wire s → state_sequence s' = state_sequence s → emits ks s s'.
Proof.
  intros Hw Hc. exists [], 0%nat. rewrite app_nil_r. repeat split; try done; constructor.
Qed.

Lemma runs_refl ks s : runs ks s s.
Proof. split; [done|apply emits_refl]. Qed.

Lemma runs_trans ks s1 s2 s3 : runs ks s1 s2 → runs ks s2 s3 → runs ks s1 s3.
Proof.
  intros [Hs1 He1] [Hs2 He2]. split; [congruence|]. by eapply emits_trans.
Qed.

Lemma runs_mono ks ks' s s' : ks ⊆ ks' → runs ks s s' → runs ks' s s'.
Proof. intros ? [? ?]. split; [done|]. by eapply emits_mono. Qed.

Lemma runs_silent ks s s' :
  spectators s' = spectators s → wire s' = wire s →
  state_sequence s' = state_sequence s → runs ks s s'.
Proof. intros. split; [done|]. by apply emits_silent. Qed.

(** An unstamped datagram. *)
Lemma runs_sendto_plain ks pkt len to s :
  stamp (mkDatagram to pkt len) = None → kind_of pkt ∈ ks →
  runs ks s (sendto pkt len to s).
Proof.
  intros Hs Hk. split; [done|].
  exists [mkDatagram to pkt len], 0%nat. repeat split.
  - apply chain_plain; [done|constructor].
  - by constructor.
Qed.

(** [++state_sequence], then one stamped packet to a list of endpoints. *)
Lemma runs_stamped_multicast ks pkt len addrs s :
  stamp (mkDatagram sockaddr_zero pkt len) = Some (state_sequence (bump_state_sequence s)) →
  kind_of pkt ∈ ks →
  runs ks s (set_wire (wire s ++ multicast pkt len addrs) (bump_state_sequence s)).
Proof.
  intros Hs Hk. split; [done|].
  exists (multicast pkt len addrs), 1%nat. repeat split.
  - by apply chain_multicast.
  - unfold multicast. apply Forall_fmap, Forall_forall. by intros.
Qed.

(** *** Routines that only draw random numbers *)

Lemma rand_only_refl s : rand_only s s.
Proof. exists (rand_calls s). by destruct s. Qed.

Lemma rand_only_trans s1 s2 s3 : rand_only s1 s2 → rand_only s2 s3 → rand_only s1 s3.
Proof. intros [n ->] [m ->]. by exists m. Qed.

Lemma rand_only_runs ks s s' : rand_only s s' → runs ks s s'.
Proof. intros [n ->]. by apply runs_silent. Qed.


Lemma runs_stamped_sendto ks pkt len to s :
  stamp (mkDatagram sockaddr_zero pkt len) = Some (state_sequence (bump_state_sequence s)) →
  kind_of pkt ∈ ks →
  runs ks s (sendto pkt len to (bump_state_sequence s)).
Proof. intros Hs Hk. exact (runs_stamped_multicast ks pkt len [to] s Hs Hk). Qed.

Lemma runs_stamped_to_players ks pkt len s :
  stamp (mkDatagram sockaddr_zero pkt len) = Some (state_sequence (bump_state_sequence s)) →
  kind_of pkt ∈ ks →
  runs ks s (send_to_active_players pkt len (bump_state_sequence s)).
Proof.
  intros Hs Hk. rewrite send_to_active_players_eq.
  exact (runs_stamped_multicast ks pkt len (player_addrs s) s Hs Hk).
Qed.

Lemma runs_stamped_broadcast ks pkt len s :
  stamp (mkDatagram sockaddr_zero pkt len) = Some (state_sequence (bump_state_sequence s)) →
  kind_of pkt ∈ ks →
  runs ks s (send_to_active_spectators pkt len
               (send_to_active_players pkt len (bump_state_sequence s))).
Proof.
  intros Hs Hk. rewrite broadcast_eq.
  exact (runs_stamped_multicast ks pkt len (player_addrs s ++ spectator_addrs s) s Hs Hk).
Qed.

Section Frames.

Context `{libc : LibC}.

(** Reduction of the [let]s and of the matches on known constructors. *)
Ltac lets := cbv beta iota zeta.

(** Membership in, and inclusion between, explicit lists of kinds. *)
Ltac kinds :=
  lazymatch goal with
  | |- _ ⊆ _ =>
    let k := fresh "k" in
    let Hk := fresh "Hk" in
    intros k Hk;
    repeat (apply elem_of_cons in Hk as [->|Hk]);
    [by repeat constructor .. | by apply elem_of_nil in Hk]
  | |- _ => by repeat constructor
  end.

#[local] Arguments F32.of_Z : simpl never.
#[local] Arguments F32.lit : simpl never.
#[local] Arguments rand : simpl never.
#[local] Arguments random_angle : simpl never.
#[local] Arguments generate_spawn_position : simpl never.
#[local] Arguments bobba_pick_roam_direction : simpl never.
#[local] Arguments update_bobba_ai : simpl never.
#[local] Arguments sendto : simpl never.

Lemma random_angle_rand_only s a s' : random_angle s = (a, s') → rand_only s s'.
Proof. unfold random_angle, rand. cbv beta iota zeta. intros ?; simplify_eq. by eexists. Qed.

Lemma generate_spawn_position_rand_only s v s' :
  generate_spawn_position s = (v, s') → rand_only s s'.
Proof.
  unfold generate_spawn_position, random_angle, rand. cbv beta iota zeta.
  destruct (default _ _) as [[px py] pz]. intros ?; simplify_eq. by eexists.
Qed.

Lemma bobba_pick_roam_direction_rand_only b s b' s' :
  bobba_pick_roam_direction b s = (b', s') → rand_only s s'.
Proof.
  unfold bobba_pick_roam_direction.
  destruct (random_angle s) as [a s1] eqn:E. intros ?; simplify_eq.
  (eapply random_angle_rand_only; eassumption).
Qed.

Lemma respawn_bobbas_from_rand_only bs s bs' s' :
  respawn_bobbas_from bs s = (bs', s') → rand_only s s'.
Proof.
  revert s bs' s'. induction bs as [|b bs IH]; intros s bs' s'; cbn [respawn_bobbas_from].
  - intros ?; simplify_eq. apply rand_only_refl.
  - destruct (bobba_entity_id b =? 0); lets.
    + destruct (respawn_bobbas_from bs s) as [r s1] eqn:E. intros ?; simplify_eq. (eapply IH; eassumption).
    + destruct (random_angle s) as [a s1] eqn:Ea; lets.
      destruct (respawn_bobbas_from bs s1) as [r s2] eqn:E. intros ?; simplify_eq.
      eapply rand_only_trans; [(eapply random_angle_rand_only; eassumption)|(eapply IH; eassumption)].
Qed.

Lemma respawn_players_from_rand_only ps s ps' s' :
  respawn_players_from ps s = (ps', s') → rand_only s s'.
Proof.
  revert s ps' s'. induction ps as [|p ps IH]; intros s ps' s'; cbn [respawn_players_from].
  - intros ?; simplify_eq. apply rand_only_refl.
  - destruct (pl_active p); lets.
    + destruct (generate_spawn_position s) as [[[x y] z] s1] eqn:Eg; lets.
      destruct (respawn_players_from ps s1) as [r s2] eqn:E. intros ?; simplify_eq.
      eapply rand_only_trans; [(eapply generate_spawn_position_rand_only; eassumption)|(eapply IH; eassumption)].
    + destruct (respawn_players_from ps s) as [r s1] eqn:E. intros ?; simplify_eq. (eapply IH; eassumption).
Qed.

Lemma bobba_acquire_target_rand_only b s b' s' t d :
  bobba_acquire_target b s = (b', s', t, d) → rand_only s s'.
Proof.
  unfold bobba_acquire_target.
  set (first := if negb (bobba_target_player_id b =? 0) then _ else _).
  assert (Hf : rand_only s (first.1.1.2)).
  { subst first. destruct (negb _); [|apply rand_only_refl].
    destruct (find_player_by_id _ _) as [[i p]|]; [|apply rand_only_refl].
    destruct (pl_active p); [|apply rand_only_refl].
    destruct (_ >? _)%f32; [|apply rand_only_refl].
    destruct (bobba_pick_roam_direction _ _) as [b1 s1] eqn:E. simpl.
    (eapply bobba_pick_roam_direction_rand_only; eassumption). }
  destruct first as [[[b1 s1] t1] d1]. simpl in Hf.
  destruct (bobba_target_player_id b1 =? 0); [|by intros ?; simplify_eq].
  destruct (find_nearest_player _ _ _ _) as [nearest dn].
  destruct nearest as [[j p]|]; [|by intros ?; simplify_eq].
  destruct (_ <=? _)%f32; by intros ?; simplify_eq.
Qed.

Lemma bobba_state_machine_rand_only b delta s t d b' s' :
  bobba_state_machine b delta s t d = (b', s') → rand_only s s'.
Proof.
  unfold bobba_state_machine.
  destruct (bobba_state b =? BOBBA_ROAMING).
  - match goal with |- context [if ?c then _ else _] => destruct c end.
    + apply bobba_pick_roam_direction_rand_only.
    + intros ?; simplify_eq. apply rand_only_refl.
  - destruct (bobba_state b =? BOBBA_CHASING); [|intros ?; simplify_eq; apply rand_only_refl].
    destruct t as [target|]; [|intros ?; simplify_eq; apply rand_only_refl].
    destruct (d <=? _)%f32; [intros ?; simplify_eq; apply rand_only_refl|].
    match goal with |- context [if ?c then _ else _] => destruct c end;
      intros ?; simplify_eq; apply rand_only_refl.
Qed.

(** *** What each routine puts on the wire *)

Lemma send_player_damage_runs t dmg e kx ky kz s :
  runs [KPlayerDamage] s (send_player_damage t dmg e kx ky kz s).
Proof.
  unfold send_player_damage.
  destruct (find_player_by_id s t) as [[i p]|]; [|apply runs_refl].
  destruct (pl_active p); [|apply runs_refl].
  apply runs_stamped_sendto; [done|kinds].
Qed.

Lemma bobba_attack_runs b delta s b' s' :
  bobba_attack b delta s = (b', s') → runs [KPlayerDamage] s s'.
Proof.
  unfold bobba_attack.
  match goal with |- context [if ?c then _ else _] => destruct c end.
  2: { intros ?; simplify_eq. apply runs_refl. }
  match goal with |- context [find_player_by_id ?s ?t] =>
    destruct (find_player_by_id s t) as [[i p]|] end.
  2: { intros ?; simplify_eq. apply runs_refl. }
  destruct (pl_active p).
  2: { intros ?; simplify_eq. apply runs_refl. }
  match goal with |- context [if ?c then _ else _] => destruct c end.
  2: { intros ?; simplify_eq. apply runs_refl. }
  destruct (knockback_direction _ _) as [[dx dy] dz].
  intros ?; simplify_eq. apply send_player_damage_runs.
Qed.

Lemma update_bobba_ai_runs b delta s b' s' :
  update_bobba_ai b delta s = (b', s') → runs [KPlayerDamage] s s'.
Proof.
  unfold update_bobba_ai.
  destruct (negb (bobba_active b)); [intros ?; simplify_eq; apply runs_refl|].
  destruct (test_multiplayer s); [intros ?; simplify_eq; apply runs_refl|].
  destruct (bobba_stun_timer b >? _)%f32; [intros ?; simplify_eq; apply runs_refl|].
  destruct (bobba_state b =? BOBBA_ATTACKING); [apply bobba_attack_runs|].
  destruct (bobba_acquire_target b s) as [[[b1 s1] t] d] eqn:Ea.
  intros Hm. apply rand_only_runs.
  eapply rand_only_trans; [(eapply bobba_acquire_target_rand_only; eassumption)|].
  (eapply bobba_state_machine_rand_only; eassumption).
Qed.

Lemma update_bobbas_from_runs bs delta s bs' s' :
  update_bobbas_from bs delta s = (bs', s') → runs [KPlayerDamage] s s'.
Proof.
  revert s bs' s'. induction bs as [|b bs IH]; intros s bs' s'; cbn [update_bobbas_from].
  - intros ?; simplify_eq. apply runs_refl.
  - destruct (bobba_active b).
    + destruct (update_bobba_ai b delta s) as [b1 s1] eqn:Eb.
      destruct (update_bobbas_from bs delta s1) as [r s2] eqn:E. intros ?; simplify_eq.
      eapply runs_trans; [(eapply update_bobba_ai_runs; eassumption)|(eapply IH; eassumption)].
    + destruct (update_bobbas_from bs delta s) as [r s1] eqn:E. intros ?; simplify_eq.
      (eapply IH; eassumption).
Qed.

Lemma update_all_bobbas_runs delta s : runs [KPlayerDamage] s (update_all_bobbas delta s).
Proof.
  unfold update_all_bobbas.
  destruct (update_bobbas_from (bobbas s) delta s) as [bs s1] eqn:E.
  eapply runs_trans; [(eapply update_bobbas_from_runs; eassumption)|by apply runs_silent].
Qed.

Lemma update_all_dragons_runs ks delta s : runs ks s (update_all_dragons delta s).
Proof. by apply runs_silent. Qed.

Lemma broadcast_world_state_runs s : runs [KWorldState] s (broadcast_world_state s).
Proof.
  apply runs_stamped_broadcast; [done|kinds].
Qed.

Lemma broadcast_entity_state_runs s : runs [KEntityState] s (broadcast_entity_state s).
Proof.
  unfold broadcast_entity_state. destruct (decide _); [apply runs_refl|].
  apply runs_stamped_broadcast; [done|kinds].
Qed.

Lemma entity_update_runs elapsed s :
  runs [KPlayerDamage; KEntityState] s (entity_update elapsed s).
Proof.
  unfold entity_update.
  eapply runs_trans; [|eapply runs_mono; [|apply broadcast_entity_state_runs]; kinds].
  eapply runs_trans; [|apply update_all_dragons_runs].
  eapply runs_mono; [|apply update_all_bobbas_runs]. kinds.
Qed.

Lemma respawn_all_bobbas_runs ks s : runs ks s (respawn_all_bobbas s).
Proof.
  unfold respawn_all_bobbas.
  destruct (respawn_bobbas_from (bobbas s) s) as [bs s1] eqn:E.
  apply respawn_bobbas_from_rand_only in E as [n ->]. by apply runs_silent.
Qed.

Lemma respawn_all_players_runs ks s : runs ks s (respawn_all_players s).
Proof.
  unfold respawn_all_players.
  destruct (respawn_players_from (players s) s) as [ps s1] eqn:E.
  apply respawn_players_from_rand_only in E as [n ->]. by apply runs_silent.
Qed.

Lemma handle_game_restart_runs reason requester s :
  runs [KGameRestart; KEntityState; KWorldState] s (handle_game_restart reason requester s).
Proof.
  unfold handle_game_restart.
  eapply runs_trans; [|eapply runs_mono; [|apply broadcast_world_state_runs]; kinds].
  eapply runs_trans; [|eapply runs_mono; [|apply broadcast_entity_state_runs]; kinds].
  eapply runs_trans; [apply respawn_all_bobbas_runs|].
  eapply runs_trans; [apply respawn_all_players_runs|].
  apply runs_stamped_to_players; [done|kinds].
Qed.

Lemma handle_entity_damage_server_runs entity_id damage attacker_id s :
  runs [KGameRestart; KEntityState; KWorldState] s
    (handle_entity_damage_server entity_id damage attacker_id s).
Proof.
  unfold handle_entity_damage_server.
  destruct (list_find _ (bobbas s)) as [[i b]|].
  - match goal with |- context [if ?c then _ else _] => destruct c end.
    + eapply runs_trans; [|apply handle_game_restart_runs]. by apply runs_silent.
    + by apply runs_silent.
  - destruct (list_find _ (dragons s)) as [[i d]|]; [|apply runs_refl].
    by apply runs_silent.
Qed.

Lemma handle_update_runs ks pkt client_addr now s :
  runs ks s (handle_update pkt client_addr now s).
Proof.
  unfold handle_update.
  destruct (find_player_by_id _ _) as [[i p]|]; [|apply runs_refl].
  destruct (decide _); [apply runs_refl|]. by apply runs_silent.
Qed.

Lemma handle_leave_runs hdr client_addr s :
  runs [KWorldState] s (handle_leave hdr client_addr s).
Proof.
  unfold handle_leave.
  eapply runs_trans; [|apply broadcast_world_state_runs].
  destruct (find_player_by_id _ _) as [[i p]|]; [|apply runs_refl]. by apply runs_silent.
Qed.

Lemma cleanup_inactive_players_runs ks now s :
  runs ks s (cleanup_inactive_players now s).
Proof. by apply runs_silent. Qed.

Lemma relay_to_others_runs packet len sender_addr s :
  runs [KRelay] s (relay_to_others packet len sender_addr s).
Proof.
  unfold relay_to_others. generalize (players s) as l. intros l. revert s.
  induction l as [|p l IH]; intros s; simpl; [apply runs_refl|].
  eapply runs_trans; [|apply IH].
  destruct (pl_active p); [|apply runs_refl].
  destruct (decide _); [apply runs_refl|].
  apply runs_sendto_plain; [done|kinds].
Qed.


Lemma promote_spectator_emits ks client_addr s : emits ks s (promote_spectator client_addr s).
Proof.
  unfold promote_spectator. destruct (list_find _ _) as [[i sp]|]; by apply emits_silent.
Qed.

Lemma handle_join_runs pkt client_addr now s :
  runs [KJoinAck; KWorldState] (promote_spectator client_addr s)
    (handle_join pkt client_addr now s).
Proof.
  unfold handle_join. lets. generalize (promote_spectator client_addr s) as s0. intros s0.
  destruct (find_player_by_addr s0 client_addr) as [[i p]|]; [by apply runs_silent|].
  destruct (find_free_slot s0) as [slot|]; [|apply runs_refl].
  destruct (generate_spawn_position _) as [[[x y] z] s1] eqn:Eg; lets.
  apply generate_spawn_position_rand_only in Eg as [n ->].
  eapply runs_trans; [|eapply runs_mono; [|apply broadcast_world_state_runs]; kinds].
  eapply runs_trans; [|apply runs_sendto_plain; [done|kinds]].
  by apply runs_silent.
Qed.







(** *** Spectator slots *)

Lemma runs_spectating ks s s' i a : runs ks s s' → spectating i a s → spectating i a s'.
Proof. intros [Hs _] (sp & Hi & Ha & Hb). exists sp. by rewrite Hs. Qed.

Lemma promote_spectator_spectating client_addr s i a :
  ¬ same_endpoint a client_addr →
  spectating i a s → spectating i a (promote_spectator client_addr s).
Proof.
  intros Hne (sp & Hi & Ha & Hb). unfold promote_spectator.
  destruct (list_find _ _) as [[j spj]|] eqn:Ef; [|by exists sp].
  apply list_find_Some in Ef as (Hj & [_ Hsame] & _).
  destruct (decide (j = i)) as [->|Hji].
  - exfalso. apply Hne. rewrite Hi in Hj. injection Hj as <-. by rewrite <- Hb.
  - exists sp. cbn [spectators set_spectators].
    by rewrite list_lookup_insert_ne.
Qed.

Lemma handle_spectate_spectating hdr client_addr now s i a :
  spectating i a s → spectating i a (handle_spectate hdr client_addr now s).
Proof.
  intros (sp & Hi & Ha & Hb). unfold handle_spectate.
  destruct (list_find _ _) as [[j spj]|] eqn:Ef.
  - apply list_find_Some in Ef as (Hj & _ & _).
    destruct (decide (j = i)) as [->|Hji].
    + rewrite Hi in Hj. injection Hj as <-.
      exists (SetSpectator.last_seen now sp). cbn [spectators set_spectators].
      rewrite list_lookup_insert_eq by (by eapply lookup_lt_Some). done.
    + exists sp. cbn [spectators set_spectators]. by rewrite list_lookup_insert_ne.
  - match goal with |- context [match ?x with _ => _ end] =>
      destruct x as [[slot spf]|] eqn:Es end; [|by exists sp].
    apply list_find_Some in Es as (Hslot & Hfree & _).
    exists sp. unfold sendto. cbn [spectators set_spectators set_wire].
    rewrite list_lookup_insert_ne; [done|].
    intros ->. rewrite Hi in Hslot. injection Hslot as <-. congruence.
Qed.

Lemma dispatch_spectating buffer client_addr now s i a :
  (hdr_type (as_PacketHeader buffer) = PKT_JOIN → ¬ same_endpoint a client_addr) →
  spectating i a s → spectating i a (dispatch buffer client_addr now s).
Proof.
  intros Hjoin Hsp. unfold dispatch. lets.
  destruct (_ >=? sizeof_PacketHeader); [|done].
  destruct (hdr_type (as_PacketHeader buffer) =? PKT_JOIN) eqn:Ej.
  { destruct (_ >=? _); [|done].
    eapply runs_spectating; [apply handle_join_runs|].
    apply promote_spectator_spectating; [|done]. apply Hjoin. lia. }
  repeat (match goal with |- context [if ?c then _ else _] => destruct c end;
          try done).
  - eapply runs_spectating; [apply (handle_update_runs [])|done].
  - eapply runs_spectating; [apply handle_leave_runs|done].
  - eapply runs_spectating; [apply handle_entity_damage_server_runs|done].
  - eapply runs_spectating; [apply relay_to_others_runs|done].
  - eapply runs_spectating; [apply relay_to_others_runs|done].
  - by apply handle_spectate_spectating.
  - eapply runs_spectating; [apply handle_game_restart_runs|done].
Qed.

Lemma hdr_type_take (n : nat) (payload : list Byte.byte) :
  (0 < n)%nat →
  hdr_type (as_PacketHeader (take n payload)) = hdr_type (as_PacketHeader payload).
Proof.
  intros Hn. unfold as_PacketHeader, get_u8. cbn [hdr_type].
  by rewrite lookup_take_lt.
Qed.

Lemma loop_iteration_spectating inp l i a :
  ¬ join_from a inp →
  spectating i a (server l) → spectating i a (server (loop_iteration inp l)).
Proof.
  intros Hnj Hsp. unfold loop_iteration. lets.
  set (s1 := match received inp with Some _ => _ | None => _ end).
  assert (H1 : spectating i a s1).
  { subst s1. destruct (received inp) as [[c payload]|] eqn:Er; [|done].
    destruct (_ >? 0); [|done].
    apply dispatch_spectating; [|done].
    intros Ht Hsame. apply Hnj. exists payload.
    apply same_endpoint_eq in Hsame as ->. split; [done|].
    rewrite <- Ht. symmetry. apply hdr_type_take. unfold BUFFER_SIZE. lia. }
  clearbody s1.
  destruct (_ >=? BROADCAST_INTERVAL_MS);
    destruct (_ >=? ENTITY_UPDATE_INTERVAL_MS);
    destruct (_ >=? 1000); lets; cbn [server];
    repeat first
      [ assumption
      | eapply runs_spectating; [apply (cleanup_inactive_players_runs [])|]
      | eapply runs_spectating; [apply entity_update_runs|]
      | eapply runs_spectating; [apply broadcast_world_state_runs|] ].
Qed.

Lemma run_loop_spectating inputs l i a :
  Forall (λ inp, ¬ join_from a inp) inputs →
  spectating i a (server l) → spectating i a (server (run_loop inputs l)).
Proof.
  unfold run_loop. intros Hall. revert l.
  induction Hall as [|inp inputs Hinp _ IH]; intros l Hsp; simpl; [done|].
  apply IH. by apply loop_iteration_spectating.
Qed.

End Frames.

(** ** World-state datagrams are sent whole *)

Lemma whole_world_states_refl s : whole_world_states s s.
Proof. exists []. by rewrite app_nil_r. Qed.

Lemma whole_world_states_trans s1 s2 s3 :
  whole_world_states s1 s2 → whole_world_states s2 s3 → whole_world_states s1 s3.
Proof.
  intros (o1 & Hw1 & H1) (o2 & Hw2 & H2). exists (o1 ++ o2). split.
  - by rewrite Hw2, Hw1, app_assoc.
  - by apply Forall_app.
Qed.

Lemma whole_world_states_silent s s' : wire s' = wire s → whole_world_states s s'.
Proof. intros Hw. exists []. by rewrite app_nil_r. Qed.

(** A routine that emits datagrams of no kind leaves the wire alone. *)
Lemma emits_nil_whole_world_states s s' : emits [] s s' → whole_world_states s s'.
Proof.
  intros (out & K & Hw & _ & _ & Hk). apply whole_world_states_silent.
  destruct out as [|d out]; [by rewrite app_nil_r in Hw|].
  apply Forall_cons_1 in Hk as [Hd _]. by apply elem_of_nil in Hd.
Qed.

Lemma runs_nil_whole_world_states s s' : runs [] s s' → whole_world_states s s'.
Proof. intros [_ He]. by apply emits_nil_whole_world_states. Qed.

Lemma whole_world_states_multicast pkt len addrs s s0 :
  (∀ a, whole_world_state (mkDatagram a pkt len)) →
  wire s0 = wire s →
  whole_world_states s (set_wire (wire s0 ++ multicast pkt len addrs) s0).
Proof.
  intros Hd Hw. exists (multicast pkt len addrs). split.
  - cbn [wire set_wire]. by rewrite Hw.
  - unfold multicast. apply Forall_fmap, Forall_forall. intros a _. apply Hd.
Qed.

Lemma whole_world_states_sendto pkt len to s :
  whole_world_state (mkDatagram to pkt len) →
  whole_world_states s (sendto pkt len to s).
Proof. intros Hd. exists [mkDatagram to pkt len]. split; [done|]. by constructor. Qed.

Lemma whole_world_states_broadcast pkt len s s0 :
  (∀ a, whole_world_state (mkDatagram a pkt len)) →
  wire s0 = wire s →
  whole_world_states s
    (send_to_active_spectators pkt len (send_to_active_players pkt len s0)).
Proof. intros Hd Hw. rewrite broadcast_eq. by apply whole_world_states_multicast. Qed.

Lemma broadcast_world_state_whole s : whole_world_states s (broadcast_world_state s).
Proof.
  unfold broadcast_world_state. cbv zeta.
  apply whole_world_states_broadcast; [|done]. intros a. by split.
Qed.

Lemma broadcast_entity_state_whole s : whole_world_states s (broadcast_entity_state s).
Proof.
  unfold broadcast_entity_state. destruct (decide _); [apply whole_world_states_refl|].
  cbv zeta. apply whole_world_states_broadcast; [|done]. intros a. by intros [=].
Qed.

Section WorldStateSize.

Context `{libc : LibC}.

Ltac lets := cbv beta iota zeta.

#[local] Arguments F32.of_Z : simpl never.
#[local] Arguments F32.lit : simpl never.
#[local] Arguments rand : simpl never.
#[local] Arguments random_angle : simpl never.
#[local] Arguments generate_spawn_position : simpl never.
#[local] Arguments bobba_pick_roam_direction : simpl never.
#[local] Arguments update_bobba_ai : simpl never.
#[local] Arguments sendto : simpl never.

Lemma rand_only_whole_world_states s s' : rand_only s s' → whole_world_states s s'.
Proof. intros [n ->]. by apply whole_world_states_silent. Qed.

Lemma send_player_damage_whole t dmg e kx ky kz s :
  whole_world_states s (send_player_damage t dmg e kx ky kz s).
Proof.
  unfold send_player_damage.
  destruct (find_player_by_id s t) as [[i p]|]; [|apply whole_world_states_refl].
  destruct (pl_active p); [|apply whole_world_states_refl].
  lets. eapply whole_world_states_trans;
    [|apply whole_world_states_sendto; by intros [=]].
  by apply whole_world_states_silent.
Qed.

Lemma bobba_attack_whole b delta s b' s' :
  bobba_attack b delta s = (b', s') → whole_world_states s s'.
Proof.
  unfold bobba_attack.
  match goal with |- context [if ?c then _ else _] => destruct c end.
  2: { intros ?; simplify_eq. apply whole_world_states_refl. }
  match goal with |- context [find_player_by_id ?s ?t] =>
    destruct (find_player_by_id s t) as [[i p]|] end.
  2: { intros ?; simplify_eq. apply whole_world_states_refl. }
  destruct (pl_active p).
  2: { intros ?; simplify_eq. apply whole_world_states_refl. }
  match goal with |- context [if ?c then _ else _] => destruct c end.
  2: { intros ?; simplify_eq. apply whole_world_states_refl. }
  destruct (knockback_direction _ _) as [[dx dy] dz].
  intros ?; simplify_eq. apply send_player_damage_whole.
Qed.

Lemma update_bobba_ai_whole b delta s b' s' :
  update_bobba_ai b delta s = (b', s') → whole_world_states s s'.
Proof.
  unfold update_bobba_ai.
  destruct (negb (bobba_active b)); [intros ?; simplify_eq; apply whole_world_states_refl|].
  destruct (test_multiplayer s); [intros ?; simplify_eq; apply whole_world_states_refl|].
  destruct (bobba_stun_timer b >? _)%f32;
    [intros ?; simplify_eq; apply whole_world_states_refl|].
  destruct (bobba_state b =? BOBBA_ATTACKING); [apply bobba_attack_whole|].
  destruct (bobba_acquire_target b s) as [[[b1 s1] t] d] eqn:Ea.
  intros Hm. apply rand_only_whole_world_states.
  eapply rand_only_trans; [(eapply bobba_acquire_target_rand_only; eassumption)|].
  (eapply bobba_state_machine_rand_only; eassumption).
Qed.

Lemma update_bobbas_from_whole bs delta s bs' s' :
  update_bobbas_from bs delta s = (bs', s') → whole_world_states s s'.
Proof.
  revert s bs' s'. induction bs as [|b bs IH]; intros s bs' s'; cbn [update_bobbas_from].
  - intros ?; simplify_eq. apply whole_world_states_refl.
  - destruct (bobba_active b).
    + destruct (update_bobba_ai b delta s) as [b1 s1] eqn:Eb.
      destruct (update_bobbas_from bs delta s1) as [r s2] eqn:E. intros ?; simplify_eq.
      eapply whole_world_states_trans;
        [(eapply update_bobba_ai_whole; eassumption)|(eapply IH; eassumption)].
    + destruct (update_bobbas_from bs delta s) as [r s1] eqn:E. intros ?; simplify_eq.
      (eapply IH; eassumption).
Qed.

Lemma update_all_bobbas_whole delta s : whole_world_states s (update_all_bobbas delta s).
Proof.
  unfold update_all_bobbas.
  destruct (update_bobbas_from (bobbas s) delta s) as [bs s1] eqn:E.
  eapply whole_world_states_trans; [(eapply update_bobbas_from_whole; eassumption)|].
  by apply whole_world_states_silent.
Qed.

Lemma entity_update_whole elapsed s : whole_world_states s (entity_update elapsed s).
Proof.
  unfold entity_update. lets.
  eapply whole_world_states_trans; [|apply broadcast_entity_state_whole].
  eapply whole_world_states_trans;
    [|apply runs_nil_whole_world_states, update_all_dragons_runs].
  apply update_all_bobbas_whole.
Qed.

Lemma handle_game_restart_whole reason requester s :
  whole_world_states s (handle_game_restart reason requester s).
Proof.
  unfold handle_game_restart. lets.
  eapply whole_world_states_trans; [|apply broadcast_world_state_whole].
  eapply whole_world_states_trans; [|apply broadcast_entity_state_whole].
  eapply whole_world_states_trans;
    [apply runs_nil_whole_world_states, respawn_all_bobbas_runs|].
  eapply whole_world_states_trans;
    [apply runs_nil_whole_world_states, respawn_all_players_runs|].
  rewrite send_to_active_players_eq.
  apply whole_world_states_multicast; [|done]. intros a. by intros [=].
Qed.

Lemma handle_entity_damage_server_whole entity_id damage attacker_id s :
  whole_world_states s (handle_entity_damage_server entity_id damage attacker_id s).
Proof.
  unfold handle_entity_damage_server.
  destruct (list_find _ (bobbas s)) as [[i b]|].
  - match goal with |- context [if ?c then _ else _] => destruct c end.
    + eapply whole_world_states_trans; [|apply handle_game_restart_whole].
      by apply whole_world_states_silent.
    + by apply whole_world_states_silent.
  - destruct (list_find _ (dragons s)) as [[i d]|]; [|apply whole_world_states_refl].
    by apply whole_world_states_silent.
Qed.

Lemma handle_leave_whole hdr client_addr s :
  whole_world_states s (handle_leave hdr client_addr s).
Proof.
  unfold handle_leave.
  eapply whole_world_states_trans; [|apply broadcast_world_state_whole].
  destruct (find_player_by_id _ _) as [[i p]|]; [|apply whole_world_states_refl].
  by apply whole_world_states_silent.
Qed.

(** A relayed buffer keeps its own type byte. *)
Lemma relay_to_others_whole packet len sender_addr s :
  hdr_type (as_PacketHeader packet) ≠ PKT_WORLD_STATE →
  whole_world_states s (relay_to_others packet len sender_addr s).
Proof.
  intros Ht. unfold relay_to_others. generalize (players s) as l. intros l. revert s.
  induction l as [|p l IH]; intros s; simpl; [apply whole_world_states_refl|].
  eapply whole_world_states_trans; [|apply IH].
  destruct (pl_active p); [|apply whole_world_states_refl].
  destruct (decide _); [apply whole_world_states_refl|].
  by apply whole_world_states_sendto.
Qed.

Lemma handle_join_whole pkt client_addr now s :
  whole_world_states s (handle_join pkt client_addr now s).
Proof.
  eapply whole_world_states_trans;
    [apply emits_nil_whole_world_states, (promote_spectator_emits [] client_addr)|].
  unfold handle_join. lets. generalize (promote_spectator client_addr s) as s0. intros s0.
  destruct (find_player_by_addr s0 client_addr) as [[i p]|];
    [by apply whole_world_states_silent|].
  destruct (find_free_slot s0) as [slot|]; [|apply whole_world_states_refl].
  destruct (generate_spawn_position _) as [[[x y] z] s1] eqn:Eg; lets.
  apply generate_spawn_position_rand_only in Eg as [n ->].
  eapply whole_world_states_trans; [|apply broadcast_world_state_whole].
  eapply whole_world_states_trans; [|apply whole_world_states_sendto; by intros [=]].
  by apply whole_world_states_silent.
Qed.

Lemma handle_spectate_whole hdr client_addr now s :
  whole_world_states s (handle_spectate hdr client_addr now s).
Proof.
  unfold handle_spectate.
  destruct (list_find _ _) as [[i sp]|]; [by apply whole_world_states_silent|].
  destruct (list_find _ _) as [[slot sp]|]; [|apply whole_world_states_refl].
  lets. eapply whole_world_states_trans; [|apply whole_world_states_sendto; by intros [=]].
  by apply whole_world_states_silent.
Qed.

Lemma dispatch_whole buffer client_addr now s :
  whole_world_states s (dispatch buffer client_addr now s).
Proof.
  unfold dispatch. lets.
  destruct (_ >=? sizeof_PacketHeader); [|apply whole_world_states_refl].
  destruct (_ =? PKT_JOIN).
  { destruct (_ >=? _); [apply handle_join_whole|apply whole_world_states_refl]. }
  destruct (_ =? PKT_UPDATE).
  { destruct (_ >=? _); [|apply whole_world_states_refl].
    apply runs_nil_whole_world_states, handle_update_runs. }
  destruct (_ =? PKT_LEAVE); [apply handle_leave_whole|].
  destruct (_ =? PKT_PING); [apply whole_world_states_sendto; by intros [=]|].
  destruct (_ =? PKT_ENTITY_DAMAGE).
  { destruct (_ >=? _); [apply handle_entity_damage_server_whole
                        |apply whole_world_states_refl]. }
  destruct (_ =? PKT_ARROW_SPAWN) eqn:Es.
  { destruct (_ >=? _); [|apply whole_world_states_refl].
    apply relay_to_others_whole. apply Z.eqb_eq in Es. rewrite Es. by intros [=]. }
  destruct (_ =? PKT_ARROW_HIT) eqn:Eh.
  { destruct (_ >=? _); [|apply whole_world_states_refl].
    apply relay_to_others_whole. apply Z.eqb_eq in Eh. rewrite Eh. by intros [=]. }
  destruct (_ =? PKT_HEARTBEAT); [apply whole_world_states_refl|].
  destruct (_ =? PKT_SPECTATE); [apply handle_spectate_whole|].
  destruct (_ =? PKT_GAME_RESTART); [|apply whole_world_states_refl].
  destruct (_ >=? _); [apply handle_game_restart_whole|apply whole_world_states_refl].
Qed.

Lemma loop_iteration_whole inp l :
  whole_world_states (server l) (server (loop_iteration inp l)).
Proof.
  unfold loop_iteration. lets.
  set (s1 := match received inp with Some _ => _ | None => _ end).
  assert (H1 : whole_world_states (server l) s1).
  { subst s1. destruct (received inp) as [[a payload]|]; [|apply whole_world_states_refl].
    destruct (_ >? 0); [apply dispatch_whole|apply whole_world_states_refl]. }
  clearbody s1.
  set (s2 := if _ >=? BROADCAST_INTERVAL_MS then _ else _).
  assert (H2 : whole_world_states (server l) s2.1).
  { subst s2. destruct (_ >=? BROADCAST_INTERVAL_MS); cbn [fst]; [|done].
    eapply whole_world_states_trans; [exact H1|apply broadcast_world_state_whole]. }
  clearbody s2. clear H1 s1. destruct s2 as [s2 lb]. cbn [fst] in H2. lets.
  set (s3 := if _ >=? ENTITY_UPDATE_INTERVAL_MS then _ else _).
  assert (H3 : whole_world_states (server l) s3.1).
  { subst s3. destruct (_ >=? ENTITY_UPDATE_INTERVAL_MS); cbn [fst]; [|done].
    eapply whole_world_states_trans; [exact H2|apply entity_update_whole]. }
  clearbody s3. clear H2 s2. destruct s3 as [s3 le]. cbn [fst] in H3. lets.
  destruct (_ >=? 1000); lets; cbn [server]; [|done].
  eapply whole_world_states_trans; [exact H3|].
  apply runs_nil_whole_world_states, cleanup_inactive_players_runs.
Qed.

Lemma run_loop_whole inputs l :
  whole_world_states (server l) (server (run_loop inputs l)).
Proof.
  unfold run_loop. revert l. induction inputs as [|inp inputs IH]; intros l; simpl.
  - apply whole_world_states_refl.
  - eapply whole_world_states_trans; [apply loop_iteration_whole|apply IH].
Qed.

End WorldStateSize.

(** ** C1: the size of a world-state message *)

(** C1, as the code has it.  Every world-state datagram is
    [sizeof (WorldStatePacket)] = 9 + 4 + 1 + 32 * 60 = 1934 bytes long,
    whatever the number of sessions: in every state a world-state
    broadcast sends 1934 bytes of one packet with 32 record slots to every
    active session and spectator, the header being 9 bytes and a record
    60; and over any run of the loop, whatever it receives, every
    datagram the server sends that carries the world-state type or is
    sent from a world-state packet is 1934 bytes long.  With exactly one
    active session [p] the broadcast goes to [p] and to the spectators,
    the count byte is 1, the first record is [p]'s player-state record
    and the 31 other record slots are zero. *)
Theorem world_state_datagram_size `{LibC} (s : Server) :
  let pkt := world_state_packet (bump_state_sequence s) in
  wire (broadcast_world_state s)
  = wire s ++ multicast (PktWorldState pkt) 1934 (player_addrs s ++ spectator_addrs s)
  ∧ sizeof_WorldStatePacket = 9 + 4 + 1 + 32 * 60
  ∧ sizeof_PacketHeader = 9
  ∧ sizeof_PlayerData = 4 + 12 + 4 + 1 + 1 + 1 + 4 + 32 + 1
  ∧ length (ws_players pkt) = 32%nat
  ∧ (∀ (inputs : list Inputs) (l : Loop),
       ∃ out, wire (server (run_loop inputs l)) = wire (server l) ++ out
              ∧ ∀ d, d ∈ out →
                  dg_type d = PKT_WORLD_STATE ∨ kind_of (dg_packet d) = KWorldState →
                  dg_len d = 1934)
  ∧ (∀ p, filter (λ q, pl_active q = true) (players s) = [p] →
       wire (broadcast_world_state s)
       = wire s ++ multicast (PktWorldState pkt) 1934 (pl_addr p :: spectator_addrs s)
       ∧ ws_player_count pkt = 1
       ∧ ws_players pkt = pl_data p :: replicate 31 PlayerData_zero).
Proof.
  intros pkt. rewrite broadcast_world_state_eq. cbn [wire set_wire bump_state_sequence
    set_state_sequence].
  split; [reflexivity|]. do 3 (split; [reflexivity|]).
  split; [|split].
  - subst pkt. unfold world_state_packet. cbv zeta. cbn [ws_players].
    rewrite length_app, length_replicate.
    assert (length (world_records (bump_state_sequence s)) ≤ Z.to_nat MAX_PLAYERS)%nat
      by (unfold world_records; rewrite length_take; lia).
    change (Z.to_nat MAX_PLAYERS) with 32%nat in *. lia.
  - intros inputs l. destruct (run_loop_whole inputs l) as (out & Hw & Hall).
    exists out. split; [exact Hw|]. intros d Hd Hws.
    apply (proj1 (Forall_forall _ _) Hall) in Hd. unfold whole_world_state in Hd.
    destruct (dg_packet d) eqn:Ep; destruct Hws as [Ht|Hk]; try done.
    all: by destruct Hd.
  - intros p Hone. unfold player_addrs. rewrite Hone.
    split; [reflexivity|].
    subst pkt. unfold world_state_packet, world_records; simpl.
    by rewrite Hone.
Qed.

(** The world-state datagram sent after the first join, with exactly one
    session active, is 1934 bytes long, not 74. *)
Lemma world_state_size_counterexample :
  count_active_players server_one_player = 1
  ∧ (λ d, (dg_type d, dg_len d)) <$> last (wire server_one_player)
    = Some (PKT_WORLD_STATE, 1934)
  ∧ 1934 ≠ 74.
Proof. by vm_compute. Qed.

Lemma world_state_datagram_size_witness :
  let s := server_one_player in
  let p := default Player_zero (players s !! 0%nat) in
  let s2 := server_two_players in
  filter (λ q, pl_active q = true) (players s) = [p]
  ∧ wire (broadcast_world_state s)
    = wire s ++ multicast (PktWorldState (world_state_packet (bump_state_sequence s)))
                  1934 (pl_addr p :: spectator_addrs s)
  ∧ ws_player_count (world_state_packet (bump_state_sequence s)) = 1
  ∧ count_active_players s2 = 2
  ∧ (dg_len <$> drop (length (wire s2)) (wire (broadcast_world_state s2))) = [1934; 1934].
Proof.
  intros s p s2.
  assert (H : filter (λ q, pl_active q = true) (players s) = [p]) by (by vm_compute).
  split; [exact H|].
  pose proof (world_state_datagram_size (H := libc_zero) s) as (_ & _ & _ & _ & _ & _ & Hone).
  destruct (Hone p H) as (Hw & Hc & _).
  split; [exact Hw|]. split; [exact Hc|].
  split; [vm_compute; reflexivity|].
  pose proof (world_state_datagram_size (H := libc_zero) s2) as (Hw2 & _).
  rewrite Hw2, drop_app_length. vm_compute. reflexivity.
Defined.

(** ** C10: the reaper and the spectators *)

(** C10.  [cleanup_inactive_players] leaves the spectator table as it
    is; and over any run of the loop in which no join request arrives
    from its endpoint, an active spectator slot stays active and bound to
    that endpoint, however long it sends nothing. *)
Theorem spectators_are_never_reaped `{LibC} :
  (∀ now s, spectators (cleanup_inactive_players now s) = spectators s)
  ∧ (∀ inputs l i a,
       spectating i a (server l) →
       Forall (λ inp, ¬ join_from a inp) inputs →
       spectating i a (server (run_loop inputs l))).
Proof.
  split; [reflexivity|]. intros inputs l i a Hsp Hall. by apply run_loop_spectating.
Qed.

(** ** C6: what the outbound sequence number is stamped into *)





(** What the acknowledgements carry instead of the counter. *)
Lemma wire_promote_spectator client_addr s :
  wire (promote_spectator client_addr s) = wire s.
Proof. unfold promote_spectator. by destruct (list_find _ _) as [[i sp]|]. Qed.






(** ** C3: heartbeats and the last-seen timestamp *)

Lemma dispatch_heartbeat_or_ping_keeps_players `{LibC} buffer client_addr now s :
  hdr_type (as_PacketHeader buffer) = PKT_HEARTBEAT
  ∨ hdr_type (as_PacketHeader buffer) = PKT_PING →
  players (dispatch buffer client_addr now s) = players s.
Proof.
  intros [Ht|Ht]; unfold dispatch; rewrite Ht; simpl;
    by destruct (Z.of_nat (length buffer) >=? sizeof_PacketHeader).
Qed.

(** C3, evaluated.  A session joins at second 1000 and then sends one
    heartbeat a second from its endpoint.  After ten of them it is still
    active with last-seen 1000; the iteration of second 1011, which also
    receives a heartbeat, reaps it: last-seen was never refreshed. *)
Theorem heartbeats_do_not_refresh_last_seen :
  (λ p, (pl_active p, pl_last_seen p))
    <$> players (server (run_loop (libc := libc_zero) (heartbeats 10) loop_one_player)) !! 0%nat
  = Some (true, 1000)
  ∧ (λ p, (pl_active p, pl_last_seen p))
      <$> players (server (run_loop (libc := libc_zero) (heartbeats 11) loop_one_player)) !! 0%nat
    = Some (false, 1000).
Proof. by vm_compute. Qed.

(** ** C2, C4, C5: entity damage *)

Lemma dispatch_entity_damage `{LibC} buffer client_addr now s :
  hdr_type (as_PacketHeader buffer) = PKT_ENTITY_DAMAGE →
  dispatch buffer client_addr now s
  = if Z.of_nat (length buffer) >=? sizeof_EntityDamagePacket
    then handle_entity_damage_server (dmg_entity_id (as_EntityDamagePacket buffer))
           (dmg_damage (as_EntityDamagePacket buffer))
           (dmg_attacker_id (as_EntityDamagePacket buffer)) s
    else s.
Proof.
  intros Ht. unfold dispatch. rewrite Ht. simpl.
  destruct (Z.of_nat (length buffer) >=? sizeof_PacketHeader) eqn:E; [done|].
  destruct (Z.of_nat (length buffer) >=? sizeof_EntityDamagePacket) eqn:E'; [|done].
  unfold sizeof_EntityDamagePacket, sizeof_PacketHeader in *. lia.
Qed.

(** The arbiter sends nothing unless the entity it is given is an active
    chaser whose health the damage brings to zero or below. *)
Lemma handle_entity_damage_server_silent `{LibC} entity_id damage attacker_id s :
  wire (handle_entity_damage_server entity_id damage attacker_id s) = wire s
  ∨ ∃ i b,
      list_find (λ b, bobba_active b = true ∧ bobba_entity_id b = entity_id) (bobbas s)
      = Some (i, b)
      ∧ (bobba_health b - damage <=? F32.of_Z 0)%f32 = true.
Proof.
  unfold handle_entity_damage_server.
  destruct (list_find _ (bobbas s)) as [[i b]|].
  - cbv zeta. cbn [bobba_health SetBobba.health SetBobba.stun_timer SetBobba.state
                   SetBobba.target_player_id].
    destruct (bobba_health b - damage <=? F32.of_Z 0)%f32 eqn:E.
    + right. by exists i, b.
    + by left.
  - left. by destruct (list_find _ (dragons s)) as [[i d]|].
Qed.

(** The host search returns an active session of least identifier. *)
Lemma lowest_id_from_spec (ps : list Player) (host : option Player) (lowest_id : Z) :
  (∀ h, host = Some h → pl_player_id h = lowest_id ∧ pl_active h = true) →
  match lowest_id_from ps host lowest_id with
  | Some h =>
    (host = Some h ∨ h ∈ ps) ∧ pl_active h = true ∧ pl_player_id h ≤ lowest_id
    ∧ ∀ p, p ∈ ps → pl_active p = true → pl_player_id h ≤ pl_player_id p
  | None => host = None ∧ ∀ p, p ∈ ps → pl_active p = true → lowest_id ≤ pl_player_id p
  end.
Proof.
  revert host lowest_id. induction ps as [|q ps IH]; intros host low Hhost; simpl.
  - destruct host as [h|].
    + destruct (Hhost h eq_refl) as [<- Ha]. split; [by left|]. split; [done|].
      split; [lia|]. by intros p Hp%elem_of_nil.
    + split; [done|]. by intros p Hp%elem_of_nil.
  - destruct (pl_active q && (pl_player_id q <? low)) eqn:E.
    + apply andb_true_iff in E as [Ha Hlt]. apply Z.ltb_lt in Hlt.
      specialize (IH (Some q) (pl_player_id q)).
      destruct (lowest_id_from ps (Some q) (pl_player_id q)) as [h|].
      * destruct IH as (Hin & Hact & Hle & Hmin); [by intros h' [= <-]|].
        split. { right. destruct Hin as [[= <-]|Hin]; [left|by right]. }
        split; [done|]. split; [lia|].
        intros p [->|Hp]%elem_of_cons Hpa; [lia|by apply Hmin].
      * destruct IH as [? _]; [by intros h' [= <-]|]. done.
    + specialize (IH host low Hhost).
      assert (Hq : pl_active q = true → low ≤ pl_player_id q).
      { intros Ha. rewrite Ha in E. simpl in E. apply Z.ltb_ge in E. lia. }
      destruct (lowest_id_from ps host low) as [h|].
      * destruct IH as (Hin & Hact & Hle & Hmin).
        split. { destruct Hin as [?|?]; [by left|right; by right]. }
        split; [done|]. split; [done|].
        intros p [->|Hp]%elem_of_cons Hpa; [specialize (Hq Hpa); lia|by apply Hmin].
      * destruct IH as [? Hmin]. split; [done|].
        intros p [->|Hp]%elem_of_cons Hpa; [by apply Hq|by apply Hmin].
Qed.

(** C2, as the code has it.  The dispatcher hands an entity-damage
    datagram to [handle_entity_damage_server]; whatever is sent while it
    is processed is a game-restart, entity-state or world-state packet of
    the server, never the datagram itself, and nothing at all is sent
    unless the datagram names an active chaser and brings its health to
    zero or below.  The routine
    [relay_entity_damage], which the dispatcher does not call, sends the
    packet it is given verbatim in exactly one datagram, to an active
    session whose identifier no active session undercuts, and sends
    nothing when no session is active. *)
Theorem entity_damage_is_consumed_not_relayed `{LibC} :
  (∀ buffer client_addr now s,
     hdr_type (as_PacketHeader buffer) = PKT_ENTITY_DAMAGE →
     ∃ out, wire (dispatch buffer client_addr now s) = wire s ++ out
            ∧ (∀ d, d ∈ out →
                 kind_of (dg_packet d) ∈ [KGameRestart; KEntityState; KWorldState])
            ∧ (out ≠ [] →
                 let dmg := as_EntityDamagePacket buffer in
                 ∃ i b,
                   list_find (λ b, bobba_active b = true
                                   ∧ bobba_entity_id b = dmg_entity_id dmg) (bobbas s)
                   = Some (i, b)
                   ∧ (bobba_health b - dmg_damage dmg <=? F32.of_Z 0)%f32 = true))
  ∧ (∀ pkt len sender_addr s,
       match lowest_id_from (players s) None UINT32_MAX with
       | Some host =>
         host ∈ players s ∧ pl_active host = true
         ∧ (∀ p, p ∈ players s → pl_active p = true → pl_player_id host ≤ pl_player_id p)
         ∧ wire (relay_entity_damage pkt len sender_addr s)
           = wire s ++ [mkDatagram (pl_addr host) (PktRelay pkt) len]
       | None =>
         (∀ p, p ∈ players s → pl_active p = true → UINT32_MAX ≤ pl_player_id p)
         ∧ relay_entity_damage pkt len sender_addr s = s
       end).
Proof.
  split.
  - intros buffer client_addr now s Ht. rewrite dispatch_entity_damage by done.
    destruct (_ >=? _).
    + destruct (handle_entity_damage_server_runs
                  (dmg_entity_id (as_EntityDamagePacket buffer))
                  (dmg_damage (as_EntityDamagePacket buffer))
                  (dmg_attacker_id (as_EntityDamagePacket buffer)) s)
        as (_ & out & K & Hw & _ & _ & Hk).
      exists out. split; [done|]. split.
      * intros d Hd. by eapply (proj1 (Forall_forall _ _) Hk).
      * intros Hout dmg.
        destruct (handle_entity_damage_server_silent (dmg_entity_id dmg)
                    (dmg_damage dmg) (dmg_attacker_id dmg) s) as [Hs|Hd]; [|exact Hd].
        exfalso. apply Hout. fold dmg in Hw. rewrite Hs in Hw.
        apply (app_inv_head (wire s)). by rewrite app_nil_r.
    + exists []. rewrite app_nil_r. split; [done|].
      split; [by intros d Hd%elem_of_nil|done].
  - intros pkt len sender_addr s. unfold relay_entity_damage.
    pose proof (lowest_id_from_spec (players s) None UINT32_MAX) as Hspec.
    destruct (lowest_id_from (players s) None UINT32_MAX) as [host|].
    + destruct Hspec as (Hin & Hact & _ & Hmin); [by intros h [=]|].
      destruct Hin as [[=]|Hin]. done.
    + destruct Hspec as (_ & Hmin); [by intros h [=]|]. done.
Qed.

(** With one session active, an entity-damage datagram from it (entity
    1, damage 10) puts nothing on the wire: the host receives no copy. *)
Lemma entity_damage_relay_counterexample :
  let s := server_one_player in
  let buffer := client_entity_damage 3 1 1 1092616192 1 in
  player_addrs s = [endpoint_A]
  ∧ hdr_type (as_PacketHeader buffer) = PKT_ENTITY_DAMAGE
  ∧ wire (dispatch (libc := libc_zero) buffer endpoint_A 1001 s) = wire s.
Proof. by vm_compute. Qed.

(** *** The restart and the chaser table *)

Section Restart.

Context `{libc : LibC}.

Lemma bobbas_broadcast_world_state s : bobbas (broadcast_world_state s) = bobbas s.
Proof. by rewrite broadcast_world_state_eq. Qed.

Lemma bobbas_broadcast_entity_state s : bobbas (broadcast_entity_state s) = bobbas s.
Proof.
  unfold broadcast_entity_state. destruct (decide _); [done|]. by rewrite broadcast_eq.
Qed.

Lemma bobbas_handle_game_restart reason requester s :
  bobbas (handle_game_restart reason requester s)
  = (respawn_bobbas_from (bobbas s) s).1.
Proof.
  unfold handle_game_restart. cbv beta iota zeta.
  rewrite bobbas_broadcast_world_state, bobbas_broadcast_entity_state.
  rewrite send_to_active_players_eq. cbn [bobbas set_wire bump_state_sequence set_state_sequence].
  unfold respawn_all_players.
  destruct (respawn_players_from _ _) as [ps s1] eqn:Ep.
  apply respawn_players_from_rand_only in Ep as [n ->].
  cbn [bobbas set_players set_rand_calls].
  unfold respawn_all_bobbas.
  destruct (respawn_bobbas_from _ _) as [bs s2] eqn:Eb. done.
Qed.

(** A chaser slot that was ever spawned comes out of the respawn
    roaming, at full health, without target, stun or hit flag. *)
Lemma respawn_bobbas_from_lookup bs s i b :
  bs !! i = Some b → bobba_entity_id b ≠ 0 →
  ∃ b', (respawn_bobbas_from bs s).1 !! i = Some b'
        ∧ bobba_entity_id b' = bobba_entity_id b
        ∧ bobba_active b' = true
        ∧ bobba_state b' = BOBBA_ROAMING
        ∧ bobba_health b' = F32.of_Z 100
        ∧ bobba_target_player_id b' = 0
        ∧ bobba_stun_timer b' = F32.of_Z 0
        ∧ bobba_has_hit_this_attack b' = false.
Proof.
  revert s i. induction bs as [|b0 bs IH]; intros s i Hi Hid; [done|].
  cbn [respawn_bobbas_from].
  destruct i as [|i]; simpl in Hi.
  - injection Hi as ->. apply Z.eqb_neq in Hid. rewrite Hid.
    destruct (random_angle s) as [angle s1]. cbv beta iota zeta.
    destruct (respawn_bobbas_from bs s1) as [rest s2].
    eexists. split; [reflexivity|]. done.
  - match goal with |- context [if ?c then _ else _] => destruct c end.
    + cbv beta iota zeta. specialize (IH s i Hi Hid).
      destruct (respawn_bobbas_from bs s) as [rest s2]. exact IH.
    + destruct (random_angle s) as [angle s1]. cbv beta iota zeta.
      specialize (IH s1 i Hi Hid).
      destruct (respawn_bobbas_from bs s1) as [rest s2]. exact IH.
Qed.

End Restart.

(** C4, as the code has it.  An entity-damage datagram naming an active
    chaser subtracts the damage from its health, sets its stun timer to
    0.5, its state to stunned and its target to the attacker, and leaves
    the hit flag as it was.  If the health stays above zero that is all:
    the slot holds the stunned chaser and nothing is sent.  If the health
    is zero or below the chaser is deactivated and [handle_game_restart]
    runs; it respawns every chaser ever spawned, so the slot then holds a
    roaming chaser at full health, without target, with the hit flag
    clear. *)
Theorem chaser_damage_stuns `{LibC} (s : Server) (buffer : list Byte.byte)
    (client_addr : sockaddr_in) (now : Z) (i : nat) (b : ServerBobba) :
  hdr_type (as_PacketHeader buffer) = PKT_ENTITY_DAMAGE →
  sizeof_EntityDamagePacket ≤ Z.of_nat (length buffer) →
  let dmg := as_EntityDamagePacket buffer in
  list_find (λ b, bobba_active b = true ∧ bobba_entity_id b = dmg_entity_id dmg) (bobbas s)
  = Some (i, b) →
  let health := (bobba_health b - dmg_damage dmg)%f32 in
  let stunned :=
    SetBobba.target_player_id (dmg_attacker_id dmg)
      (SetBobba.state BOBBA_STUNNED
         (SetBobba.stun_timer (F32.lit 1 2) (SetBobba.health health b))) in
  let s' := dispatch buffer client_addr now s in
  bobba_state stunned = BOBBA_STUNNED
  ∧ bobba_stun_timer stunned = F32.lit 1 2
  ∧ bobba_target_player_id stunned = dmg_attacker_id dmg
  ∧ bobba_has_hit_this_attack stunned = bobba_has_hit_this_attack b
  ∧ s' = (if (health <=? F32.of_Z 0)%f32
          then handle_game_restart 1 0
                 (set_bobbas (<[i := SetBobba.active false stunned]> (bobbas s)) s)
          else set_bobbas (<[i := stunned]> (bobbas s)) s)
  ∧ ((health <=? F32.of_Z 0)%f32 = false →
       bobbas s' !! i = Some stunned ∧ wire s' = wire s)
  ∧ ((health <=? F32.of_Z 0)%f32 = true → bobba_entity_id b ≠ 0 →
       ∃ b', bobbas s' !! i = Some b'
             ∧ bobba_active b' = true
             ∧ bobba_state b' = BOBBA_ROAMING
             ∧ bobba_health b' = F32.of_Z 100
             ∧ bobba_target_player_id b' = 0
             ∧ bobba_has_hit_this_attack b' = false).
Proof.
  intros Ht Hlen dmg Hfind health stunned s'.
  assert (Hs' : s' = (if (health <=? F32.of_Z 0)%f32
          then handle_game_restart 1 0
                 (set_bobbas (<[i := SetBobba.active false stunned]> (bobbas s)) s)
          else set_bobbas (<[i := stunned]> (bobbas s)) s)).
  { subst s'. rewrite dispatch_entity_damage by done.
    destruct (_ >=? _) eqn:E; [|lia].
    unfold handle_entity_damage_server. fold dmg. rewrite Hfind. reflexivity. }
  apply list_find_Some in Hfind as (Hi & _ & _).
  apply lookup_lt_Some in Hi as Hlt.
  do 4 (split; [reflexivity|]). split; [exact Hs'|]. split.
  - intros Hpos. rewrite Hs', Hpos. cbn [bobbas set_bobbas wire].
    by rewrite list_lookup_insert_eq.
  - intros Hdead Hid. rewrite Hs', Hdead. rewrite bobbas_handle_game_restart.
    cbn [bobbas set_bobbas].
    destruct (respawn_bobbas_from_lookup
                (<[i := SetBobba.active false stunned]> (bobbas s))
                (set_bobbas (<[i := SetBobba.active false stunned]> (bobbas s)) s)
                i (SetBobba.active false stunned))
      as (b' & Hb' & _ & Ha & Hst & Hh & Htg & _ & Hhit).
    + by rewrite list_lookup_insert_eq.
    + exact Hid.
    + by exists b'.
Qed.

(** The chaser has landed its hit (flag set) when the session damages it
    by 50: it is stunned and the flag is still set. *)
Lemma chaser_hit_flag_counterexample :
  let s := server_after_bite in
  let buffer := client_entity_damage 3 1 1 1112014848 1 in
  (λ b, (bobba_active b, bobba_entity_id b, bobba_state b, bobba_has_hit_this_attack b))
    <$> bobbas s !! 0%nat = Some (true, 1, BOBBA_ATTACKING, true)
  ∧ hdr_type (as_PacketHeader buffer) = PKT_ENTITY_DAMAGE
  ∧ (λ b, (bobba_state b, bobba_has_hit_this_attack b))
      <$> bobbas (dispatch (libc := libc_zero) buffer endpoint_A 1000 s) !! 0%nat
    = Some (BOBBA_STUNNED, true)
  ∧ true ≠ false.
Proof. by vm_compute. Qed.

Lemma chaser_damage_stuns_witness :
  let s := server_after_bite in
  let buffer := client_entity_damage 3 1 1 1112014848 1 in
  let b := default ServerBobba_zero (bobbas s !! 0%nat) in
  let s' := dispatch (libc := libc_zero) buffer endpoint_A 1000 s in
  hdr_type (as_PacketHeader buffer) = PKT_ENTITY_DAMAGE
  ∧ sizeof_EntityDamagePacket ≤ Z.of_nat (length buffer)
  ∧ list_find (λ b, bobba_active b = true
                    ∧ bobba_entity_id b = dmg_entity_id (as_EntityDamagePacket buffer))
      (bobbas s) = Some (0%nat, b)
  ∧ (bobba_state <$> bobbas s' !! 0%nat) = Some BOBBA_STUNNED.
Proof.
  intros s buffer b s'.
  assert (H1 : hdr_type (as_PacketHeader buffer) = PKT_ENTITY_DAMAGE) by (by vm_compute).
  assert (H2 : sizeof_EntityDamagePacket ≤ Z.of_nat (length buffer)) by (by vm_compute).
  assert (H3 : list_find (λ b, bobba_active b = true
                    ∧ bobba_entity_id b = dmg_entity_id (as_EntityDamagePacket buffer))
      (bobbas s) = Some (0%nat, b)) by (by vm_compute).
  split; [exact H1|]. split; [exact H2|]. split; [exact H3|].
  pose proof (chaser_damage_stuns (H := libc_zero) s buffer endpoint_A 1000 0%nat b H1 H2 H3)
    as (_ & _ & _ & _ & _ & Hpos & _).
  destruct Hpos as [Hb _]; [by vm_compute|].
  subst s'. rewrite Hb. reflexivity.
Defined.

(** C5, as the code has it.  An entity-damage datagram that names an
    active patroller (and no active chaser) and brings its health to zero
    or below deactivates the patroller and does nothing else: no restart
    runs, nothing is sent, the counter, the sessions and the chasers are
    as they were. *)
Theorem patroller_death_only_deactivates `{LibC} (s : Server) (buffer : list Byte.byte)
    (client_addr : sockaddr_in) (now : Z) (i : nat) (d : ServerDragon) :
  hdr_type (as_PacketHeader buffer) = PKT_ENTITY_DAMAGE →
  sizeof_EntityDamagePacket ≤ Z.of_nat (length buffer) →
  let dmg := as_EntityDamagePacket buffer in
  list_find (λ b, bobba_active b = true ∧ bobba_entity_id b = dmg_entity_id dmg) (bobbas s)
  = None →
  list_find (λ d, dragon_active d = true ∧ dragon_entity_id d = dmg_entity_id dmg) (dragons s)
  = Some (i, d) →
  (dragon_health d - dmg_damage dmg <=? F32.of_Z 0)%f32 = true →
  let s' := dispatch buffer client_addr now s in
  s' = set_dragons
         (<[i := SetDragon.active false
                   (SetDragon.health (dragon_health d - dmg_damage dmg)%f32 d)]>
            (dragons s)) s
  ∧ (dragon_active <$> dragons s' !! i) = Some false
  ∧ wire s' = wire s
  ∧ state_sequence s' = state_sequence s
  ∧ players s' = players s
  ∧ bobbas s' = bobbas s.
Proof.
  intros Ht Hlen dmg Hb Hd Hdead s'.
  assert (Hs' : s' = set_dragons
         (<[i := SetDragon.active false
                   (SetDragon.health (dragon_health d - dmg_damage dmg)%f32 d)]>
            (dragons s)) s).
  { subst s'. rewrite dispatch_entity_damage by done.
    destruct (_ >=? _) eqn:E; [|lia].
    unfold handle_entity_damage_server. fold dmg. rewrite Hb, Hd.
    cbn [dragon_health SetDragon.health]. rewrite Hdead. reflexivity. }
  split; [exact Hs'|]. rewrite Hs'. cbn [dragons set_dragons wire state_sequence players bobbas].
  split; [|done].
  apply list_find_Some in Hd as (Hi & _ & _). apply lookup_lt_Some in Hi.
  by rewrite list_lookup_insert_eq.
Qed.

(** The session brings the patroller (entity 2, health 500) down with a
    damage of 500: the patroller is deactivated and the wire is as it
    was, no game-restart has been sent to the session. *)
Lemma patroller_death_counterexample :
  let s := server_one_player in
  let buffer := client_entity_damage 3 1 2 1140457472 1 in
  let s' := dispatch (libc := libc_zero) buffer endpoint_A 1001 s in
  player_addrs s = [endpoint_A]
  ∧ (λ d, (dragon_active d, dragon_entity_id d)) <$> dragons s !! 0%nat = Some (true, 2)
  ∧ (dragon_active <$> dragons s' !! 0%nat) = Some false
  ∧ filter (λ d, dg_type d = PKT_GAME_RESTART) (wire s') = []
  ∧ wire s' = wire s.
Proof. by vm_compute. Qed.

Lemma patroller_death_only_deactivates_witness :
  let s := server_one_player in
  let buffer := client_entity_damage 3 1 2 1140457472 1 in
  let d := default ServerDragon_zero (dragons s !! 0%nat) in
  let dmg := as_EntityDamagePacket buffer in
  hdr_type (as_PacketHeader buffer) = PKT_ENTITY_DAMAGE
  ∧ sizeof_EntityDamagePacket ≤ Z.of_nat (length buffer)
  ∧ list_find (λ b, bobba_active b = true ∧ bobba_entity_id b = dmg_entity_id dmg)
      (bobbas s) = None
  ∧ list_find (λ d, dragon_active d = true ∧ dragon_entity_id d = dmg_entity_id dmg)
      (dragons s) = Some (0%nat, d)
  ∧ (dragon_health d - dmg_damage dmg <=? F32.of_Z 0)%f32 = true
  ∧ wire (dispatch (libc := libc_zero) buffer endpoint_A 1001 s) = wire s.
Proof.
  intros s buffer d dmg.
  assert (H1 : hdr_type (as_PacketHeader buffer) = PKT_ENTITY_DAMAGE) by (by vm_compute).
  assert (H2 : sizeof_EntityDamagePacket ≤ Z.of_nat (length buffer)) by (by vm_compute).
  assert (H3 : list_find (λ b, bobba_active b = true ∧ bobba_entity_id b = dmg_entity_id dmg)
      (bobbas s) = None) by (by vm_compute).
  assert (H4 : list_find (λ d, dragon_active d = true ∧ dragon_entity_id d = dmg_entity_id dmg)
      (dragons s) = Some (0%nat, d)) by (by vm_compute).
  assert (H5 : (dragon_health d - dmg_damage dmg <=? F32.of_Z 0)%f32 = true)
    by (by vm_compute).
  split; [exact H1|]. split; [exact H2|]. split; [exact H3|]. split; [exact H4|].
  split; [exact H5|].
  exact (proj1 (proj2 (proj2
    (patroller_death_only_deactivates (H := libc_zero) s buffer endpoint_A 1001 0%nat d
       H1 H2 H3 H4 H5)))).
Defined.

(** ** C7: one hit per attack *)

Section Attack.

Context `{libc : LibC}.

Lemma send_player_damage_found t dmg e kx ky kz s i p :
  find_player_by_id s t = Some (i, p) →
  send_player_damage t dmg e kx ky kz s
  = sendto (PktPlayerDamage (player_damage_packet t dmg e kx ky kz (bump_state_sequence s)))
      sizeof_PlayerDamagePacket (pl_addr p) (bump_state_sequence s).
Proof.
  intros Hf. unfold send_player_damage. rewrite Hf.
  apply list_find_Some in Hf as (_ & [Ha _] & _). by rewrite Ha.
Qed.

(** One update of an attacking chaser whose target is a session within
    reach. *)
Lemma bobba_attack_step b delta s i p :
  bobba_target_player_id b ≠ 0 →
  find_player_by_id s (bobba_target_player_id b) = Some (i, p) →
  in_hit_range b p = true →
  let timer := (bobba_attack_timer b - delta)%f32 in
  let fire := negb (bobba_has_hit_this_attack b)
              && in_hit_window timer (bobba_attack_start_time b) in
  bobba_attack b delta s
  = (let b1 := SetBobba.attack_timer timer b in
     let b2 := if fire then SetBobba.has_hit_this_attack true b1 else b1 in
     if (timer <=? F32.of_Z 0)%f32 then SetBobba.state BOBBA_CHASING b2 else b2,
     if fire then set_wire (wire s ++ [bite_datagram b p s]) (bump_state_sequence s)
     else s).
Proof.
  intros Ht Hf Hr timer fire. unfold bobba_attack.
  cbn [bobba_attack_timer bobba_attack_start_time bobba_has_hit_this_attack
       bobba_target_player_id bobba_pos_x bobba_pos_y bobba_pos_z bobba_entity_id
       SetBobba.attack_timer SetBobba.has_hit_this_attack].
  fold timer. apply Z.eqb_neq in Ht as Ht'. rewrite Ht'.
  assert (Hfire : negb (bobba_has_hit_this_attack b)
                  && (F32.of_Z 1 - timer / bobba_attack_start_time b >=? BOBBA_HIT_WINDOW_START)%f32
                  && (F32.of_Z 1 - timer / bobba_attack_start_time b <=? BOBBA_HIT_WINDOW_END)%f32
                  && negb false = fire).
  { subst fire. unfold in_hit_window. cbv zeta.
    rewrite andb_true_r, andb_assoc. reflexivity. }
  rewrite Hfire. destruct fire; [|reflexivity].
  rewrite Hf. pose proof Hf as Hf'.
  apply list_find_Some in Hf' as (_ & [Ha _] & _). rewrite Ha.
  unfold in_hit_range in Hr. rewrite Hr.
  unfold bite_datagram. unfold knockback_direction at 1.
  cbn [bobba_pos_x bobba_pos_z SetBobba.attack_timer].
  fold (knockback_direction b p).
  destruct (knockback_direction b p) as [[dx dy] dz].
  cbn [bobba_attack_timer bobba_target_player_id bobba_entity_id
       SetBobba.has_hit_this_attack SetBobba.attack_timer].
  erewrite send_player_damage_found by exact Hf. reflexivity.
Qed.

(** One update of an attacking chaser that has already hit. *)
Lemma bobba_attack_spent b delta s :
  bobba_has_hit_this_attack b = true →
  let timer := (bobba_attack_timer b - delta)%f32 in
  bobba_attack b delta s
  = (let b1 := SetBobba.attack_timer timer b in
     if (timer <=? F32.of_Z 0)%f32 then SetBobba.state BOBBA_CHASING b1 else b1, s).
Proof.
  intros Hh timer. unfold bobba_attack.
  cbn [bobba_has_hit_this_attack SetBobba.attack_timer]. rewrite Hh. reflexivity.
Qed.

Lemma update_bobba_ai_attacking b delta s :
  bobba_active b = true → test_multiplayer s = false →
  (bobba_stun_timer b >? F32.of_Z 0)%f32 = false →
  bobba_state b = BOBBA_ATTACKING →
  update_bobba_ai b delta s = bobba_attack b delta s.
Proof.
  intros Ha Ht Hs Hst. unfold update_bobba_ai. by rewrite Ha, Ht, Hs, Hst.
Qed.

(** Once the hit has landed, the rest of the attack sends nothing. *)
Lemma attack_cycle_after_hit updates b s :
  bobba_active b = true → test_multiplayer s = false →
  (bobba_stun_timer b >? F32.of_Z 0)%f32 = false →
  bobba_has_hit_this_attack b = true →
  wire (attack_cycle updates b s).2 = wire s
  ∧ state_sequence (attack_cycle updates b s).2 = state_sequence s
  ∧ bobba_has_hit_this_attack (attack_cycle updates b s).1 = true.
Proof.
  revert b s. induction updates as [|[delta table] updates IH]; intros b s Ha Ht Hs Hh;
    cbn [attack_cycle]; [done|].
  destruct (bobba_state b =? BOBBA_ATTACKING) eqn:Est; [|done].
  apply Z.eqb_eq in Est.
  rewrite update_bobba_ai_attacking, bobba_attack_spent by done.
  cbv zeta. destruct (_ <=? _)%f32.
  - destruct updates as [|[d t] updates]; cbn [attack_cycle]; done.
  - match goal with |- context [attack_cycle updates ?b1 ?s1] =>
      destruct (IH b1 s1) as (E1 & E2 & E3); try done end.
Qed.

(** The datagrams of one attack: the bite, built from the session table
    of the first update inside the hit window, and nothing else. *)
Lemma attack_cycle_wire updates b s :
  bobba_active b = true → test_multiplayer s = false →
  (bobba_stun_timer b >? F32.of_Z 0)%f32 = false →
  bobba_state b = BOBBA_ATTACKING →
  bobba_has_hit_this_attack b = false →
  bobba_target_player_id b ≠ 0 →
  Forall (λ u, ∃ i p, target_in u.2 b = Some (i, p) ∧ in_hit_range b p = true) updates →
  match hit_update updates.*1 (bobba_attack_timer b) (bobba_attack_start_time b) with
  | None =>
    wire (attack_cycle updates b s).2 = wire s
    ∧ bobba_has_hit_this_attack (attack_cycle updates b s).1 = false
  | Some k =>
    ∃ delta table i p,
      updates !! k = Some (delta, table)
      ∧ target_in table b = Some (i, p)
      ∧ wire (attack_cycle updates b s).2 = wire s ++ [bite_datagram b p s]
      ∧ bobba_has_hit_this_attack (attack_cycle updates b s).1 = true
  end.
Proof.
  revert b s. induction updates as [|[delta table] updates IH];
    intros b s Ha Ht Hs Hst Hh Htg Hall; cbn [attack_cycle hit_update fmap list_fmap fst].
  { done. }
  apply Forall_cons in Hall as [(i & p & Hf & Hr) Hall]. cbn [snd] in Hf.
  rewrite Hst. cbn [Z.eqb Pos.eqb BOBBA_ATTACKING].
  rewrite update_bobba_ai_attacking by done.
  rewrite (bobba_attack_step b delta (set_players table s) i p) by done.
  cbv zeta. rewrite Hh. cbn [negb andb].
  destruct (in_hit_window _ _) eqn:Ew.
  - (* the hit lands at this update *)
    exists delta, table, i, p. split; [done|]. split; [done|].
    set (s1 := set_wire _ _).
    assert (Ht1 : test_multiplayer s1 = false) by done.
    destruct (_ <=? _)%f32.
    + destruct updates as [|[d t] updates]; cbn [attack_cycle]; done.
    + match goal with |- context [attack_cycle updates ?b1 s1] =>
        destruct (attack_cycle_after_hit updates b1 s1) as (E1 & _ & E3); try done end.
  - destruct (_ <=? _)%f32 eqn:Eend.
    + destruct updates as [|[d t] updates]; cbn [attack_cycle]; done.
    + match goal with |- context [attack_cycle updates ?b1 ?s1] =>
        specialize (IH b1 s1) end.
      cbn [bobba_attack_timer bobba_attack_start_time SetBobba.attack_timer] in IH.
      destruct (hit_update _ _ _) as [k|]; cbn [fmap option_fmap option_map].
      * destruct IH as (d' & t' & i' & p' & Hk & Hf' & Hw & Hflag); try done.
        exists d', t', i', p'. done.
      * apply IH; done.
Qed.

Lemma steady_updates_deltas elapsed n table :
  (steady_updates elapsed n table).*1 = steady_deltas elapsed n.
Proof.
  unfold steady_updates. rewrite <- list_fmap_compose.
  apply list_fmap_id.
Qed.

Lemma steady_updates_hit (elapsed : Z) :
  50 ≤ elapsed ≤ 1000 →
  is_Some (hit_update (steady_deltas elapsed 31) BOBBA_ATTACK_DURATION BOBBA_ATTACK_DURATION).
Proof.
  intros He.
  assert (Hall : forallb (λ e, match hit_update (steady_deltas (Z.of_nat e) 31)
                                       BOBBA_ATTACK_DURATION BOBBA_ATTACK_DURATION with
                               | Some _ => true
                               | None => false
                               end)
                   (seq 50 951) = true) by (vm_compute; reflexivity).
  rewrite forallb_forall in Hall.
  specialize (Hall (Z.to_nat elapsed)). rewrite Z2Nat.id in Hall by lia.
  destruct (hit_update _ _ _); [done|].
  discriminate Hall. apply in_seq. lia.
Qed.

End Attack.

(** C7, as the code has it.  Take a chaser [b] that is active, not
    stunned and attacking with its hit flag clear, AI enabled, and let
    the AI update it until the attack is over, each update with its
    measured delta and the session table of the moment, in which the
    target of [b] is an active session within reach (at most 4 away).
    Then at most one datagram is sent.  If no update finds the attack
    progress within [0.30, 0.70], none is sent and the hit flag stays
    clear.  Otherwise the first such update sends the bite to the target
    [p] as that update finds it, and nothing else is sent; the hit flag
    ends set.  From the entry values (timer and total 1.5) some update
    does fall in the window whenever the updates come at one steady
    interval between 50 and 1000 ms.  The bite goes to [p] alone and is a
    33-byte player-damage packet stamped with the incremented counter,
    with damage 70, the identifiers of target and chaser, a vertical
    knockback of [0.3f * 12] and a horizontal knockback of 12 times the
    offset from chaser to target, divided by its length only when that
    length exceeds 0.01. *)
Theorem one_bite_per_attack `{LibC} (updates : list (float * list Player))
    (b : ServerBobba) (s : Server) :
  bobba_active b = true →
  test_multiplayer s = false →
  (bobba_stun_timer b >? F32.of_Z 0)%f32 = false →
  bobba_state b = BOBBA_ATTACKING →
  bobba_has_hit_this_attack b = false →
  bobba_target_player_id b ≠ 0 →
  Forall (λ u, ∃ i p, target_in u.2 b = Some (i, p) ∧ in_hit_range b p = true) updates →
  match hit_update updates.*1 (bobba_attack_timer b) (bobba_attack_start_time b) with
  | None =>
    wire (attack_cycle updates b s).2 = wire s
    ∧ bobba_has_hit_this_attack (attack_cycle updates b s).1 = false
  | Some k =>
    ∃ delta table i p,
      updates !! k = Some (delta, table)
      ∧ target_in table b = Some (i, p)
      ∧ wire (attack_cycle updates b s).2 = wire s ++ [bite_datagram b p s]
      ∧ bobba_has_hit_this_attack (attack_cycle updates b s).1 = true
  end
  ∧ (∀ elapsed table, 50 ≤ elapsed ≤ 1000 →
       is_Some (hit_update (steady_updates elapsed 31 table).*1
                  BOBBA_ATTACK_DURATION BOBBA_ATTACK_DURATION))
  ∧ (∀ p, let bite := bite_datagram b p s in
       dg_to bite = pl_addr p
       ∧ dg_len bite = 33
       ∧ ∃ pkt, dg_packet bite = PktPlayerDamage pkt
           ∧ hdr_sequence (pdmg_header pkt) = u32 (state_sequence s + 1)
           ∧ pdmg_target_player_id pkt = bobba_target_player_id b
           ∧ pdmg_damage pkt = F32.of_Z 70
           ∧ pdmg_attacker_entity_id pkt = bobba_entity_id b
           ∧ pdmg_knockback_y pkt = (F32.lit 3 10 * F32.of_Z 12)%f32
           ∧ (let dx := (pd_pos_x (pl_data p) - bobba_pos_x b)%f32 in
              let dz := (pd_pos_z (pl_data p) - bobba_pos_z b)%f32 in
              let len := sqrt (dx * dx + dz * dz)%f32 in
              (pdmg_knockback_x pkt, pdmg_knockback_z pkt)
              = if (len >? F32.lit 1 100)%f32
                then ((dx / len * F32.of_Z 12)%f32, (dz / len * F32.of_Z 12)%f32)
                else ((dx * F32.of_Z 12)%f32, (dz * F32.of_Z 12)%f32))).
Proof.
  intros Ha Ht Hs Hst Hh Htg Hall.
  split; [by apply attack_cycle_wire|]. split.
  - intros elapsed table He. rewrite steady_updates_deltas. by apply steady_updates_hit.
  - intros p bite. subst bite. unfold bite_datagram, knockback_direction. cbv zeta.
    match goal with |- context [if ?c then _ else _] => destruct c end;
      (split; [reflexivity|]); (split; [reflexivity|]);
      eexists; (split; [reflexivity|]); repeat (split; [reflexivity|]); reflexivity.
Qed.

Lemma one_bite_per_attack_witness :
  let s := server_attack_begins in
  let b := default ServerBobba_zero (bobbas s !! 0%nat) in
  let updates := steady_updates 50 31 (players s) in
  bobba_active b = true
  ∧ test_multiplayer s = false
  ∧ (bobba_stun_timer b >? F32.of_Z 0)%f32 = false
  ∧ bobba_state b = BOBBA_ATTACKING
  ∧ bobba_has_hit_this_attack b = false
  ∧ bobba_target_player_id b ≠ 0
  ∧ Forall (λ u, ∃ i p, target_in u.2 b = Some (i, p) ∧ in_hit_range b p = true) updates
  ∧ hit_update updates.*1 (bobba_attack_timer b) (bobba_attack_start_time b) = Some 9%nat
  ∧ ∃ p, wire (attack_cycle (H := libc_zero) updates b s).2
         = wire s ++ [bite_datagram b p s].
Proof.
  intros s b updates.
  assert (H1 : bobba_active b = true) by (by vm_compute).
  assert (H2 : test_multiplayer s = false) by (by vm_compute).
  assert (H3 : (bobba_stun_timer b >? F32.of_Z 0)%f32 = false) by (by vm_compute).
  assert (H4 : bobba_state b = BOBBA_ATTACKING) by (by vm_compute).
  assert (H5 : bobba_has_hit_this_attack b = false) by (by vm_compute).
  assert (H6 : bobba_target_player_id b ≠ 0) by (by vm_compute).
  assert (H7 : Forall (λ u, ∃ i p, target_in u.2 b = Some (i, p)
                                   ∧ in_hit_range b p = true) updates).
  { unfold updates, steady_updates. apply Forall_fmap, Forall_forall. intros delta _.
    exists 0%nat, (default Player_zero (players s !! 0%nat)).
    vm_compute. split; reflexivity. }
  assert (H8 : hit_update updates.*1 (bobba_attack_timer b) (bobba_attack_start_time b)
               = Some 9%nat) by (vm_compute; reflexivity).
  split; [exact H1|]. split; [exact H2|]. split; [exact H3|]. split; [exact H4|].
  split; [exact H5|]. split; [exact H6|]. split; [exact H7|]. split; [exact H8|].
  pose proof (one_bite_per_attack (H := libc_zero) updates b s H1 H2 H3 H4 H5 H6 H7)
    as [Hw _].
  rewrite H8 in Hw. destruct Hw as (delta & table & i & p & _ & _ & Hw & _).
  exists p. exact Hw.
Defined.

(** Two attacks on a session within reach.  In the first the session
    stands 0.005 from the chaser: the one bite carries a horizontal
    knockback of about 0.06 along x, less than 1, not a vector of length
    12.  In the second the loop stalls and the updates of the attack
    come 1.2 s and 0.3 s apart: the attack is over (the chaser is chasing
    again, its hit flag clear) and no bite was sent. *)
Lemma one_bite_per_attack_counterexample :
  let close := server (run_loop (libc := libc_zero) (close_inputs 32) loop_one_player) in
  let slow := server (run_loop (libc := libc_zero) slow_inputs loop_one_player) in
  (λ d, match dg_packet d with
        | PktPlayerDamage pkt =>
          ((pdmg_knockback_x pkt <? F32.of_Z 1)%f32, pdmg_knockback_z pkt)
        | _ => (false, F32.zero)
        end) <$> filter (λ d, dg_type d = PKT_PLAYER_DAMAGE) (wire close)
  = [(true, F32.zero)]
  ∧ (bobba_state <$> bobbas (server (run_loop (libc := libc_zero) (take 2 slow_inputs)
                                       loop_one_player)) !! 0%nat)
    = Some BOBBA_ATTACKING
  ∧ (λ b, (bobba_state b, bobba_has_hit_this_attack b)) <$> bobbas slow !! 0%nat
    = Some (BOBBA_CHASING, false)
  ∧ filter (λ d, dg_type d = PKT_PLAYER_DAMAGE) (wire slow) = [].
Proof. by vm_compute. Qed.

(** * Further properties of the handlers *)

(** ** The dispatcher on malformed datagrams *)

(** X1.  A datagram shorter than the 9-byte header, a datagram whose type
    has no case in the switch of [main], and a join, update,
    entity-damage, arrow-spawn, arrow-hit or game-restart datagram
    shorter than its packed structure are all dropped: the server state,
    the wire included, is left as it was. *)
Theorem malformed_datagrams_are_ignored `{LibC} (buffer : list Byte.byte)
    (client_addr : sockaddr_in) (now : Z) (s : Server) :
  let recv_len := Z.of_nat (length buffer) in
  let type := hdr_type (as_PacketHeader buffer) in
  recv_len < sizeof_PacketHeader
  ∨ type ∉ [PKT_JOIN; PKT_UPDATE; PKT_LEAVE; PKT_PING; PKT_ENTITY_DAMAGE;
            PKT_ARROW_SPAWN; PKT_ARROW_HIT; PKT_HEARTBEAT; PKT_SPECTATE;
            PKT_GAME_RESTART]
  ∨ type = PKT_JOIN ∧ recv_len < sizeof_JoinPacket
  ∨ type = PKT_UPDATE ∧ recv_len < sizeof_UpdatePacket
  ∨ type = PKT_ENTITY_DAMAGE ∧ recv_len < sizeof_EntityDamagePacket
  ∨ type = PKT_ARROW_SPAWN ∧ recv_len < sizeof_ArrowSpawnPacket
  ∨ type = PKT_ARROW_HIT ∧ recv_len < sizeof_ArrowHitPacket
  ∨ type = PKT_GAME_RESTART ∧ recv_len < sizeof_GameRestartPacket →
  dispatch buffer client_addr now s = s.
Proof.
  intros recv_len type Hbad. unfold dispatch. fold recv_len. cbv zeta. fold type.
  destruct (recv_len >=? sizeof_PacketHeader) eqn:E0; [|done].
  destruct Hbad as [Hbad|Hbad]; [lia|].
  destruct Hbad as [Hbad|Hbad].
  { repeat match goal with
           | |- context [type =? ?k] =>
             destruct (Z.eqb_spec type k) as [Ek|_];
             [exfalso; apply Hbad; rewrite Ek; by repeat constructor|]
           end.
    done. }
  destruct Hbad as [[-> Hl]|[[-> Hl]|[[-> Hl]|[[-> Hl]|[[-> Hl]|[-> Hl]]]]]]; simpl;
    match goal with |- (if ?c then _ else _) = _ => destruct c eqn:E1 end;
    first [done | lia].
Qed.

Lemma malformed_datagrams_are_ignored_witness :
  let s := server_one_player in
  let buffer := take 40 (client_join 2) in
  hdr_type (as_PacketHeader buffer) = PKT_JOIN
  ∧ Z.of_nat (length buffer) = 40
  ∧ dispatch (libc := libc_zero) buffer endpoint_B 1001 s = s.
Proof.
  intros s buffer.
  split; [reflexivity|]. split; [reflexivity|].
  apply (malformed_datagrams_are_ignored (H := libc_zero)).
  right. right. left. split; [reflexivity|]. vm_compute. reflexivity.
Defined.

(** ** Leave, relay and update *)

(** X2.  A leave datagram whose sender identifier names no active session
    changes no table, but still triggers the world-state broadcast: the
    counter advances by one and every active session and spectator is
    sent one world-state datagram. *)
Theorem leave_of_unknown_id_still_broadcasts `{LibC} (s : Server)
    (buffer : list Byte.byte) (client_addr : sockaddr_in) (now : Z) :
  hdr_type (as_PacketHeader buffer) = PKT_LEAVE →
  sizeof_PacketHeader ≤ Z.of_nat (length buffer) →
  find_player_by_id s (hdr_player_id (as_PacketHeader buffer)) = None →
  let s' := dispatch buffer client_addr now s in
  players s' = players s
  ∧ spectators s' = spectators s
  ∧ state_sequence s' = u32 (state_sequence s + 1)
  ∧ wire s' = wire s ++ multicast (PktWorldState (world_state_packet (bump_state_sequence s)))
                          sizeof_WorldStatePacket (player_addrs s ++ spectator_addrs s).
Proof.
  intros Ht Hlen Hfind s'. subst s'.
  rewrite dispatch_leave by done. unfold handle_leave. rewrite Hfind.
  by rewrite broadcast_world_state_eq.
Qed.

Lemma leave_of_unknown_id_still_broadcasts_witness :
  let s := server_one_player in
  let buffer := client_leave 3 77 in
  hdr_type (as_PacketHeader buffer) = PKT_LEAVE
  ∧ sizeof_PacketHeader ≤ Z.of_nat (length buffer)
  ∧ find_player_by_id s (hdr_player_id (as_PacketHeader buffer)) = None
  ∧ players (dispatch (libc := libc_zero) buffer endpoint_B 1001 s) = players s
  ∧ state_sequence (dispatch (libc := libc_zero) buffer endpoint_B 1001 s)
    = u32 (state_sequence s + 1).
Proof.
  intros s buffer.
  assert (H1 : hdr_type (as_PacketHeader buffer) = PKT_LEAVE) by reflexivity.
  assert (H2 : sizeof_PacketHeader ≤ Z.of_nat (length buffer)) by (vm_compute; discriminate).
  assert (H3 : find_player_by_id s (hdr_player_id (as_PacketHeader buffer)) = None)
    by (vm_compute; reflexivity).
  split; [exact H1|]. split; [exact H2|]. split; [exact H3|].
  pose proof (leave_of_unknown_id_still_broadcasts (H := libc_zero) s buffer endpoint_B 1001
                H1 H2 H3) as (Hp & _ & Hs & _).
  split; [exact Hp|exact Hs].
Defined.

(** The relay loop sends the packet to the endpoints of the active
    sessions other than the sender's, in slot order. *)
Lemma relay_to_others_eq `{LibC} packet len sender_addr s :
  relay_to_others packet len sender_addr s
  = set_wire (wire s ++ multicast (PktRelay packet) len
                          (filter (λ a, ¬ same_endpoint a sender_addr) (player_addrs s))) s.
Proof.
  unfold relay_to_others, player_addrs. generalize (players s) as l.
  intros l. revert s. induction l as [|p l IH]; intros s; simpl.
  - by rewrite app_nil_r, set_wire_id.
  - rewrite IH. rewrite filter_cons. destruct (pl_active p) eqn:Ea.
    + destruct (decide (true = true)); [|done]. rewrite fmap_cons, filter_cons.
      destruct (decide (same_endpoint (pl_addr p) sender_addr)) as [Hs|Hs].
      * by rewrite decide_False by (intros Hn; by apply Hn).
      * rewrite decide_True by done. unfold sendto; simpl. by rewrite <- app_assoc.
    + by destruct (decide (false = true)).
Qed.

(** X3.  An arrow-spawn or arrow-hit datagram of at least its structure's
    size is re-sent verbatim, with its received length, to every active
    session whose endpoint differs from the sender's, in slot order; the
    sender need not be a session, and nothing else changes. *)
Theorem arrow_packets_are_relayed_to_the_others `{LibC} (s : Server)
    (buffer : list Byte.byte) (client_addr : sockaddr_in) (now : Z) :
  let recv_len := Z.of_nat (length buffer) in
  let type := hdr_type (as_PacketHeader buffer) in
  (type = PKT_ARROW_SPAWN ∧ sizeof_ArrowSpawnPacket ≤ recv_len)
  ∨ (type = PKT_ARROW_HIT ∧ sizeof_ArrowHitPacket ≤ recv_len) →
  dispatch buffer client_addr now s
  = set_wire (wire s ++ multicast (PktRelay buffer) recv_len
                          (filter (λ a, ¬ same_endpoint a client_addr) (player_addrs s))) s.
Proof.
  intros recv_len type Hcase. unfold dispatch. fold recv_len. cbv zeta. fold type.
  assert (Hh : (recv_len >=? sizeof_PacketHeader) = true).
  { unfold sizeof_ArrowSpawnPacket, sizeof_ArrowHitPacket, sizeof_PacketHeader in *. lia. }
  rewrite Hh.
  destruct Hcase as [[-> Hl]|[-> Hl]]; simpl;
    match goal with |- (if ?c then _ else _) = _ => destruct c eqn:E1 end;
    first [apply relay_to_others_eq | lia].
Qed.

Lemma arrow_packets_are_relayed_to_the_others_witness :
  let s := server_two_players in
  let buffer := client_arrow_spawn 5 1 in
  hdr_type (as_PacketHeader buffer) = PKT_ARROW_SPAWN
  ∧ sizeof_ArrowSpawnPacket ≤ Z.of_nat (length buffer)
  ∧ player_addrs s = [endpoint_A; endpoint_B]
  ∧ wire (dispatch (libc := libc_zero) buffer endpoint_A 1001 s)
    = wire s ++ [mkDatagram endpoint_B (PktRelay buffer) 41].
Proof.
  intros s buffer.
  assert (H1 : hdr_type (as_PacketHeader buffer) = PKT_ARROW_SPAWN) by reflexivity.
  assert (H2 : sizeof_ArrowSpawnPacket ≤ Z.of_nat (length buffer))
    by (vm_compute; discriminate).
  split; [exact H1|]. split; [exact H2|]. split; [vm_compute; reflexivity|].
  rewrite (arrow_packets_are_relayed_to_the_others (H := libc_zero) s buffer endpoint_A 1001
             (or_introl (conj H1 H2))).
  vm_compute. reflexivity.
Defined.

Lemma dispatch_as_update `{LibC} buffer :
  hdr_player_id (upd_header (as_UpdatePacket buffer)) = hdr_player_id (as_PacketHeader buffer).
Proof. reflexivity. Qed.

(** X4.  An update datagram that comes from the endpoint bound to the
    session its header names is stored: the session's player-state record
    becomes the record of the packet, except that its identifier field is
    overwritten with the session's own identifier, and last-seen becomes
    the current second.  The session keeps its identifier, name, endpoint
    and slot, no other slot changes and nothing is sent. *)
Theorem update_from_bound_endpoint_is_stored `{LibC} (s : Server)
    (buffer : list Byte.byte) (client_addr : sockaddr_in) (now : Z)
    (i : nat) (player : Player) :
  hdr_type (as_PacketHeader buffer) = PKT_UPDATE →
  sizeof_UpdatePacket ≤ Z.of_nat (length buffer) →
  find_player_by_id s (hdr_player_id (as_PacketHeader buffer)) = Some (i, player) →
  same_endpoint (pl_addr player) client_addr →
  let stored :=
    {| pl_player_id := pl_player_id player;
       pl_name := pl_name player;
       pl_addr := pl_addr player;
       pl_last_seen := now;
       pl_data := SetPD.player_id (pl_player_id player) (get_PlayerData buffer 9);
       pl_active := true |} in
  let s' := dispatch buffer client_addr now s in
  s' = set_players (<[i := stored]> (players s)) s
  ∧ players s' !! i = Some stored
  ∧ (∀ j, j ≠ i → players s' !! j = players s !! j)
  ∧ find_player_by_id s' (pl_player_id player) = Some (i, stored)
  ∧ pd_player_id (pl_data stored) = pl_player_id player
  ∧ wire s' = wire s.
Proof.
  intros Ht Hlen Hfind Hsame stored s'.
  assert (Hs' : s' = set_players (<[i := stored]> (players s)) s).
  { subst s'. rewrite dispatch_update by done.
    destruct (Z.of_nat (length buffer) >=? sizeof_UpdatePacket) eqn:E; [|lia].
    unfold handle_update. rewrite dispatch_as_update, Hfind.
    destruct Hsame as [Ha Hp].
    rewrite decide_False by (intros [?|?]; done).
    unfold find_player_by_id in Hfind. apply list_find_Some in Hfind as (_ & [Hact _] & _).
    subst stored. cbv zeta. unfold SetPlayer.last_seen, SetPlayer.data; simpl.
    by rewrite Hact. }
  rewrite Hs'. clear s' Hs'.
  unfold find_player_by_id in *. pose proof Hfind as Hf.
  apply list_find_Some in Hf as (Hi & [Hact Hid] & Hmin).
  assert (Hlt : (i < length (players s))%nat) by (by eapply lookup_lt_Some).
  split; [done|]. split; [by apply list_lookup_insert_eq|].
  split; [by intros j Hj; apply list_lookup_insert_ne|].
  split; [|split; [done|done]].
  cbn [players set_players]. apply list_find_Some. split; [by apply list_lookup_insert_eq|].
  split; [done|]. intros j q Hq Hji.
  rewrite list_lookup_insert_ne in Hq by lia.
  rewrite Hid. by eapply Hmin.
Qed.

Lemma update_from_bound_endpoint_is_stored_witness :
  let s := server_one_player in
  let buffer := client_header PKT_UPDATE 2 1
                ++ drop 9 (client_update 2 9 1084227584 0 1087373312) in
  let player := default Player_zero (players s !! 0%nat) in
  hdr_type (as_PacketHeader buffer) = PKT_UPDATE
  ∧ sizeof_UpdatePacket ≤ Z.of_nat (length buffer)
  ∧ hdr_player_id (as_PacketHeader buffer) = 1
  ∧ pd_player_id (get_PlayerData buffer 9) = 9
  ∧ find_player_by_id s (hdr_player_id (as_PacketHeader buffer)) = Some (0%nat, player)
  ∧ same_endpoint (pl_addr player) endpoint_A
  ∧ (pd_player_id <$> (pl_data <$> players (dispatch (libc := libc_zero) buffer endpoint_A
                                              1001 s) !! 0%nat)) = Some 1.
Proof.
  intros s buffer player.
  assert (H1 : hdr_type (as_PacketHeader buffer) = PKT_UPDATE) by reflexivity.
  assert (H2 : sizeof_UpdatePacket ≤ Z.of_nat (length buffer)) by (vm_compute; discriminate).
  assert (H3 : find_player_by_id s (hdr_player_id (as_PacketHeader buffer))
               = Some (0%nat, player)) by (vm_compute; reflexivity).
  assert (H4 : same_endpoint (pl_addr player) endpoint_A) by (split; reflexivity).
  split; [exact H1|]. split; [exact H2|]. split; [vm_compute; reflexivity|].
  split; [vm_compute; reflexivity|]. split; [exact H3|]. split; [exact H4|].
  pose proof (update_from_bound_endpoint_is_stored (H := libc_zero) s buffer endpoint_A 1001
                0%nat player H1 H2 H3 H4) as (_ & Hl & _).
  rewrite Hl. reflexivity.
Defined.

(** ** Join *)

Lemma dispatch_join `{LibC} buffer client_addr now s :
  hdr_type (as_PacketHeader buffer) = PKT_JOIN →
  sizeof_JoinPacket ≤ Z.of_nat (length buffer) →
  dispatch buffer client_addr now s = handle_join (as_JoinPacket buffer) client_addr now s.
Proof.
  intros Ht Hlen. unfold dispatch. rewrite Ht. simpl.
  destruct (Z.of_nat (length buffer) >=? sizeof_PacketHeader) eqn:E;
    [|unfold sizeof_JoinPacket, sizeof_PacketHeader in *; lia].
  destruct (Z.of_nat (length buffer) >=? sizeof_JoinPacket) eqn:E'; [done|lia].
Qed.

Lemma players_promote_spectator client_addr s :
  players (promote_spectator client_addr s) = players s.
Proof. unfold promote_spectator. by destruct (list_find _ _) as [[i sp]|]. Qed.

Lemma find_player_by_addr_promote_spectator client_addr s a :
  find_player_by_addr (promote_spectator client_addr s) a = find_player_by_addr s a.
Proof. unfold find_player_by_addr. by rewrite players_promote_spectator. Qed.

Lemma find_free_slot_promote_spectator client_addr s :
  find_free_slot (promote_spectator client_addr s) = find_free_slot s.
Proof. unfold find_free_slot. by rewrite players_promote_spectator. Qed.

(** X5.  A join datagram from an endpoint that already has an active
    session creates nothing and is not answered: the session only has
    its last-seen second refreshed (and a spectator slot of the endpoint,
    if any, is released); no identifier is consumed, the counter stands
    and nothing is sent. *)
Theorem rejoin_only_refreshes_last_seen `{LibC} (s : Server)
    (buffer : list Byte.byte) (client_addr : sockaddr_in) (now : Z)
    (i : nat) (existing : Player) :
  hdr_type (as_PacketHeader buffer) = PKT_JOIN →
  sizeof_JoinPacket ≤ Z.of_nat (length buffer) →
  find_player_by_addr s client_addr = Some (i, existing) →
  let s' := dispatch buffer client_addr now s in
  s' = set_players (<[i := SetPlayer.last_seen now existing]> (players s))
         (promote_spectator client_addr s)
  ∧ players s' !! i = Some (SetPlayer.last_seen now existing)
  ∧ (∀ j, j ≠ i → players s' !! j = players s !! j)
  ∧ next_player_id s' = next_player_id s
  ∧ state_sequence s' = state_sequence s
  ∧ wire s' = wire s.
Proof.
  intros Ht Hlen Hfind s'.
  assert (Hs' : s' = set_players (<[i := SetPlayer.last_seen now existing]> (players s))
                       (promote_spectator client_addr s)).
  { subst s'. rewrite dispatch_join by done. unfold handle_join. cbv zeta.
    rewrite find_player_by_addr_promote_spectator, Hfind.
    by rewrite players_promote_spectator. }
  rewrite Hs'. clear s' Hs'.
  apply list_find_Some in Hfind as (Hi & _ & _).
  assert (Hlt : (i < length (players s))%nat) by (by eapply lookup_lt_Some).
  split; [done|]. cbn [players set_players].
  split; [by apply list_lookup_insert_eq|].
  split; [by intros j Hj; apply list_lookup_insert_ne|].
  unfold promote_spectator. by destruct (list_find _ _) as [[k sp]|].
Qed.

Lemma rejoin_only_refreshes_last_seen_witness :
  let s := server_one_player in
  let buffer := client_join 8 in
  let existing := default Player_zero (players s !! 0%nat) in
  hdr_type (as_PacketHeader buffer) = PKT_JOIN
  ∧ sizeof_JoinPacket ≤ Z.of_nat (length buffer)
  ∧ find_player_by_addr s endpoint_A = Some (0%nat, existing)
  ∧ wire (dispatch (libc := libc_zero) buffer endpoint_A 1005 s) = wire s
  ∧ next_player_id (dispatch (libc := libc_zero) buffer endpoint_A 1005 s) = 2.
Proof.
  intros s buffer existing.
  assert (H1 : hdr_type (as_PacketHeader buffer) = PKT_JOIN) by reflexivity.
  assert (H2 : sizeof_JoinPacket ≤ Z.of_nat (length buffer)) by (vm_compute; discriminate).
  assert (H3 : find_player_by_addr s endpoint_A = Some (0%nat, existing))
    by (vm_compute; reflexivity).
  split; [exact H1|]. split; [exact H2|]. split; [exact H3|].
  pose proof (rejoin_only_refreshes_last_seen (H := libc_zero) s buffer endpoint_A 1005
                0%nat existing H1 H2 H3) as (_ & _ & _ & Hn & _ & Hw).
  split; [exact Hw|]. rewrite Hn. reflexivity.
Defined.

(** X6.  A join datagram from an unknown endpoint when no session slot is
    free is refused without a reply: no table of sessions changes, no
    identifier is consumed and nothing is sent.  The spectator slot of
    the endpoint, if it had one, has been released all the same, so a
    spectator that asks to join a full server stops being a spectator. *)
Theorem join_on_full_server_is_silent `{LibC} (s : Server)
    (buffer : list Byte.byte) (client_addr : sockaddr_in) (now : Z) :
  hdr_type (as_PacketHeader buffer) = PKT_JOIN →
  sizeof_JoinPacket ≤ Z.of_nat (length buffer) →
  find_player_by_addr s client_addr = None →
  find_free_slot s = None →
  let s' := dispatch buffer client_addr now s in
  s' = promote_spectator client_addr s
  ∧ players s' = players s
  ∧ next_player_id s' = next_player_id s
  ∧ wire s' = wire s
  ∧ (∀ i sp,
       list_find (λ sp, sp_active sp = true ∧ same_endpoint (sp_addr sp) client_addr)
         (spectators s) = Some (i, sp) →
       spectators s' !! i = Some (SetSpectator.active false sp)).
Proof.
  intros Ht Hlen Hfind Hfree s'.
  assert (Hs' : s' = promote_spectator client_addr s).
  { subst s'. rewrite dispatch_join by done. unfold handle_join. cbv zeta.
    by rewrite find_player_by_addr_promote_spectator, Hfind,
         find_free_slot_promote_spectator, Hfree. }
  rewrite Hs'. clear s' Hs'. split; [done|].
  split; [apply players_promote_spectator|].
  unfold promote_spectator.
  destruct (list_find _ (spectators s)) as [[k sp0]|] eqn:E.
  - repeat split; try done. intros i sp [= <- <-]. cbn [spectators set_spectators].
    apply list_find_Some in E as (Hk & _). apply list_lookup_insert_eq.
    by eapply lookup_lt_Some.
  - repeat split; try done.
Qed.

Lemma join_on_full_server_is_silent_witness :
  let s := server_full in
  let buffer := client_join 40 in
  hdr_type (as_PacketHeader buffer) = PKT_JOIN
  ∧ sizeof_JoinPacket ≤ Z.of_nat (length buffer)
  ∧ count_active_players s = 32
  ∧ find_player_by_addr s endpoint_B = None
  ∧ find_free_slot s = None
  ∧ spectator_addrs s = [endpoint_B]
  ∧ spectator_addrs (dispatch (libc := libc_zero) buffer endpoint_B 1001 s) = []
  ∧ wire (dispatch (libc := libc_zero) buffer endpoint_B 1001 s) = wire s.
Proof.
  intros s buffer.
  assert (H1 : hdr_type (as_PacketHeader buffer) = PKT_JOIN) by reflexivity.
  assert (H2 : sizeof_JoinPacket ≤ Z.of_nat (length buffer)) by (vm_compute; discriminate).
  assert (H3 : find_player_by_addr s endpoint_B = None) by (vm_compute; reflexivity).
  assert (H4 : find_free_slot s = None) by (vm_compute; reflexivity).
  split; [exact H1|]. split; [exact H2|]. split; [vm_compute; reflexivity|].
  split; [exact H3|]. split; [exact H4|]. split; [vm_compute; reflexivity|].
  pose proof (join_on_full_server_is_silent (H := libc_zero) s buffer endpoint_B 1001
                H1 H2 H3 H4) as (Hs & _ & _ & Hw & _).
  split; [|exact Hw]. rewrite Hs. vm_compute. reflexivity.
Defined.

(** Reduction of the projections of a state built by the setters. *)
Ltac fields :=
  cbn [players spectators bobbas dragons next_player_id next_entity_id state_sequence
       test_multiplayer rand_calls wire
       set_players set_spectators set_bobbas set_dragons set_next_player_id
       set_next_entity_id set_state_sequence set_rand_calls set_wire
       sendto bump_state_sequence].

(** The spawn height is the height of the spawn point drawn, 2 for each
    of the three. *)
Lemma generate_spawn_position_height `{LibC} s x y z s' :
  generate_spawn_position s = ((x, y, z), s') → y = F32.of_Z 2.
Proof.
  unfold generate_spawn_position.
  destruct (rand s) as [r s1]. destruct (random_angle s1) as [angle s2].
  destruct (rand s2) as [r' s3]. cbv zeta.
  assert (Hidx : (Z.to_nat (Z.rem r NUM_SPAWN_POINTS) < 3)%nat).
  { pose proof (Z.rem_bound_abs r NUM_SPAWN_POINTS). unfold NUM_SPAWN_POINTS in *. lia. }
  destruct (Z.to_nat (Z.rem r NUM_SPAWN_POINTS)) as [|[|[|k]]]; [| | |lia];
    cbn [spawn_points lookup list_lookup default]; by intros [= _ <- _ _].
Qed.

Lemma next_player_id_promote_spectator client_addr s :
  next_player_id (promote_spectator client_addr s) = next_player_id s.
Proof. unfold promote_spectator. by destruct (list_find _ _) as [[i sp]|]. Qed.

Lemma state_sequence_promote_spectator client_addr s :
  state_sequence (promote_spectator client_addr s) = state_sequence s.
Proof. unfold promote_spectator. by destruct (list_find _ _) as [[i sp]|]. Qed.

(** X7.  A join datagram from an endpoint without a session, when a slot
    is free, creates the session in the first free slot: it gets the next
    identifier, which is then incremented, the endpoint, the current
    second as last-seen, and a fresh player-state record (health 100,
    idle, armed, archer, height 2, animation Idle); its name is the
    packet's name cut at 31 bytes and NUL-terminated.  The endpoint is
    sent a join-ack carrying that identifier and record, then the world
    state is broadcast to every session, the new one included, and every
    spectator.  The new session is the one found for its endpoint. *)
Theorem join_registers_a_session `{LibC} (s : Server)
    (buffer : list Byte.byte) (client_addr : sockaddr_in) (now : Z) (slot : nat) :
  hdr_type (as_PacketHeader buffer) = PKT_JOIN →
  sizeof_JoinPacket ≤ Z.of_nat (length buffer) →
  find_player_by_addr s client_addr = None →
  find_free_slot s = Some slot →
  let id := next_player_id s in
  let s' := dispatch buffer client_addr now s in
  ∃ player ack,
    players s' = <[slot := player]> (players s)
    ∧ find_player_by_addr s' client_addr = Some (slot, player)
    ∧ pl_player_id player = id
    ∧ pl_addr player = client_addr
    ∧ pl_last_seen player = now
    ∧ pl_active player = true
    ∧ pl_name player = strncpy (get_bytes buffer 9 32) 31 ++ [Byte.x00]
    ∧ pd_player_id (pl_data player) = id
    ∧ pd_pos_y (pl_data player) = F32.of_Z 2
    ∧ pd_rot_y (pl_data player) = F32.of_Z 0
    ∧ pd_state (pl_data player) = STATE_IDLE
    ∧ pd_combat_mode (pl_data player) = 1
    ∧ pd_character_class (pl_data player) = 1
    ∧ pd_health (pl_data player) = F32.of_Z 100
    ∧ pd_anim_name (pl_data player) = str_Idle ++ replicate 28 Byte.x00
    ∧ pd_active (pl_data player) = 1
    ∧ next_player_id s' = u32 (id + 1)
    ∧ state_sequence s' = u32 (state_sequence s + 1)
    ∧ hdr_type (ack_header ack) = PKT_JOIN_ACK
    ∧ hdr_player_id (ack_header ack) = id
    ∧ ack_assigned_id ack = id
    ∧ ack_data ack = pl_data player
    ∧ wire s'
      = wire s
        ++ mkDatagram client_addr (PktJoinAck ack) sizeof_JoinAckPacket
        :: multicast (PktWorldState (world_state_packet s')) sizeof_WorldStatePacket
             (player_addrs s' ++ spectator_addrs s').
Proof.
  intros Ht Hlen Hfind Hfree id s'. subst s'.
  rewrite dispatch_join by done. unfold handle_join. cbv zeta.
  rewrite find_player_by_addr_promote_spectator, Hfind,
    find_free_slot_promote_spectator, Hfree.
  destruct (generate_spawn_position _) as [[[x y] z] s1] eqn:Eg.
  pose proof (generate_spawn_position_height _ _ _ _ _ Eg) as ->.
  apply generate_spawn_position_rand_only in Eg as [n ->].
  rewrite broadcast_world_state_eq.
  eexists _, (mkJoinAckPacket (mkPacketHeader PKT_JOIN_ACK (u32 now) id) id _).
  unfold find_player_by_addr. fields.
  rewrite players_promote_spectator, wire_promote_spectator,
    !next_player_id_promote_spectator, !state_sequence_promote_spectator.
  split; [reflexivity|].
  unfold find_free_slot in Hfree.
  destruct (list_find _ (players s)) as [[k q]|] eqn:Efree; [|done].
  injection Hfree as ->.
  apply list_find_Some in Efree as (Hk & Hq & _).
  assert (Hlt : (slot < length (players s))%nat) by (by eapply lookup_lt_Some).
  split.
  { apply list_find_Some.
    split; [by apply list_lookup_insert_eq|]. split; [by split|].
    intros j p Hj Hjs [Hact Hsame].
    rewrite list_lookup_insert_ne in Hj by lia.
    unfold find_player_by_addr in Hfind.
    eapply (proj1 (list_find_None _ _)) in Hfind.
    eapply (proj1 (Forall_forall _ _) Hfind); [by eapply list_elem_of_lookup_2|done]. }
  do 20 (split; [reflexivity|]).
  rewrite <- app_assoc. reflexivity.
Qed.

Lemma join_registers_a_session_witness :
  let s := server_one_player in
  let buffer := client_join 2 in
  hdr_type (as_PacketHeader buffer) = PKT_JOIN
  ∧ sizeof_JoinPacket ≤ Z.of_nat (length buffer)
  ∧ find_player_by_addr s endpoint_B = None
  ∧ find_free_slot s = Some 1%nat
  ∧ next_player_id s = 2
  ∧ ∃ player,
      find_player_by_addr (dispatch (libc := libc_zero) buffer endpoint_B 1003 s) endpoint_B
      = Some (1%nat, player)
      ∧ pl_player_id player = 2.
Proof.
  intros s buffer.
  assert (H1 : hdr_type (as_PacketHeader buffer) = PKT_JOIN) by reflexivity.
  assert (H2 : sizeof_JoinPacket ≤ Z.of_nat (length buffer)) by (vm_compute; discriminate).
  assert (H3 : find_player_by_addr s endpoint_B = None) by (vm_compute; reflexivity).
  assert (H4 : find_free_slot s = Some 1%nat) by (vm_compute; reflexivity).
  split; [exact H1|]. split; [exact H2|]. split; [exact H3|]. split; [exact H4|].
  split; [vm_compute; reflexivity|].
  destruct (join_registers_a_session (H := libc_zero) s buffer endpoint_B 1003 1%nat
              H1 H2 H3 H4) as (player & ack & _ & Hf & Hid & _).
  exists player. split; [exact Hf|]. rewrite Hid. vm_compute. reflexivity.
Defined.

(** ** Spectate *)

Lemma dispatch_spectate `{LibC} buffer client_addr now s :
  hdr_type (as_PacketHeader buffer) = PKT_SPECTATE →
  sizeof_PacketHeader ≤ Z.of_nat (length buffer) →
  dispatch buffer client_addr now s
  = handle_spectate (as_PacketHeader buffer) client_addr now s.
Proof.
  intros Ht Hlen. unfold dispatch. rewrite Ht. simpl.
  destruct (Z.of_nat (length buffer) >=? sizeof_PacketHeader) eqn:E; [done|lia].
Qed.

Lemma elem_of_spectator_addrs i sp s :
  spectators s !! i = Some sp → sp_active sp = true → sp_addr sp ∈ spectator_addrs s.
Proof.
  intros Hi Ha. unfold spectator_addrs. apply list_elem_of_fmap. exists sp. split; [done|].
  apply list_elem_of_filter. split; [done|]. by eapply list_elem_of_lookup_2.
Qed.

Lemma elem_of_player_addrs i p s :
  players s !! i = Some p → pl_active p = true → pl_addr p ∈ player_addrs s.
Proof.
  intros Hi Ha. unfold player_addrs. apply list_elem_of_fmap. exists p. split; [done|].
  apply list_elem_of_filter. split; [done|]. by eapply list_elem_of_lookup_2.
Qed.

(** X8.  A spectate datagram from an endpoint that is not yet an active
    spectator, when a spectator slot is free, binds the endpoint to the
    first free slot and answers with a 9-byte spectate-ack that echoes
    the request's sequence number; the session table is neither changed
    nor consulted, so an endpoint that has an active session becomes a
    spectator as well and is then listed twice among the receivers of a
    broadcast. *)
Theorem spectate_registers_without_checking_sessions `{LibC} (s : Server)
    (buffer : list Byte.byte) (client_addr : sockaddr_in) (now : Z)
    (slot : nat) (old : Spectator) :
  hdr_type (as_PacketHeader buffer) = PKT_SPECTATE →
  sizeof_PacketHeader ≤ Z.of_nat (length buffer) →
  list_find (λ sp, sp_active sp = true ∧ same_endpoint (sp_addr sp) client_addr)
    (spectators s) = None →
  list_find (λ sp, sp_active sp = false) (spectators s) = Some (slot, old) →
  let s' := dispatch buffer client_addr now s in
  spectators s'
  = <[slot := {| sp_addr := client_addr; sp_last_seen := now; sp_active := true |}]>
      (spectators s)
  ∧ players s' = players s
  ∧ state_sequence s' = state_sequence s
  ∧ wire s'
    = wire s ++ [mkDatagram client_addr
                   (PktHeader {| hdr_type := PKT_SPECTATE_ACK;
                                 hdr_sequence := hdr_sequence (as_PacketHeader buffer);
                                 hdr_player_id := 0 |})
                   sizeof_PacketHeader]
  ∧ client_addr ∈ spectator_addrs s'
  ∧ (∀ i p, find_player_by_addr s client_addr = Some (i, p) →
       client_addr ∈ player_addrs s').
Proof.
  intros Ht Hlen Hnone Hfree s'. subst s'.
  rewrite dispatch_spectate by done. unfold handle_spectate. rewrite Hnone, Hfree.
  fields. do 4 (split; [reflexivity|]).
  apply list_find_Some in Hfree as (Hslot & _).
  split.
  - eapply (elem_of_spectator_addrs slot
              {| sp_addr := client_addr; sp_last_seen := now; sp_active := true |});
      [|done].
    fields. apply list_lookup_insert_eq. by eapply lookup_lt_Some.
  - intros i p Hf. apply list_find_Some in Hf as (Hi & [Hact Hsame] & _).
    apply same_endpoint_eq in Hsame as <-.
    by eapply (elem_of_player_addrs i p).
Qed.

Lemma spectate_registers_without_checking_sessions_witness :
  let s := server_one_player in
  let buffer := client_spectate 6 in
  let s' := dispatch (libc := libc_zero) buffer endpoint_A 1002 s in
  hdr_type (as_PacketHeader buffer) = PKT_SPECTATE
  ∧ sizeof_PacketHeader ≤ Z.of_nat (length buffer)
  ∧ list_find (λ sp, sp_active sp = true ∧ same_endpoint (sp_addr sp) endpoint_A)
      (spectators s) = None
  ∧ list_find (λ sp, sp_active sp = false) (spectators s) = Some (0%nat, Spectator_zero)
  ∧ (∃ i p, find_player_by_addr s endpoint_A = Some (i, p))
  ∧ endpoint_A ∈ spectator_addrs s'
  ∧ endpoint_A ∈ player_addrs s'
  ∧ dg_to <$> wire (broadcast_world_state s')
    = (dg_to <$> wire s') ++ [endpoint_A; endpoint_A].
Proof.
  intros s buffer s'.
  assert (H1 : hdr_type (as_PacketHeader buffer) = PKT_SPECTATE) by reflexivity.
  assert (H2 : sizeof_PacketHeader ≤ Z.of_nat (length buffer)) by (vm_compute; discriminate).
  assert (H3 : list_find (λ sp, sp_active sp = true ∧ same_endpoint (sp_addr sp) endpoint_A)
                 (spectators s) = None) by (vm_compute; reflexivity).
  assert (H4 : list_find (λ sp, sp_active sp = false) (spectators s)
               = Some (0%nat, Spectator_zero)) by (vm_compute; reflexivity).
  assert (H5 : find_player_by_addr s endpoint_A
               = Some (0%nat, default Player_zero (players s !! 0%nat)))
    by (vm_compute; reflexivity).
  split; [exact H1|]. split; [exact H2|]. split; [exact H3|]. split; [exact H4|].
  split; [by eexists _, _|].
  destruct (spectate_registers_without_checking_sessions (H := libc_zero) s buffer
              endpoint_A 1002 0%nat Spectator_zero H1 H2 H3 H4)
    as (_ & _ & _ & _ & Hsp & Hpl).
  split; [exact Hsp|]. split; [exact (Hpl _ _ H5)|].
  vm_compute. reflexivity.
Defined.

(** X9.  A spectate datagram from an endpoint that is already an active
    spectator only refreshes the last-seen second of its slot, and one
    that finds no free spectator slot is dropped; in both cases no
    spectate-ack is sent, and no session is touched. *)
Theorem repeated_or_refused_spectate_gets_no_ack `{LibC} (s : Server)
    (buffer : list Byte.byte) (client_addr : sockaddr_in) (now : Z) :
  hdr_type (as_PacketHeader buffer) = PKT_SPECTATE →
  sizeof_PacketHeader ≤ Z.of_nat (length buffer) →
  let found :=
    list_find (λ sp, sp_active sp = true ∧ same_endpoint (sp_addr sp) client_addr)
      (spectators s) in
  is_Some found ∨ list_find (λ sp, sp_active sp = false) (spectators s) = None →
  let s' := dispatch buffer client_addr now s in
  wire s' = wire s
  ∧ players s' = players s
  ∧ state_sequence s' = state_sequence s
  ∧ match found with
    | Some (i, sp) =>
      spectators s' = <[i := SetSpectator.last_seen now sp]> (spectators s)
    | None => s' = s
    end.
Proof.
  intros Ht Hlen found Hcase s'. subst s'.
  rewrite dispatch_spectate by done. unfold handle_spectate. fold found.
  destruct found as [[i sp]|] eqn:E.
  - by repeat split.
  - destruct Hcase as [[x Hx]| ->]; [done|]. by repeat split.
Qed.

Lemma repeated_or_refused_spectate_gets_no_ack_witness :
  let s := server_full in
  let buffer := client_spectate 6 in
  hdr_type (as_PacketHeader buffer) = PKT_SPECTATE
  ∧ sizeof_PacketHeader ≤ Z.of_nat (length buffer)
  ∧ is_Some (list_find (λ sp, sp_active sp = true ∧ same_endpoint (sp_addr sp) endpoint_B)
               (spectators s))
  ∧ wire (dispatch (libc := libc_zero) buffer endpoint_B 1002 s) = wire s.
Proof.
  intros s buffer.
  assert (H1 : hdr_type (as_PacketHeader buffer) = PKT_SPECTATE) by reflexivity.
  assert (H2 : sizeof_PacketHeader ≤ Z.of_nat (length buffer)) by (vm_compute; discriminate).
  assert (H3 : is_Some (list_find (λ sp, sp_active sp = true
                                         ∧ same_endpoint (sp_addr sp) endpoint_B)
                          (spectators s))) by (vm_compute; by eexists).
  split; [exact H1|]. split; [exact H2|]. split; [exact H3|].
  exact (proj1 (repeated_or_refused_spectate_gets_no_ack (H := libc_zero) s buffer
                  endpoint_B 1002 H1 H2 (or_introl H3))).
Defined.

(** ** The two periodic broadcasts *)

(** X10.  A world-state broadcast increments the counter once and sends
    one and the same packet, [sizeof (WorldStatePacket)] bytes of it, to
    every active session and then to every active spectator, in slot
    order.  The packet carries the incremented counter both as header
    sequence and as state sequence, sender 0, the number of active
    sessions as count, and in its first records the player-state records
    of the active sessions in slot order; the remaining records of the
    32 are zero.  No table is changed. *)
Theorem world_state_lists_the_active_sessions (s : Server) :
  (length (players s) ≤ Z.to_nat MAX_PLAYERS)%nat →
  let active := filter (λ p, pl_active p = true) (players s) in
  let pkt := world_state_packet (bump_state_sequence s) in
  let s' := broadcast_world_state s in
  wire s' = wire s ++ multicast (PktWorldState pkt) sizeof_WorldStatePacket
                        (player_addrs s ++ spectator_addrs s)
  ∧ state_sequence s' = u32 (state_sequence s + 1)
  ∧ players s' = players s ∧ spectators s' = spectators s
  ∧ bobbas s' = bobbas s ∧ dragons s' = dragons s
  ∧ ws_header pkt = {| hdr_type := PKT_WORLD_STATE;
                       hdr_sequence := u32 (state_sequence s + 1);
                       hdr_player_id := 0 |}
  ∧ ws_state_seq pkt = u32 (state_sequence s + 1)
  ∧ ws_player_count pkt = count_active_players s
  ∧ ws_players pkt
    = (pl_data <$> active) ++ replicate (32 - length active) PlayerData_zero
  ∧ length (ws_players pkt) = 32%nat.
Proof.
  intros Hlen active pkt s'. subst s'. rewrite broadcast_world_state_eq. fields.
  do 8 (split; [reflexivity|]).
  assert (Hact : (length active ≤ 32)%nat).
  { etrans; [apply length_filter|]. exact Hlen. }
  assert (Hrec : world_records (bump_state_sequence s) = pl_data <$> active).
  { unfold world_records. fields. fold active. apply take_ge.
    rewrite length_fmap. exact Hact. }
  subst pkt. unfold world_state_packet. cbv zeta. cbn [ws_player_count ws_players].
  rewrite Hrec, length_fmap.
  split; [|split].
  - unfold count_active_players. fold active. unfold u8.
    apply Z.mod_small. lia.
  - reflexivity.
  - rewrite length_app, length_fmap, length_replicate. change (Z.to_nat MAX_PLAYERS) with 32%nat.
    lia.
Qed.

Lemma world_state_lists_the_active_sessions_witness :
  let s := server_two_players in
  (length (players s) ≤ Z.to_nat MAX_PLAYERS)%nat
  ∧ ws_player_count (world_state_packet (bump_state_sequence s)) = 2
  ∧ (pd_player_id <$> take 3 (ws_players (world_state_packet (bump_state_sequence s))))
    = [1; 2; 0].
Proof.
  intros s.
  assert (H1 : (length (players s) ≤ Z.to_nat MAX_PLAYERS)%nat) by (vm_compute; lia).
  split; [exact H1|].
  destruct (world_state_lists_the_active_sessions s H1)
    as (_ & _ & _ & _ & _ & _ & _ & _ & Hc & Hp & _).
  split; [rewrite Hc; vm_compute; reflexivity|].
  rewrite Hp. vm_compute. reflexivity.
Defined.

(** X11.  An entity-state broadcast does nothing at all when no chaser and
    no patroller is active: nothing is sent and the counter stands.
    Otherwise the counter is incremented once and one packet goes to
    every active session and then every active spectator; only its used
    prefix is sent, 10 bytes and 34 for each of the [n] active entities;
    it carries the incremented counter, the count [n] and the records of
    the active chasers in slot order followed by those of the active
    patrollers, a patroller's record carrying its lap count and patrol
    angle in the two extra fields. *)
Theorem entity_state_is_trimmed_to_the_active_entities (s : Server) :
  (length (bobbas s) + length (dragons s) ≤ Z.to_nat MAX_ENTITIES)%nat →
  let chasers := filter (λ b, bobba_active b = true) (bobbas s) in
  let patrollers := filter (λ d, dragon_active d = true) (dragons s) in
  let n := (length chasers + length patrollers)%nat in
  let pkt := entity_state_packet (bump_state_sequence s) in
  let s' := broadcast_entity_state s in
  (n = 0%nat → s' = s)
  ∧ (n ≠ 0%nat →
       wire s' = wire s ++ multicast (PktEntityState pkt) (10 + 34 * Z.of_nat n)
                             (player_addrs s ++ spectator_addrs s)
       ∧ state_sequence s' = u32 (state_sequence s + 1)
       ∧ players s' = players s ∧ spectators s' = spectators s
       ∧ bobbas s' = bobbas s ∧ dragons s' = dragons s
       ∧ es_header pkt = {| hdr_type := PKT_ENTITY_STATE;
                            hdr_sequence := u32 (state_sequence s + 1);
                            hdr_player_id := 0 |}
       ∧ es_entity_count pkt = Z.of_nat n
       ∧ take n (es_entities pkt)
         = (bobba_entity <$> chasers) ++ (dragon_entity <$> patrollers))
  ∧ (∀ d, ed_entity_type (dragon_entity d) = ENTITY_DRAGON
          ∧ ed_extra1 (dragon_entity d) = u32 (dragon_laps_completed d)
          ∧ ed_extra2 (dragon_entity d) = dragon_patrol_angle d)
  ∧ (∀ b, ed_entity_type (bobba_entity b) = ENTITY_BOBBA
          ∧ ed_entity_id (bobba_entity b) = bobba_entity_id b
          ∧ ed_state (bobba_entity b) = bobba_state b
          ∧ ed_health (bobba_entity b) = bobba_health b).
Proof.
  intros Hlen chasers patrollers n pkt s'.
  assert (Hn : (n ≤ 64)%nat).
  { subst n chasers patrollers.
    pose proof (length_filter (λ b, bobba_active b = true) (bobbas s)).
    pose proof (length_filter (λ d, dragon_active d = true) (dragons s)).
    change (Z.to_nat MAX_ENTITIES) with 64%nat in Hlen. lia. }
  assert (Hrec : entity_records (bump_state_sequence s)
                 = (bobba_entity <$> chasers) ++ (dragon_entity <$> patrollers)).
  { unfold entity_records. fields. fold chasers patrollers. apply take_ge.
    rewrite length_app, !length_fmap. change (Z.to_nat MAX_ENTITIES) with 64%nat.
    subst n. lia. }
  assert (Hlenrec : length (entity_records (bump_state_sequence s)) = n).
  { rewrite Hrec, length_app, !length_fmap. reflexivity. }
  subst s'. unfold broadcast_entity_state. fold chasers patrollers. fold n.
  split; [|split; [|split; [done|done]]].
  - intros ->. reflexivity.
  - intros Hn0. rewrite decide_False by done. cbv zeta. rewrite broadcast_eq. fields.
    fold pkt. rewrite Hlenrec.
    split.
    { f_equal. f_equal. unfold sizeof_PacketHeader, sizeof_EntityData. lia. }
    do 6 (split; [reflexivity|]).
    subst pkt. unfold entity_state_packet. cbv zeta. cbn [es_entity_count es_entities].
    rewrite Hlenrec. split.
    + unfold u8. apply Z.mod_small. lia.
    + rewrite take_app_length'; [exact Hrec|by symmetry].
Qed.

Lemma entity_state_is_trimmed_to_the_active_entities_witness :
  let s := server_one_player in
  (length (bobbas s) + length (dragons s) ≤ Z.to_nat MAX_ENTITIES)%nat
  ∧ (dg_len <$> last (wire (broadcast_entity_state s))) = Some 78.
Proof.
  intros s.
  assert (H1 : (length (bobbas s) + length (dragons s) ≤ Z.to_nat MAX_ENTITIES)%nat)
    by (vm_compute; lia).
  split; [exact H1|].
  destruct (entity_state_is_trimmed_to_the_active_entities s H1) as (_ & Hw & _).
  destruct Hw as (Hw & _); [vm_compute; discriminate|].
  rewrite Hw. vm_compute. reflexivity.
Defined.

(** ** Game restart *)

Section RestartSessions.

Context `{libc : LibC}.

Lemma respawn_players_from_lookup ps s i p :
  ps !! i = Some p →
  ∃ p', (respawn_players_from ps s).1 !! i = Some p' ∧ respawned p p'.
Proof.
  revert s i. induction ps as [|p0 ps IH]; intros s i Hi; [done|].
  cbn [respawn_players_from].
  destruct i as [|i]; simpl in Hi.
  - injection Hi as ->. unfold respawned. destruct (pl_active p) eqn:Ea.
    + destruct (generate_spawn_position s) as [[[x y] z] s1] eqn:Eg.
      pose proof (generate_spawn_position_height _ _ _ _ _ Eg) as ->.
      cbv beta iota zeta. destruct (respawn_players_from ps s1) as [rest s2].
      eexists. split; [reflexivity|]. by eexists _, _.
    + cbv beta iota zeta. destruct (respawn_players_from ps s) as [rest s2].
      eexists. split; [reflexivity|]. done.
  - destruct (pl_active p0).
    + destruct (generate_spawn_position s) as [[[x y] z] s1].
      cbv beta iota zeta. specialize (IH s1 i Hi).
      destruct (respawn_players_from ps s1) as [rest s2]. exact IH.
    + cbv beta iota zeta. specialize (IH s i Hi).
      destruct (respawn_players_from ps s) as [rest s2]. exact IH.
Qed.

Lemma respawn_players_from_addrs ps s :
  pl_addr <$> filter (λ p, pl_active p = true) (respawn_players_from ps s).1
  = pl_addr <$> filter (λ p, pl_active p = true) ps.
Proof.
  revert s. induction ps as [|p ps IH]; intros s; [done|].
  cbn [respawn_players_from]. destruct (pl_active p) eqn:Ea.
  - destruct (generate_spawn_position s) as [[[x y] z] s1].
    cbv beta iota zeta. specialize (IH s1).
    destruct (respawn_players_from ps s1) as [rest s2]. cbn [fst] in *.
    rewrite !filter_cons. cbn [pl_active SetPlayer.data]. rewrite Ea.
    destruct (decide (true = true)); [|done]. rewrite !fmap_cons. by rewrite IH.
  - cbv beta iota zeta. specialize (IH s).
    destruct (respawn_players_from ps s) as [rest s2]. cbn [fst] in *.
    rewrite !filter_cons. rewrite Ea. by destruct (decide (false = true)).
Qed.

(** The entity-state broadcast appends entity-state datagrams only and
    touches no table. *)
Lemma broadcast_entity_state_wire s :
  ∃ es c,
    broadcast_entity_state s = set_wire (wire s ++ es) (set_state_sequence c s)
    ∧ Forall (λ d, kind_of (dg_packet d) = KEntityState) es.
Proof.
  unfold broadcast_entity_state. destruct (decide _).
  - exists [], (state_sequence s). rewrite app_nil_r. split; [by destruct s|done].
  - cbv zeta. rewrite broadcast_eq. eexists _, _. split; [reflexivity|].
    unfold multicast. by apply Forall_fmap, Forall_true.
Qed.

Lemma handle_game_restart_sessions reason requester s :
  players (handle_game_restart reason requester s)
  = (respawn_players_from (players s) (respawn_all_bobbas s)).1
  ∧ spectators (handle_game_restart reason requester s) = spectators s
  ∧ dragons (handle_game_restart reason requester s) = dragons s
  ∧ next_player_id (handle_game_restart reason requester s) = next_player_id s
  ∧ ∃ es,
      wire (handle_game_restart reason requester s)
      = wire s
        ++ multicast (PktGameRestart
                        {| gr_header := {| hdr_type := PKT_GAME_RESTART;
                                           hdr_sequence := u32 (state_sequence s + 1);
                                           hdr_player_id := 0 |};
                           gr_reason := reason |})
             sizeof_GameRestartPacket (player_addrs s)
        ++ es
        ++ multicast (PktWorldState
                        (world_state_packet (handle_game_restart reason requester s)))
             sizeof_WorldStatePacket (player_addrs s ++ spectator_addrs s)
      ∧ Forall (λ d, kind_of (dg_packet d) = KEntityState) es.
Proof.
  unfold handle_game_restart. cbv beta iota zeta.
  rewrite broadcast_world_state_eq.
  match goal with
  | |- context [broadcast_entity_state ?x] =>
    destruct (broadcast_entity_state_wire x) as (es & c & -> & Hes)
  end.
  rewrite send_to_active_players_eq.
  unfold respawn_all_players.
  assert (Hpl : players (respawn_all_bobbas s) = players s
                ∧ spectators (respawn_all_bobbas s) = spectators s
                ∧ dragons (respawn_all_bobbas s) = dragons s
                ∧ next_player_id (respawn_all_bobbas s) = next_player_id s
                ∧ wire (respawn_all_bobbas s) = wire s
                ∧ state_sequence (respawn_all_bobbas s) = state_sequence s).
  { unfold respawn_all_bobbas. destruct (respawn_bobbas_from _ _) as [bs s1] eqn:Eb.
    by apply respawn_bobbas_from_rand_only in Eb as [n ->]. }
  destruct Hpl as (Hp & Hsp & Hd & Hn & Hw & Hc). rewrite Hp.
  pose proof (respawn_players_from_addrs (players s) (respawn_all_bobbas s)) as Haddr.
  destruct (respawn_players_from (players s) (respawn_all_bobbas s)) as [ps s1] eqn:Ep.
  apply respawn_players_from_rand_only in Ep as [n ->].
  unfold player_addrs, spectator_addrs, game_restart_packet in *. fields. cbn [fst] in *.
  rewrite Haddr, Hsp, Hd, Hn, Hw, Hc.
  do 4 (split; [reflexivity|]).
  exists es. split; [|exact Hes]. by rewrite <- !app_assoc.
Qed.

End RestartSessions.

Lemma dispatch_game_restart `{LibC} buffer client_addr now s :
  hdr_type (as_PacketHeader buffer) = PKT_GAME_RESTART →
  sizeof_GameRestartPacket ≤ Z.of_nat (length buffer) →
  dispatch buffer client_addr now s
  = handle_game_restart (get_u32 buffer 9) (hdr_player_id (as_PacketHeader buffer)) s.
Proof.
  intros Ht Hlen. unfold dispatch. rewrite Ht. simpl.
  destruct (Z.of_nat (length buffer) >=? sizeof_PacketHeader) eqn:E;
    [|unfold sizeof_GameRestartPacket, sizeof_PacketHeader in *; lia].
  destruct (Z.of_nat (length buffer) >=? sizeof_GameRestartPacket) eqn:E'; [done|lia].
Qed.

(** X12.  A game-restart datagram of at least 13 bytes, from any endpoint
    and whatever sender identifier it names, restarts the game.  Every
    chaser slot that was ever spawned holds an active chaser again,
    roaming at full health without target; every patroller is left as it
    was, so a dead patroller stays dead.  Every active session keeps its
    slot, identifier, name, endpoint and last-seen second and gets health
    100, state idle and a spawn position at height 2; inactive slots are
    untouched and no identifier is consumed.  A 13-byte game-restart
    packet carrying the reason of the request and the incremented counter
    goes to every active session, but to no spectator; the entity-state
    datagrams follow, and last a world-state broadcast to every session
    and spectator. *)
Theorem game_restart_respawns_and_notifies `{LibC} (s : Server)
    (buffer : list Byte.byte) (client_addr : sockaddr_in) (now : Z) :
  hdr_type (as_PacketHeader buffer) = PKT_GAME_RESTART →
  sizeof_GameRestartPacket ≤ Z.of_nat (length buffer) →
  let s' := dispatch buffer client_addr now s in
  (∀ i b, bobbas s !! i = Some b → bobba_entity_id b ≠ 0 →
     ∃ b', bobbas s' !! i = Some b'
           ∧ bobba_entity_id b' = bobba_entity_id b
           ∧ bobba_active b' = true
           ∧ bobba_state b' = BOBBA_ROAMING
           ∧ bobba_health b' = F32.of_Z 100
           ∧ bobba_target_player_id b' = 0)
  ∧ dragons s' = dragons s
  ∧ (∀ i p, players s !! i = Some p →
       ∃ p', players s' !! i = Some p' ∧ respawned p p')
  ∧ spectators s' = spectators s
  ∧ next_player_id s' = next_player_id s
  ∧ ∃ es,
      wire s'
      = wire s
        ++ multicast (PktGameRestart
                        {| gr_header := {| hdr_type := PKT_GAME_RESTART;
                                           hdr_sequence := u32 (state_sequence s + 1);
                                           hdr_player_id := 0 |};
                           gr_reason := get_u32 buffer 9 |})
             sizeof_GameRestartPacket (player_addrs s)
        ++ es
        ++ multicast (PktWorldState (world_state_packet s'))
             sizeof_WorldStatePacket (player_addrs s ++ spectator_addrs s)
      ∧ Forall (λ d, kind_of (dg_packet d) = KEntityState) es.
Proof.
  intros Ht Hlen s'. subst s'. rewrite dispatch_game_restart by done.
  destruct (handle_game_restart_sessions (get_u32 buffer 9)
              (hdr_player_id (as_PacketHeader buffer)) s) as (Hp & Hsp & Hd & Hn & Hw).
  split.
  { intros i b Hi Hid. rewrite bobbas_handle_game_restart.
    destruct (respawn_bobbas_from_lookup (bobbas s) s i b Hi Hid)
      as (b' & Hb' & H1 & H2 & H3 & H4 & H5 & _).
    by exists b'. }
  split; [exact Hd|]. split.
  { intros i p Hi. rewrite Hp. by apply respawn_players_from_lookup. }
  split; [exact Hsp|]. split; [exact Hn|exact Hw].
Qed.

Lemma game_restart_respawns_and_notifies_witness :
  let s := server_after_bite in
  let buffer := client_game_restart 4 99 2 in
  let s' := dispatch (libc := libc_zero) buffer endpoint_B 1001 s in
  hdr_type (as_PacketHeader buffer) = PKT_GAME_RESTART
  ∧ sizeof_GameRestartPacket ≤ Z.of_nat (length buffer)
  ∧ find_player_by_addr s endpoint_B = None
  ∧ (bobba_state <$> bobbas s !! 0%nat) = Some BOBBA_ATTACKING
  ∧ (bobba_state <$> bobbas s' !! 0%nat) = Some BOBBA_ROAMING
  ∧ spectators s' = spectators s.
Proof.
  intros s buffer s'.
  assert (H1 : hdr_type (as_PacketHeader buffer) = PKT_GAME_RESTART) by reflexivity.
  assert (H2 : sizeof_GameRestartPacket ≤ Z.of_nat (length buffer))
    by (vm_compute; discriminate).
  split; [exact H1|]. split; [exact H2|]. split; [vm_compute; reflexivity|].
  split; [vm_compute; reflexivity|]. split; [vm_compute; reflexivity|].
  exact (proj1 (proj2 (proj2 (proj2 (game_restart_respawns_and_notifies (H := libc_zero)
                                        s buffer endpoint_B 1001 H1 H2))))).
Defined.

(** ** What happens to the session table *)

Section Sessions.

Context `{libc : LibC}.

#[local] Arguments F32.of_Z : simpl never.
#[local] Arguments F32.lit : simpl never.
#[local] Arguments rand : simpl never.
#[local] Arguments random_angle : simpl never.
#[local] Arguments generate_spawn_position : simpl never.
#[local] Arguments bobba_pick_roam_direction : simpl never.
#[local] Arguments update_bobba_ai : simpl never.

Lemma same_sessions_refl s : same_sessions s s.
Proof. done. Qed.

Lemma same_sessions_trans s1 s2 s3 :
  same_sessions s1 s2 → same_sessions s2 s3 → same_sessions s1 s3.
Proof. intros (A1 & A2 & A3) (B1 & B2 & B3). repeat split; congruence. Qed.

Lemma rand_only_same_sessions s s' : rand_only s s' → same_sessions s s'.
Proof. by intros [n ->]. Qed.

Lemma send_player_damage_same_sessions t dmg e kx ky kz s :
  same_sessions s (send_player_damage t dmg e kx ky kz s).
Proof.
  unfold send_player_damage.
  destruct (find_player_by_id s t) as [[i p]|]; [|done].
  by destruct (pl_active p).
Qed.

Lemma bobba_attack_same_sessions b delta s b' s' :
  bobba_attack b delta s = (b', s') → same_sessions s s'.
Proof.
  unfold bobba_attack.
  match goal with |- context [if ?c then _ else _] => destruct c end.
  2: { intros ?; simplify_eq. apply same_sessions_refl. }
  match goal with |- context [find_player_by_id ?s ?t] =>
    destruct (find_player_by_id s t) as [[i p]|] end.
  2: { intros ?; simplify_eq. apply same_sessions_refl. }
  destruct (pl_active p).
  2: { intros ?; simplify_eq. apply same_sessions_refl. }
  match goal with |- context [if ?c then _ else _] => destruct c end.
  2: { intros ?; simplify_eq. apply same_sessions_refl. }
  destruct (knockback_direction _ _) as [[dx dy] dz].
  intros ?; simplify_eq. apply send_player_damage_same_sessions.
Qed.

Lemma update_bobba_ai_same_sessions b delta s b' s' :
  update_bobba_ai b delta s = (b', s') → same_sessions s s'.
Proof.
  unfold update_bobba_ai.
  destruct (negb (bobba_active b)); [intros ?; simplify_eq; apply same_sessions_refl|].
  destruct (test_multiplayer s); [intros ?; simplify_eq; apply same_sessions_refl|].
  destruct (bobba_stun_timer b >? _)%f32; [intros ?; simplify_eq; apply same_sessions_refl|].
  destruct (bobba_state b =? BOBBA_ATTACKING); [apply bobba_attack_same_sessions|].
  destruct (bobba_acquire_target b s) as [[[b1 s1] t] d] eqn:Ea.
  intros Hm. apply rand_only_same_sessions.
  eapply rand_only_trans; [(eapply bobba_acquire_target_rand_only; eassumption)|].
  (eapply bobba_state_machine_rand_only; eassumption).
Qed.

Lemma update_bobbas_from_same_sessions bs delta s bs' s' :
  update_bobbas_from bs delta s = (bs', s') → same_sessions s s'.
Proof.
  revert s bs' s'. induction bs as [|b bs IH]; intros s bs' s'; cbn [update_bobbas_from].
  - intros ?; simplify_eq. apply same_sessions_refl.
  - destruct (bobba_active b).
    + destruct (update_bobba_ai b delta s) as [b1 s1] eqn:Eb.
      destruct (update_bobbas_from bs delta s1) as [r s2] eqn:E. intros ?; simplify_eq.
      eapply same_sessions_trans;
        [(eapply update_bobba_ai_same_sessions; eassumption)|(eapply IH; eassumption)].
    + destruct (update_bobbas_from bs delta s) as [r s1] eqn:E. intros ?; simplify_eq.
      (eapply IH; eassumption).
Qed.

Lemma update_all_bobbas_same_sessions delta s : same_sessions s (update_all_bobbas delta s).
Proof.
  unfold update_all_bobbas.
  destruct (update_bobbas_from (bobbas s) delta s) as [bs s1] eqn:E.
  eapply same_sessions_trans; [(eapply update_bobbas_from_same_sessions; eassumption)|done].
Qed.

Lemma broadcast_world_state_same_sessions s : same_sessions s (broadcast_world_state s).
Proof. by rewrite broadcast_world_state_eq. Qed.

Lemma broadcast_entity_state_same_sessions s : same_sessions s (broadcast_entity_state s).
Proof.
  unfold broadcast_entity_state. destruct (decide _); [done|]. cbv zeta.
  by rewrite broadcast_eq.
Qed.

Lemma entity_update_same_sessions elapsed s : same_sessions s (entity_update elapsed s).
Proof.
  unfold entity_update.
  eapply same_sessions_trans; [|apply broadcast_entity_state_same_sessions].
  eapply same_sessions_trans; [apply update_all_bobbas_same_sessions|done].
Qed.

Lemma relay_to_others_same_sessions packet len sender_addr s :
  same_sessions s (relay_to_others packet len sender_addr s).
Proof. by rewrite relay_to_others_eq. Qed.

Lemma promote_spectator_same_sessions client_addr s :
  same_sessions s (promote_spectator client_addr s).
Proof. unfold promote_spectator. by destruct (list_find _ _) as [[i sp]|]. Qed.

Lemma handle_spectate_same_sessions hdr client_addr now s :
  same_sessions s (handle_spectate hdr client_addr now s).
Proof.
  unfold handle_spectate.
  destruct (list_find _ _) as [[i sp]|]; [done|].
  by destruct (list_find _ _) as [[slot sp]|].
Qed.

(** *** Slots that stay bound *)

Lemma kept_slot_refl now p : kept_slot now p p.
Proof. repeat split. by left. Qed.

Lemma kept_slot_trans now p1 p2 p3 :
  kept_slot now p1 p2 → kept_slot now p2 p3 → kept_slot now p1 p3.
Proof.
  intros (A1 & A2 & A3 & A4) (B1 & B2 & B3 & B4).
  repeat split; try congruence. destruct A4, B4; [left|right|right|right]; congruence.
Qed.

Lemma kept_sessions_same now s s' : same_sessions s s' → kept_sessions now s s'.
Proof.
  intros (Hp & Hn & Ht). split; [|done]. rewrite Hp.
  apply Forall2_same_length_lookup. split; [done|].
  intros i x y Hx Hy. simplify_eq. apply kept_slot_refl.
Qed.

Lemma kept_sessions_trans now s1 s2 s3 :
  kept_sessions now s1 s2 → kept_sessions now s2 s3 → kept_sessions now s1 s3.
Proof.
  intros (A1 & A2 & A3) (B1 & B2 & B3). split; [|split; congruence].
  apply Forall2_same_length_lookup in A1 as [L1 A1].
  apply Forall2_same_length_lookup in B1 as [L2 B1].
  apply Forall2_same_length_lookup. split; [congruence|].
  intros i x z Hx Hz.
  destruct (lookup_lt_is_Some_2 (players s2) i) as [y Hy].
  { rewrite <- L1. by eapply lookup_lt_Some. }
  eapply kept_slot_trans; [by eapply A1|by eapply B1].
Qed.

Lemma kept_sessions_insert now s i p p' :
  players s !! i = Some p → kept_slot now p p' →
  Forall2 (kept_slot now) (players s) (<[i := p']> (players s)).
Proof.
  intros Hi Hk. apply Forall2_same_length_lookup.
  split; [by rewrite length_insert|].
  intros j x y Hx Hy. destruct (decide (j = i)) as [->|Hne].
  - rewrite list_lookup_insert_eq in Hy by (by eapply lookup_lt_Some). by simplify_eq.
  - rewrite list_lookup_insert_ne in Hy by done. simplify_eq. apply kept_slot_refl.
Qed.

Lemma respawn_players_from_kept now ps s :
  Forall2 (kept_slot now) ps (respawn_players_from ps s).1.
Proof.
  apply Forall2_same_length_lookup. split.
  - revert s. induction ps as [|p ps IH]; intros s; [done|].
    cbn [respawn_players_from]. destruct (pl_active p).
    + destruct (generate_spawn_position s) as [[[x y] z] s1]. cbv beta iota zeta.
      specialize (IH s1). destruct (respawn_players_from ps s1) as [r s2].
      cbn [fst length] in *. by rewrite IH.
    + cbv beta iota zeta. specialize (IH s).
      destruct (respawn_players_from ps s) as [r s2]. cbn [fst length] in *. by rewrite IH.
  - intros i p p' Hp Hp'.
    destruct (respawn_players_from_lookup ps s i p Hp) as (p'' & Hp'' & Hr).
    rewrite Hp' in Hp''. injection Hp'' as <-.
    unfold respawned in Hr. destruct (pl_active p) eqn:Ea.
    + destruct Hr as (x & z & ->). do 3 (split; [done|]). by left.
    + subst. apply kept_slot_refl.
Qed.

Lemma handle_game_restart_kept now reason requester s :
  kept_sessions now s (handle_game_restart reason requester s).
Proof.
  split; [|split].
  - destruct (handle_game_restart_sessions reason requester s) as (Hp & _).
    rewrite Hp. apply respawn_players_from_kept.
  - by destruct (handle_game_restart_sessions reason requester s) as (_ & _ & _ & Hn & _).
  - unfold handle_game_restart. cbv beta iota zeta.
    rewrite broadcast_world_state_eq.
    match goal with
    | |- context [broadcast_entity_state ?x] =>
      destruct (broadcast_entity_state_wire x) as (es & c & -> & _)
    end.
    rewrite send_to_active_players_eq. fields.
    unfold respawn_all_players.
    destruct (respawn_players_from _ _) as [ps s1] eqn:Ep.
    apply respawn_players_from_rand_only in Ep as [n ->]. fields.
    unfold respawn_all_bobbas.
    destruct (respawn_bobbas_from _ _) as [bs s2] eqn:Eb.
    by apply respawn_bobbas_from_rand_only in Eb as [m ->].
Qed.

Lemma handle_entity_damage_server_kept now entity_id damage attacker_id s :
  kept_sessions now s (handle_entity_damage_server entity_id damage attacker_id s).
Proof.
  unfold handle_entity_damage_server.
  destruct (list_find _ (bobbas s)) as [[i b]|].
  - match goal with |- context [if ?c then _ else _] => destruct c end.
    + eapply kept_sessions_trans; [|apply handle_game_restart_kept].
      by apply kept_sessions_same.
    + by apply kept_sessions_same.
  - destruct (list_find _ (dragons s)) as [[i d]|]; by apply kept_sessions_same.
Qed.

Lemma handle_update_kept pkt client_addr now s :
  kept_sessions now s (handle_update pkt client_addr now s).
Proof.
  unfold handle_update.
  destruct (find_player_by_id _ _) as [[i p]|] eqn:Ef; [|by apply kept_sessions_same].
  destruct (decide _); [by apply kept_sessions_same|].
  apply list_find_Some in Ef as (Hi & _).
  split; [|done]. fields. eapply kept_sessions_insert; [done|].
  do 3 (split; [done|]). by right.
Qed.

(** What a join does to the session table: nothing, a refreshed
    last-seen second, or a new session. *)
Lemma handle_join_sessions pkt client_addr now s :
  kept_sessions now s (handle_join pkt client_addr now s)
  ∨ session_born now s (handle_join pkt client_addr now s).
Proof.
  unfold handle_join. cbv zeta.
  pose proof (promote_spectator_same_sessions client_addr s) as (Hp & Hn & Ht).
  destruct (find_player_by_addr _ _) as [[i p]|] eqn:Ef.
  - left. apply list_find_Some in Ef as (Hi & _). rewrite Hp in Hi.
    split; [|done]. fields. rewrite Hp. eapply kept_sessions_insert; [done|].
    do 3 (split; [done|]). by right.
  - unfold find_free_slot.
    destruct (list_find _ (players (promote_spectator client_addr s)))
      as [[slot q]|] eqn:Efree; cbn [fmap option_fmap option_map].
    2: { left. by apply kept_sessions_same. }
    right.
    destruct (generate_spawn_position _) as [[[x y] z] s1] eqn:Eg.
    apply generate_spawn_position_rand_only in Eg as [n ->].
    rewrite broadcast_world_state_eq. fields. cbn [fst].
    apply list_find_Some in Efree as (Hslot & Hq & _). rewrite Hp in Hslot.
    eexists slot, q, _. rewrite ?Hp, ?Hn, ?Ht. by repeat split.
Qed.

Lemma handle_leave_sessions now hdr client_addr s :
  kept_sessions now s (handle_leave hdr client_addr s)
  ∨ session_left (hdr_player_id hdr) s (handle_leave hdr client_addr s).
Proof.
  unfold handle_leave.
  destruct (find_player_by_id _ _) as [[i p]|] eqn:Ef.
  - right. apply list_find_Some in Ef as (Hi & [Ha Hid] & _).
    rewrite broadcast_world_state_eq. fields. by exists i, p.
  - left. apply kept_sessions_same, broadcast_world_state_same_sessions.
Qed.

Lemma dispatch_sessions buffer client_addr now s :
  let s' := dispatch buffer client_addr now s in
  kept_sessions now s s'
  ∨ session_born now s s'
  ∨ (hdr_type (as_PacketHeader buffer) = PKT_LEAVE
     ∧ session_left (hdr_player_id (as_PacketHeader buffer)) s s').
Proof.
  unfold dispatch. cbv beta iota zeta.
  destruct (_ >=? sizeof_PacketHeader); [|left; by apply kept_sessions_same].
  destruct (Z.eqb_spec (hdr_type (as_PacketHeader buffer)) PKT_JOIN) as [E1|E1].
  { destruct (_ >=? _); [|left; by apply kept_sessions_same].
    destruct (handle_join_sessions (as_JoinPacket buffer) client_addr now s); auto. }
  destruct (Z.eqb_spec (hdr_type (as_PacketHeader buffer)) PKT_UPDATE) as [E2|E2].
  { left. destruct (_ >=? _); [apply handle_update_kept|by apply kept_sessions_same]. }
  destruct (Z.eqb_spec (hdr_type (as_PacketHeader buffer)) PKT_LEAVE) as [E3|E3].
  { destruct (handle_leave_sessions now (as_PacketHeader buffer) client_addr s); auto. }
  left.
  repeat (match goal with |- context [if ?c then _ else _] => destruct c end;
          try (by apply kept_sessions_same)).
  - apply handle_entity_damage_server_kept.
  - apply kept_sessions_same, relay_to_others_same_sessions.
  - apply kept_sessions_same, relay_to_others_same_sessions.
  - apply kept_sessions_same, handle_spectate_same_sessions.
  - apply handle_game_restart_kept.
Qed.

End Sessions.

Section SessionInvariants.

Context `{libc : LibC}.

Lemma as_PacketHeader_take (n : nat) (payload : list Byte.byte) :
  (9 ≤ n)%nat → as_PacketHeader (take n payload) = as_PacketHeader payload.
Proof.
  intros Hn. unfold as_PacketHeader, get_u32, get_u8.
  by rewrite !lookup_take_lt by lia.
Qed.

(** One iteration, as far as the session table goes: the dispatch of the
    received datagram, if any, then routines that leave the sessions
    alone, then possibly the reaper. *)
Lemma loop_iteration_server inp l :
  ∃ s1 s3,
    (s1 = server l
     ∨ ∃ a payload, received inp = Some (a, payload)
         ∧ s1 = dispatch (take (Z.to_nat BUFFER_SIZE) payload) a (time_now inp) (server l))
    ∧ same_sessions s1 s3
    ∧ (server (loop_iteration inp l) = s3
       ∨ server (loop_iteration inp l) = cleanup_inactive_players (time_now inp) s3).
Proof.
  unfold loop_iteration. cbv beta iota zeta.
  set (s1 := match received inp with Some _ => _ | None => _ end).
  exists s1.
  assert (H1 : s1 = server l
               ∨ ∃ a payload, received inp = Some (a, payload)
                   ∧ s1 = dispatch (take (Z.to_nat BUFFER_SIZE) payload) a (time_now inp)
                            (server l)).
  { subst s1. destruct (received inp) as [[a payload]|]; [|by left].
    destruct (_ >? 0); [|by left]. right. by exists a, payload. }
  clearbody s1.
  destruct (_ >=? BROADCAST_INTERVAL_MS);
    destruct (_ >=? ENTITY_UPDATE_INTERVAL_MS);
    (destruct (_ >=? 1000); cbv beta iota zeta; cbn [server];
     eexists; (split; [exact H1|]);
     [split; [|right; reflexivity]|split; [|left; reflexivity]]);
    lazymatch goal with
    | |- same_sessions ?s ?s => apply same_sessions_refl
    | |- same_sessions ?s (entity_update ?e (broadcast_world_state ?s)) =>
      eapply same_sessions_trans;
        [apply broadcast_world_state_same_sessions|apply entity_update_same_sessions]
    | |- same_sessions ?s (entity_update ?e ?s) => apply entity_update_same_sessions
    | |- same_sessions ?s (broadcast_world_state ?s) =>
      apply broadcast_world_state_same_sessions
    end.
Qed.

(** *** Identifiers *)

Lemma unique_session_ids_kept s s' :
  unique_session_ids s →
  length (players s') = length (players s) →
  (∀ i p', players s' !! i = Some p' → pl_active p' = true →
     ∃ p, players s !! i = Some p ∧ pl_active p = true
          ∧ pl_player_id p = pl_player_id p') →
  next_player_id s' = next_player_id s →
  unique_session_ids s'.
Proof.
  intros [Hlt Huniq] Hlen Hold Hnext. split.
  - intros i p' Hi Ha. destruct (Hold i p' Hi Ha) as (p & Hp & Hpa & <-).
    rewrite Hnext. by eapply Hlt.
  - intros i j p' q' Hi Hj Ha Hb Heq.
    destruct (Hold i p' Hi Ha) as (p & Hp & Hpa & Hpid).
    destruct (Hold j q' Hj Hb) as (q & Hq & Hqa & Hqid).
    eapply Huniq; [exact Hp|exact Hq|done|done|congruence].
Qed.

Lemma unique_session_ids_kept_sessions now s s' :
  unique_session_ids s → kept_sessions now s s' → unique_session_ids s'.
Proof.
  intros Hu (Hf & Hn & _). apply Forall2_same_length_lookup in Hf as [Hlen Hf].
  eapply unique_session_ids_kept; [done|done| |done].
  intros i p' Hi Ha.
  destruct (lookup_lt_is_Some_2 (players s) i) as [p Hp].
  { rewrite Hlen. by eapply lookup_lt_Some. }
  destruct (Hf i p p' Hp Hi) as (Hid & _ & Hact & _).
  exists p. split; [done|]. split; congruence.
Qed.

Lemma unique_session_ids_left id s s' :
  unique_session_ids s → session_left id s s' → unique_session_ids s'.
Proof.
  intros Hu (k & p0 & Hk & Ha0 & Hid0 & Hp & Hn & _).
  eapply unique_session_ids_kept; [done| | |done].
  - by rewrite Hp, length_insert.
  - intros i p' Hi Ha. rewrite Hp in Hi. destruct (decide (i = k)) as [->|Hne].
    + rewrite list_lookup_insert_eq in Hi by (by eapply lookup_lt_Some).
      by simplify_eq.
    + rewrite list_lookup_insert_ne in Hi by done. by exists p'.
Qed.

Lemma unique_session_ids_born now s s' :
  unique_session_ids s → 0 ≤ next_player_id s → next_player_id s + 1 < 2 ^ 32 →
  session_born now s s' →
  unique_session_ids s' ∧ next_player_id s' = next_player_id s + 1.
Proof.
  intros [Hlt Huniq] H0 Hmax (slot & q & player & Hq & Hqa & Hp & Hid & Hact & _ & Hn & _).
  assert (Hn' : next_player_id s' = next_player_id s + 1).
  { rewrite Hn. unfold u32. apply Z.mod_small. lia. }
  assert (Hslot : (slot < length (players s))%nat) by (by eapply lookup_lt_Some).
  split; [|done]. split.
  - intros i p' Hi Ha. rewrite Hp in Hi. rewrite Hn'.
    destruct (decide (i = slot)) as [->|Hne].
    + rewrite list_lookup_insert_eq in Hi by done. simplify_eq. lia.
    + rewrite list_lookup_insert_ne in Hi by done. specialize (Hlt i p' Hi Ha). lia.
  - intros i j p' q' Hi Hj Ha Hb Heq. rewrite Hp in Hi, Hj.
    destruct (decide (i = slot)) as [->|Hi'], (decide (j = slot)) as [->|Hj']; [done| | |].
    + rewrite list_lookup_insert_eq in Hi by done.
      rewrite list_lookup_insert_ne in Hj by done. simplify_eq.
      specialize (Hlt j q' Hj Hb). lia.
    + rewrite list_lookup_insert_ne in Hi by done.
      rewrite list_lookup_insert_eq in Hj by done. simplify_eq.
      specialize (Hlt i p' Hi Ha). lia.
    + rewrite list_lookup_insert_ne in Hi by done.
      rewrite list_lookup_insert_ne in Hj by done. by eapply Huniq.
Qed.

Lemma unique_session_ids_cleanup now s :
  unique_session_ids s → unique_session_ids (cleanup_inactive_players now s).
Proof.
  intros Hu. eapply unique_session_ids_kept; [done| | |done].
  - unfold cleanup_inactive_players. fields. by rewrite length_fmap.
  - intros i p' Hi Ha. unfold cleanup_inactive_players in Hi.
    cbn [players set_players] in Hi. rewrite list_lookup_fmap in Hi.
    destruct (players s !! i) as [p|] eqn:Hp; [|done]. injection Hi as <-.
    exists p. split; [done|].
    destruct (pl_active p && _) eqn:E; [done|]. done.
Qed.

Lemma unique_session_ids_same s s' :
  unique_session_ids s → same_sessions s s' → unique_session_ids s'.
Proof.
  intros Hu Hs. eapply (unique_session_ids_kept_sessions 0); [done|].
  by apply kept_sessions_same.
Qed.

Lemma loop_iteration_unique_session_ids inp l :
  unique_session_ids (server l) →
  0 ≤ next_player_id (server l) → next_player_id (server l) + 1 < 2 ^ 32 →
  unique_session_ids (server (loop_iteration inp l))
  ∧ next_player_id (server l) ≤ next_player_id (server (loop_iteration inp l))
    ≤ next_player_id (server l) + 1.
Proof.
  intros Hu H0 Hmax.
  destruct (loop_iteration_server inp l) as (s1 & s3 & H1 & H13 & H3).
  assert (Hs1 : unique_session_ids s1
                ∧ next_player_id (server l) ≤ next_player_id s1
                  ≤ next_player_id (server l) + 1).
  { destruct H1 as [->|(a & payload & _ & ->)]; [split; [done|lia]|].
    destruct (dispatch_sessions (take (Z.to_nat BUFFER_SIZE) payload) a (time_now inp)
                (server l)) as [Hk|[Hb|[_ Hl]]].
    - split; [by eapply unique_session_ids_kept_sessions|].
      destruct Hk as (_ & -> & _). lia.
    - destruct (unique_session_ids_born _ _ _ Hu H0 Hmax Hb) as [Hu' ->]. split; [done|lia].
    - split; [by eapply unique_session_ids_left|].
      destruct Hl as (? & ? & _ & _ & _ & _ & -> & _). lia. }
  destruct Hs1 as [Hu1 Hn1].
  assert (Hu3 : unique_session_ids s3) by (by eapply unique_session_ids_same).
  destruct H13 as (_ & Hn3 & _).
  destruct H3 as [->| ->].
  - split; [done|]. rewrite Hn3. lia.
  - split; [by apply unique_session_ids_cleanup|].
    unfold cleanup_inactive_players. fields. rewrite Hn3. lia.
Qed.

(** *** Sessions that stay *)

Lemma live_session_kept t0 i id a now s s' :
  t0 ≤ now → kept_sessions now s s' →
  live_session t0 i id a s → live_session t0 i id a s'.
Proof.
  intros Hnow (Hf & _) (p & Hp & Ha & Hid & Haddr & Hseen).
  apply Forall2_same_length_lookup in Hf as [Hlen Hf].
  destruct (lookup_lt_is_Some_2 (players s') i) as [p' Hp'].
  { rewrite <- Hlen. by eapply lookup_lt_Some. }
  destruct (Hf i p p' Hp Hp') as (Hid' & Haddr' & Hact' & Hseen').
  exists p'. split; [done|]. split; [congruence|]. split; [congruence|].
  split; [congruence|]. destruct Hseen' as [-> | ->]; lia.
Qed.

Lemma live_session_born t0 i id a now s s' :
  session_born now s s' → live_session t0 i id a s → live_session t0 i id a s'.
Proof.
  intros (slot & q & player & Hq & Hqa & Hpl & _) (p & Hp & Ha & Hrest).
  exists p. split; [|done]. rewrite Hpl. rewrite list_lookup_insert_ne; [done|].
  intros ->. congruence.
Qed.

Lemma live_session_left t0 i id a id' s s' :
  id' ≠ id → session_left id' s s' → live_session t0 i id a s → live_session t0 i id a s'.
Proof.
  intros Hne (k & p0 & Hk & _ & Hid0 & Hpl & _) (p & Hp & Ha & Hid & Hrest).
  exists p. split; [|done]. rewrite Hpl. rewrite list_lookup_insert_ne; [done|].
  intros ->. congruence.
Qed.

Lemma live_session_cleanup t0 i id a now s :
  now ≤ t0 + PLAYER_TIMEOUT_SEC →
  live_session t0 i id a s → live_session t0 i id a (cleanup_inactive_players now s).
Proof.
  intros Hnow (p & Hp & Ha & Hid & Haddr & Hseen).
  exists p. split; [|done]. unfold cleanup_inactive_players. fields.
  rewrite list_lookup_fmap, Hp. cbn [fmap option_fmap option_map]. f_equal.
  rewrite Ha. cbn [andb].
  destruct (now - pl_last_seen p >? PLAYER_TIMEOUT_SEC) eqn:E; [|done]. lia.
Qed.

Lemma loop_iteration_live_session t0 i id a inp l :
  t0 ≤ time_now inp ≤ t0 + PLAYER_TIMEOUT_SEC → ¬ leave_of id inp →
  live_session t0 i id a (server l) →
  live_session t0 i id a (server (loop_iteration inp l)).
Proof.
  intros [Hlo Hhi] Hnl Hlive.
  destruct (loop_iteration_server inp l) as (s1 & s3 & H1 & H13 & H3).
  assert (Hl1 : live_session t0 i id a s1).
  { destruct H1 as [->|(c & payload & Hrx & ->)]; [done|].
    destruct (dispatch_sessions (take (Z.to_nat BUFFER_SIZE) payload) c (time_now inp)
                (server l)) as [Hk|[Hb|[Ht Hl]]].
    - by eapply live_session_kept.
    - by eapply live_session_born.
    - eapply live_session_left; [|exact Hl|done].
      intros Heq. apply Hnl. exists c, payload. split; [done|].
      rewrite as_PacketHeader_take in Ht, Heq by (unfold BUFFER_SIZE; lia). done. }
  assert (Hl3 : live_session t0 i id a s3).
  { destruct H13 as (Hp & _). destruct Hl1 as (p & Hp1 & Hrest).
    exists p. by rewrite Hp. }
  destruct H3 as [->| ->]; [done|]. by apply live_session_cleanup.
Qed.

End SessionInvariants.

(** X13.  As long as the 32-bit identifier counter does not wrap, no two
    active sessions ever share an identifier, and the identifier of every
    active session is below the next one to be assigned: both hold after
    any run of the loop if they held before, and the run consumes at most
    one identifier per iteration. *)
Theorem session_ids_stay_unique `{LibC} (inputs : list Inputs) (l : Loop) :
  unique_session_ids (server l) →
  0 ≤ next_player_id (server l) →
  next_player_id (server l) + Z.of_nat (length inputs) < 2 ^ 32 →
  let l' := run_loop inputs l in
  unique_session_ids (server l')
  ∧ next_player_id (server l) ≤ next_player_id (server l')
    ≤ next_player_id (server l) + Z.of_nat (length inputs).
Proof.
  unfold run_loop. revert l. induction inputs as [|inp inputs IH]; intros l Hu H0 Hmax.
  - simpl. split; [done|lia].
  - cbn [foldl]. rewrite length_cons in Hmax.
    destruct (loop_iteration_unique_session_ids inp l Hu H0) as [Hu1 Hn1]; [lia|].
    destruct (IH (loop_iteration inp l) Hu1) as [Hu2 Hn2]; [lia|lia|].
    split; [exact Hu2|]. rewrite length_cons. lia.
Qed.

Lemma session_ids_stay_unique_witness :
  let l := loop_init in
  let l' := run_loop (libc := libc_zero) two_joins_inputs l in
  unique_session_ids (server l)
  ∧ next_player_id (server l) = 1
  ∧ unique_session_ids (server l')
  ∧ (pl_player_id <$> filter (λ p, pl_active p = true) (players (server l'))) = [1]
  ∧ next_player_id (server l') = 3.
Proof.
  intros l l'.
  assert (Hpl : players (server l) = replicate 32 Player_zero) by (vm_compute; reflexivity).
  assert (H1 : unique_session_ids (server l)).
  { split.
    - intros i p Hi Ha. rewrite Hpl in Hi. apply lookup_replicate in Hi as [-> _]. done.
    - intros i j p q Hi _ Ha. rewrite Hpl in Hi. apply lookup_replicate in Hi as [-> _].
      done. }
  assert (H2 : 0 ≤ next_player_id (server l)) by (vm_compute; discriminate).
  assert (H3 : next_player_id (server l) + Z.of_nat (length two_joins_inputs) < 2 ^ 32)
    by (vm_compute; reflexivity).
  split; [exact H1|]. split; [vm_compute; reflexivity|].
  split; [exact (proj1 (session_ids_stay_unique (H := libc_zero) two_joins_inputs l
                          H1 H2 H3))|].
  split; vm_compute; reflexivity.
Defined.

(** X14.  A session ends only by a leave or by the reaper.  Take an
    active session in slot [i] with identifier [id] and endpoint [a],
    last seen at second [t0] or later.  Over any iterations whose
    wall-clock second lies between [t0] and [t0 + 10] and none of which
    receives a leave datagram naming [id], the slot stays active and
    bound to [id] and [a], whatever else arrives: joins, updates,
    spectate requests, damage, restarts, arrows, from this or any other
    endpoint. *)
Theorem sessions_end_only_by_leave_or_timeout `{LibC} (inputs : list Inputs) (l : Loop)
    (t0 : Z) (i : nat) (id : Z) (a : sockaddr_in) :
  live_session t0 i id a (server l) →
  Forall (λ inp, t0 ≤ time_now inp ≤ t0 + PLAYER_TIMEOUT_SEC ∧ ¬ leave_of id inp) inputs →
  live_session t0 i id a (server (run_loop inputs l)).
Proof.
  unfold run_loop. intros Hlive Hall. revert l Hlive.
  induction Hall as [|inp inputs [Ht Hnl] _ IH]; intros l Hlive; simpl; [done|].
  apply IH. by apply loop_iteration_live_session.
Qed.

Lemma sessions_end_only_by_leave_or_timeout_witness :
  let l := loop_one_player in
  let inputs := [at_ms 50 (Some (endpoint_B, client_join 2));
                 at_ms 4000 (Some (endpoint_B, client_game_restart 3 2 2));
                 at_ms 10000 (Some (endpoint_B, client_leave 4 2))] in
  live_session 1000 0 1 endpoint_A (server l)
  ∧ Forall (λ inp, 1000 ≤ time_now inp ≤ 1000 + PLAYER_TIMEOUT_SEC ∧ ¬ leave_of 1 inp)
      inputs
  ∧ live_session 1000 0 1 endpoint_A (server (run_loop (libc := libc_zero) inputs l)).
Proof.
  intros l inputs.
  assert (H1 : live_session 1000 0 1 endpoint_A (server l)).
  { eexists. split; [vm_compute; reflexivity|]. repeat split. vm_compute. discriminate. }
  assert (H2 : Forall (λ inp, 1000 ≤ time_now inp ≤ 1000 + PLAYER_TIMEOUT_SEC
                               ∧ ¬ leave_of 1 inp) inputs).
  { repeat (apply Forall_cons_2;
              [split;
               [vm_compute; split; intros [=]
               |intros (c & payload & Hrx & Ht & Hid); vm_compute in Hrx;
                injection Hrx as <- <-; vm_compute in Ht, Hid; discriminate]|]).
    apply Forall_nil_2. }
  split; [exact H1|]. split; [exact H2|].
  exact (sessions_end_only_by_leave_or_timeout (H := libc_zero) inputs l 1000 0%nat 1
           endpoint_A H1 H2).
Defined.

(** ** The test mode *)

Section TestMode.

Context `{libc : LibC}.

#[local] Arguments update_bobba_ai : simpl never.






End TestMode.



(** * Further properties of the AI *)

(** ** The nearest session *)

(** The comparison [<] of two floats is a strict order (it is false as
    soon as a NaN is involved). *)
Lemma SFltb_trans (x y z : spec_float) :
  SFltb x y = true → SFltb y z = true → SFltb x z = true.
Proof.
  unfold SFltb.
  destruct x as [sx|sx| |sx mx ex], y as [sy|sy| |sy my ey], z as [sz|sz| |sz mz ez];
    cbn [SFcompare]; try discriminate; try reflexivity;
    repeat match goal with s : bool |- _ => destruct s end;
    try discriminate; try reflexivity.
  all: change (PosDef.Pos.compare_cont Eq) with Pos.compare.
  all: destruct (Z.compare_spec ex ey), (Z.compare_spec ey ez), (Z.compare_spec ex ez);
    try discriminate; try reflexivity; try lia; subst.
  all: destruct (Pos.compare_spec mx my), (Pos.compare_spec my mz),
         (Pos.compare_spec mx mz);
    cbn; try discriminate; try reflexivity; try lia.
Qed.

Lemma SFltb_irrefl (x : spec_float) : SFltb x x = false.
Proof.
  unfold SFltb. destruct x as [sx|sx| |sx mx ex]; cbn [SFcompare]; try reflexivity.
  - by destruct sx.
  - change (PosDef.Pos.compare_cont Eq) with Pos.compare.
    rewrite Z.compare_refl, Pos.compare_refl. by destruct sx.
Qed.

Lemma SFltb_asym (x y : spec_float) : SFltb x y = true → SFltb y x = false.
Proof.
  intros Hxy. destruct (SFltb y x) eqn:Hyx; [|done].
  pose proof (SFltb_trans x y x Hxy Hyx) as Hxx. by rewrite SFltb_irrefl in Hxx.
Qed.

Lemma nearest_from_spec (x y z : float) (ps : list Player) (i : nat)
    (nearest : option (nat * Player)) (min_dist : float) r d :
  nearest_from x y z ps i nearest min_dist = (r, d) →
  (r = nearest ∧ d = min_dist
   ∨ ∃ k p, r = Some ((i + k)%nat, p) ∧ ps !! k = Some p ∧ pl_active p = true
            ∧ d = distance_to x y z p ∧ (d <? min_dist)%f32 = true)
  ∧ (∀ k q, ps !! k = Some q → pl_active q = true →
       (distance_to x y z q <? d)%f32 = false).
Proof.
  revert i nearest min_dist.
  induction ps as [|p ps IH]; intros i nearest min_dist; cbn [nearest_from].
  - intros [= <- <-]. split; [by left|]. by intros k q Hk.
  - destruct (pl_active p) eqn:Ea.
    + fold (distance_to x y z p).
      destruct (distance_to x y z p <? min_dist)%f32 eqn:Elt.
      * intros Hrec. destruct (IH _ _ _ Hrec) as [Horigin Hmin].
        assert (Hd : d = distance_to x y z p ∨ (d <? distance_to x y z p)%f32 = true).
        { destruct Horigin as [[_ ->]|(k & q & _ & _ & _ & _ & Hlt)]; [by left|by right]. }
        split.
        -- right. destruct Horigin as [[-> ->]|(k & q & -> & Hk & Hq & -> & Hlt)].
           ++ exists 0%nat, p. rewrite Nat.add_0_r. done.
           ++ exists (S k), q. rewrite Nat.add_succ_r. repeat split; try done.
              by eapply SFltb_trans.
        -- intros [|k] q Hk Hq.
           ++ injection Hk as <-. destruct Hd as [->|Hd]; [apply SFltb_irrefl|].
              by apply SFltb_asym.
           ++ by eapply Hmin.
      * intros Hrec. destruct (IH _ _ _ Hrec) as [Horigin Hmin].
        split.
        -- destruct Horigin as [[-> ->]|(k & q & -> & Hk & Hq & -> & Hlt)]; [by left|].
           right. exists (S k), q. rewrite Nat.add_succ_r. done.
        -- intros [|k] q Hk Hq; [|by eapply Hmin].
           injection Hk as <-.
           destruct Horigin as [[_ ->]|(k & q & _ & _ & _ & -> & Hlt)]; [done|].
           destruct (distance_to x y z p <? distance_to x y z q)%f32 eqn:E; [|done].
           pose proof (SFltb_trans _ _ _ E Hlt) as Hc. unfold F32.ltb in Elt. congruence.
    + intros Hrec. destruct (IH _ _ _ Hrec) as [Horigin Hmin].
      split.
      * destruct Horigin as [[-> ->]|(k & q & -> & Hk & Hq & -> & Hlt)]; [by left|].
        right. exists (S k), q. rewrite Nat.add_succ_r. done.
      * intros [|k] q Hk Hq; [|by eapply Hmin]. injection Hk as <-. congruence.
Qed.

(** X16.  [find_nearest_player] returns an active session of the table
    together with its distance, which is below the initial 999999 and
    such that no active session has a smaller distance; it returns no
    session, and the distance 999999, exactly when no active session has
    a distance below 999999 (an empty table, or distances that are NaN or
    too large). *)
Theorem nearest_player_is_nearest (x y z : float) (s : Server) :
  match find_nearest_player x y z s with
  | (Some (i, p), d) =>
    players s !! i = Some p ∧ pl_active p = true
    ∧ d = distance_to x y z p
    ∧ (d <? FAR_AWAY)%f32 = true
    ∧ ∀ j q, players s !! j = Some q → pl_active q = true →
        (distance_to x y z q <? d)%f32 = false
  | (None, d) =>
    d = FAR_AWAY
    ∧ ∀ j q, players s !! j = Some q → pl_active q = true →
        (distance_to x y z q <? FAR_AWAY)%f32 = false
  end.
Proof.
  unfold find_nearest_player.
  destruct (nearest_from x y z (players s) 0 None FAR_AWAY) as [r d] eqn:E.
  destruct (nearest_from_spec _ _ _ _ _ _ _ _ _ E) as [Horigin Hmin].
  destruct Horigin as [[-> ->]|(k & p & -> & Hk & Hp & -> & Hlt)].
  - split; [done|]. exact Hmin.
  - cbn [Nat.add]. repeat split; try done.
Qed.

(** ** The patroller's cycle *)

Ltac dragon_fields :=
  cbn [dragon_entity_id dragon_pos_x dragon_pos_y dragon_pos_z dragon_rot_y dragon_state
       dragon_health dragon_active dragon_patrol_angle dragon_patrol_center_x
       dragon_patrol_center_z dragon_laps_completed dragon_wait_timer dragon_attack_timer
       dragon_target_player_id
       SetDragon.pos SetDragon.rot_y SetDragon.state SetDragon.health SetDragon.active
       SetDragon.patrol_angle SetDragon.laps_completed SetDragon.wait_timer
       SetDragon.attack_timer SetDragon.target_player_id].

Ltac dragon_cases :=
  repeat match goal with
         | |- context [if ?c then _ else _] => destruct c eqn:?
         | |- context [let '(_, _) := ?c in _] => destruct c as [? ?] eqn:?
         | |- context [match ?c with Some _ => _ | None => _ end] =>
           destruct c as [[? ?]|] eqn:?
         end.

(** X17.  The AI of an active patroller, outside the test mode, never
    changes its identifier, health, active flag or patrol centre, and
    moves its state only along the cycle patrol, flying to land, landing,
    wait, then either attacking and back to wait, or taking off and back
    to patrol.  It starts to fly to the landing spot when it completes
    its second lap, the lap count being reset; it enters wait at the
    landing spot with the wait timer at zero; it enters attacking with an
    attack timer of 2; it resumes patrol with the patrol angle at zero. *)
Theorem patroller_follows_its_cycle `{LibC} (d : ServerDragon) (delta : float)
    (s : Server) :
  dragon_active d = true →
  test_multiplayer s = false →
  let d' := update_dragon_ai d delta s in
  dragon_entity_id d' = dragon_entity_id d
  ∧ dragon_health d' = dragon_health d
  ∧ dragon_active d' = true
  ∧ dragon_patrol_center_x d' = dragon_patrol_center_x d
  ∧ dragon_patrol_center_z d' = dragon_patrol_center_z d
  ∧ (dragon_state d' = dragon_state d
     ∨ (dragon_state d = DRAGON_PATROL ∧ dragon_state d' = DRAGON_FLYING_TO_LAND
        ∧ DRAGON_LAPS_BEFORE_LANDING ≤ dragon_laps_completed d + 1
        ∧ dragon_laps_completed d' = 0)
     ∨ (dragon_state d = DRAGON_FLYING_TO_LAND ∧ dragon_state d' = DRAGON_LANDING)
     ∨ (dragon_state d = DRAGON_LANDING ∧ dragon_state d' = DRAGON_WAIT
        ∧ dragon_pos_x d' = DRAGON_LANDING_SPOT_X
        ∧ dragon_pos_y d' = DRAGON_LANDING_SPOT_Y
        ∧ dragon_pos_z d' = DRAGON_LANDING_SPOT_Z
        ∧ dragon_wait_timer d' = F32.zero)
     ∨ (dragon_state d = DRAGON_WAIT ∧ dragon_state d' = DRAGON_ATTACKING
        ∧ dragon_attack_timer d' = F32.of_Z 2)
     ∨ (dragon_state d = DRAGON_WAIT ∧ dragon_state d' = DRAGON_TAKING_OFF)
     ∨ (dragon_state d = DRAGON_ATTACKING ∧ dragon_state d' = DRAGON_WAIT
        ∧ dragon_wait_timer d' = F32.zero)
     ∨ (dragon_state d = DRAGON_TAKING_OFF ∧ dragon_state d' = DRAGON_PATROL
        ∧ dragon_patrol_angle d' = F32.zero)).
Proof.
  intros Ha Ht d'. subst d'. unfold update_dragon_ai. rewrite Ha, Ht. cbn [negb].
  destruct (Z.eqb_spec (dragon_state d) DRAGON_PATROL) as [E0|E0].
  { unfold dragon_fly, get_dragon_patrol_position. cbv zeta. dragon_fields.
    dragon_cases; dragon_fields; rewrite ?Ha;
      (do 5 (split; [reflexivity|]));
      first [by left | right; left; repeat split; try done;
                       match goal with H : (_ >=? _) = true |- _ => lia end]. }
  destruct (Z.eqb_spec (dragon_state d) DRAGON_FLYING_TO_LAND) as [E1|E1].
  { unfold dragon_fly. cbv zeta. dragon_fields.
    dragon_cases; dragon_fields; rewrite ?Ha;
      (do 5 (split; [reflexivity|]));
      first [by left | by right; right; left]. }
  destruct (Z.eqb_spec (dragon_state d) DRAGON_LANDING) as [E2|E2].
  { unfold dragon_fly. cbv zeta. dragon_fields.
    dragon_cases; dragon_fields; rewrite ?Ha;
      (do 5 (split; [reflexivity|]));
      first [by left | by right; right; right; left]. }
  destruct (Z.eqb_spec (dragon_state d) DRAGON_WAIT) as [E3|E3].
  { cbv zeta. dragon_fields.
    dragon_cases; dragon_fields; rewrite ?Ha;
      (do 5 (split; [reflexivity|]));
      first [by left | by right; right; right; right; left
            | by right; right; right; right; right; left]. }
  destruct (Z.eqb_spec (dragon_state d) DRAGON_ATTACKING) as [E4|E4].
  { cbv zeta. dragon_fields.
    dragon_cases; dragon_fields; rewrite ?Ha;
      (do 5 (split; [reflexivity|]));
      first [by left | by right; right; right; right; right; right; left]. }
  destruct (Z.eqb_spec (dragon_state d) DRAGON_TAKING_OFF) as [E5|E5].
  { cbv zeta. dragon_fields.
    dragon_cases; dragon_fields; rewrite ?Ha;
      (do 5 (split; [reflexivity|]));
      first [by left | by right; right; right; right; right; right; right]. }
  do 2 (split; [reflexivity|]). split; [done|]. do 2 (split; [reflexivity|]). by left.
Qed.

Lemma patroller_follows_its_cycle_witness :
  let s := server_one_player in
  let d := default ServerDragon_zero (dragons s !! 0%nat) in
  let d' := update_dragon_ai (libc := libc_zero) d delta_50ms s in
  dragon_active d = true
  ∧ test_multiplayer s = false
  ∧ dragon_state d = DRAGON_PATROL
  ∧ dragon_health d' = F32.of_Z 500
  ∧ dragon_state d' = DRAGON_PATROL.
Proof.
  intros s d d'.
  assert (H1 : dragon_active d = true) by (vm_compute; reflexivity).
  assert (H2 : test_multiplayer s = false) by (vm_compute; reflexivity).
  split; [exact H1|]. split; [exact H2|]. split; [vm_compute; reflexivity|].
  destruct (patroller_follows_its_cycle (H := libc_zero) d delta_50ms s H1 H2)
    as (_ & Hh & _).
  split; [|vm_compute; reflexivity].
  fold d' in Hh. rewrite Hh. vm_compute. reflexivity.
Defined.

(** ** The chaser's states *)

Ltac bobba_fields :=
  cbn [bobba_entity_id bobba_pos_x bobba_pos_y bobba_pos_z bobba_rot_y bobba_state
       bobba_health bobba_active bobba_target_player_id bobba_roam_dir_x bobba_roam_dir_z
       bobba_roam_timer bobba_attack_timer bobba_attack_start_time bobba_stun_timer
       bobba_has_hit_this_attack
       SetBobba.pos_x SetBobba.pos_y SetBobba.pos_z SetBobba.rot_y SetBobba.state
       SetBobba.health SetBobba.active SetBobba.target_player_id SetBobba.roam_dir_x
       SetBobba.roam_dir_z SetBobba.roam_timer SetBobba.attack_timer
       SetBobba.attack_start_time SetBobba.stun_timer SetBobba.has_hit_this_attack
       fst snd].

Ltac bobba_fields_everywhere :=
  cbn [bobba_entity_id bobba_pos_x bobba_pos_y bobba_pos_z bobba_rot_y bobba_state
       bobba_health bobba_active bobba_target_player_id bobba_roam_dir_x bobba_roam_dir_z
       bobba_roam_timer bobba_attack_timer bobba_attack_start_time bobba_stun_timer
       bobba_has_hit_this_attack
       SetBobba.pos_x SetBobba.pos_y SetBobba.pos_z SetBobba.rot_y SetBobba.state
       SetBobba.health SetBobba.active SetBobba.target_player_id SetBobba.roam_dir_x
       SetBobba.roam_dir_z SetBobba.roam_timer SetBobba.attack_timer
       SetBobba.attack_start_time SetBobba.stun_timer SetBobba.has_hit_this_attack
       fst snd] in *.

Ltac bobba_cases :=
  repeat (match goal with
          | |- context [if ?c then _ else _] => destruct c eqn:?
          | |- context [match ?c with Some _ => _ | None => _ end] =>
            destruct c as [[? ?]|] eqn:?
          | |- context [knockback_direction ?b ?p] =>
            destruct (knockback_direction b p) as [[? ?] ?]
          | |- context [find_nearest_player ?x ?y ?z ?s] =>
            destruct (find_nearest_player x y z s) as [[[? ?]|] ?] eqn:?
          end; cbv beta iota zeta).

(** The chaser AI outside the attack: whatever it does, it sends
    nothing. *)
Lemma update_bobba_ai_quiet `{LibC} b delta s :
  bobba_state b ≠ BOBBA_ATTACKING ∨ (bobba_stun_timer b >? F32.of_Z 0)%f32 = true →
  wire (update_bobba_ai b delta s).2 = wire s
  ∧ state_sequence (update_bobba_ai b delta s).2 = state_sequence s.
Proof.
  intros Hq. unfold update_bobba_ai.
  destruct (negb (bobba_active b)); [done|].
  destruct (test_multiplayer s); [done|].
  destruct (bobba_stun_timer b >? F32.of_Z 0)%f32 eqn:Es; [done|].
  destruct (Z.eqb_spec (bobba_state b) BOBBA_ATTACKING) as [E|E].
  { by destruct Hq. }
  destruct (bobba_acquire_target b s) as [[[b1 s1] t] d] eqn:Ea.
  destruct (bobba_state_machine b1 delta s1 t d) as [b2 s2] eqn:Em. cbn [snd].
  apply bobba_acquire_target_rand_only in Ea as [n ->].
  by apply bobba_state_machine_rand_only in Em as [m ->].
Qed.

Lemma bobba_attack_result `{LibC} b delta s :
  ∃ flag,
    (bobba_attack b delta s).1
    = (if (bobba_attack_timer b - delta <=? F32.of_Z 0)%f32
       then SetBobba.state BOBBA_CHASING else λ b, b)
        (SetBobba.has_hit_this_attack flag
           (SetBobba.attack_timer (bobba_attack_timer b - delta)%f32 b)).
Proof.
  unfold bobba_attack. cbv zeta.
  match goal with |- context [if ?c then _ else (_, s)] => destruct c end.
  2: { exists (bobba_has_hit_this_attack b). destruct b. bobba_fields.
       by destruct (_ <=? _)%f32. }
  destruct (find_player_by_id s _) as [[i p]|].
  2: { exists (bobba_has_hit_this_attack b). destruct b. bobba_fields.
       by destruct (_ <=? _)%f32. }
  destruct (pl_active p).
  2: { exists (bobba_has_hit_this_attack b). destruct b. bobba_fields.
       by destruct (_ <=? _)%f32. }
  match goal with |- context [if ?c then _ else (_, s)] => destruct c end.
  2: { exists (bobba_has_hit_this_attack b). destruct b. bobba_fields.
       by destruct (_ <=? _)%f32. }
  destruct (knockback_direction _ p) as [[dx dy] dz]. cbv beta iota zeta.
  exists true. bobba_fields. by destruct (_ <=? _)%f32.
Qed.

(** What the search for a target leaves alone, and the states it can
    set. *)
Lemma bobba_acquire_target_keeps `{LibC} b s b1 s1 t d :
  bobba_acquire_target b s = (b1, s1, t, d) →
  bobba_entity_id b1 = bobba_entity_id b
  ∧ bobba_health b1 = bobba_health b
  ∧ bobba_active b1 = bobba_active b
  ∧ (bobba_state b1 = bobba_state b
     ∨ bobba_state b1 = BOBBA_ROAMING
     ∨ bobba_state b1 = BOBBA_CHASING).
Proof.
  unfold bobba_acquire_target, bobba_pick_roam_direction, random_angle, rand. cbv zeta.
  bobba_cases; bobba_fields_everywhere; intros ?; simplify_eq; bobba_fields; auto 6.
Qed.

(** The states the state machine can set, and what an attack starts
    with. *)
Lemma bobba_state_machine_keeps `{LibC} b1 delta s1 t d b2 s2 :
  bobba_state_machine b1 delta s1 t d = (b2, s2) →
  bobba_entity_id b2 = bobba_entity_id b1
  ∧ bobba_health b2 = bobba_health b1
  ∧ bobba_active b2 = bobba_active b1
  ∧ bobba_target_player_id b2 = bobba_target_player_id b1
  ∧ (bobba_state b2 = bobba_state b1
     ∨ bobba_state b2 = BOBBA_ROAMING
     ∨ (bobba_state b1 = BOBBA_CHASING
        ∧ bobba_state b2 = BOBBA_ATTACKING
        ∧ bobba_attack_timer b2 = BOBBA_ATTACK_DURATION
        ∧ bobba_attack_start_time b2 = BOBBA_ATTACK_DURATION
        ∧ bobba_has_hit_this_attack b2 = false
        ∧ bobba_pos_x b2 = bobba_pos_x b1 ∧ bobba_pos_z b2 = bobba_pos_z b1)).
Proof.
  unfold bobba_state_machine, bobba_pick_roam_direction, random_angle, rand. cbv zeta.
  destruct (Z.eqb_spec (bobba_state b1) BOBBA_ROAMING) as [E0|E0].
  { bobba_cases; bobba_fields_everywhere; intros ?; simplify_eq; bobba_fields; auto 6. }
  destruct (Z.eqb_spec (bobba_state b1) BOBBA_CHASING) as [E1|E1].
  { destruct t as [target|]; bobba_cases; bobba_fields_everywhere;
      intros ?; simplify_eq; bobba_fields; repeat split; auto 10. }
  intros ?; simplify_eq. auto 6.
Qed.

(** X18.  The AI of an active chaser, outside the test mode, never
    changes its identifier, health or active flag, and never puts it in
    the idle or the stunned state.  While the stun timer is positive it
    only counts the timer down: position and target are kept, nothing is
    sent, and the state changes only when the timer reaches zero, to
    chasing with a target and to roaming without.  Otherwise, a chaser
    that is not attacking sends nothing, and if the update takes it into
    the attacking state it does so with attack timer and attack start
    time 1.5 and the hit flag clear; a chaser that is attacking keeps its
    position and target, has its attack timer decremented and either goes
    on attacking or, once the timer is zero or below, returns to
    chasing. *)
Theorem chaser_ai_transitions `{LibC} (b : ServerBobba) (delta : float) (s : Server) :
  bobba_active b = true →
  test_multiplayer s = false →
  let b' := (update_bobba_ai b delta s).1 in
  let s' := (update_bobba_ai b delta s).2 in
  let stunned := (bobba_stun_timer b >? F32.of_Z 0)%f32 in
  bobba_entity_id b' = bobba_entity_id b
  ∧ bobba_health b' = bobba_health b
  ∧ bobba_active b' = true
  ∧ (bobba_state b' = bobba_state b
     ∨ bobba_state b' = BOBBA_ROAMING
     ∨ bobba_state b' = BOBBA_CHASING
     ∨ bobba_state b' = BOBBA_ATTACKING)
  ∧ (stunned = true →
       s' = s
       ∧ bobba_pos_x b' = bobba_pos_x b ∧ bobba_pos_z b' = bobba_pos_z b
       ∧ bobba_target_player_id b' = bobba_target_player_id b
       ∧ bobba_stun_timer b' = (bobba_stun_timer b - delta)%f32
       ∧ bobba_state b'
         = if (bobba_stun_timer b - delta <=? F32.of_Z 0)%f32
           then (if bobba_target_player_id b =? 0 then BOBBA_ROAMING else BOBBA_CHASING)
           else bobba_state b)
  ∧ (stunned = false → bobba_state b ≠ BOBBA_ATTACKING →
       wire s' = wire s
       ∧ (bobba_state b' = BOBBA_ATTACKING →
            bobba_attack_timer b' = BOBBA_ATTACK_DURATION
            ∧ bobba_attack_start_time b' = BOBBA_ATTACK_DURATION
            ∧ bobba_has_hit_this_attack b' = false))
  ∧ (stunned = false → bobba_state b = BOBBA_ATTACKING →
       bobba_pos_x b' = bobba_pos_x b ∧ bobba_pos_z b' = bobba_pos_z b
       ∧ bobba_target_player_id b' = bobba_target_player_id b
       ∧ bobba_attack_timer b' = (bobba_attack_timer b - delta)%f32
       ∧ bobba_state b'
         = if (bobba_attack_timer b - delta <=? F32.of_Z 0)%f32
           then BOBBA_CHASING else BOBBA_ATTACKING).
Proof.
  intros Ha Ht b' s' stunned.
  pose proof (update_bobba_ai_quiet b delta s) as Hquiet.
  subst b' s' stunned. revert Hquiet.
  unfold update_bobba_ai. rewrite Ha, Ht. cbn [negb].
  destruct (bobba_stun_timer b >? F32.of_Z 0)%f32 eqn:Es.
  { intros _. bobba_fields.
    destruct (bobba_stun_timer b - delta <=? F32.of_Z 0)%f32 eqn:E1; bobba_fields.
    - destruct (Z.eqb_spec (bobba_target_player_id b) 0) as [E2|E2]; cbn [negb];
        (do 2 (split; [reflexivity|])); (split; [done|]);
        (split; [auto|]); (split; [done|]); split; intros [=].
    - do 2 (split; [reflexivity|]). split; [done|]. split; [by left|].
      split; [done|]. split; intros [=]. }
  destruct (Z.eqb_spec (bobba_state b) BOBBA_ATTACKING) as [E|E].
  { intros _. destruct (bobba_attack_result b delta s) as [flag ->].
    destruct (bobba_attack_timer b - delta <=? F32.of_Z 0)%f32; bobba_fields;
      rewrite ?E; (do 2 (split; [reflexivity|])); (split; [done|]);
      (split; [auto|]); (split; [intros [=]|]);
      (split; [intros _ Hn; by destruct Hn|]); intros _ _; by repeat split. }
  intros Hquiet. destruct Hquiet as [Hw _]; [by left|]. revert Hw.
  destruct (bobba_acquire_target b s) as [[[b1 s1] t] d] eqn:Ea.
  destruct (bobba_state_machine b1 delta s1 t d) as [b2 s2] eqn:Em. cbn [fst snd].
  intros Hw.
  destruct (bobba_acquire_target_keeps _ _ _ _ _ _ Ea) as (A1 & A2 & A3 & A4).
  destruct (bobba_state_machine_keeps _ _ _ _ _ _ _ Em) as (B1 & B2 & B3 & _ & B5).
  split; [congruence|]. split; [congruence|]. split; [congruence|].
  split.
  { destruct B5 as [B5|[B5|(_ & B5 & _)]]; [|auto|auto].
    rewrite B5. destruct A4 as [A4|[A4|A4]]; auto. }
  split; [intros [=]|]. split; [|intros _ Hn; by destruct E].
  intros _ _. split; [exact Hw|]. intros Hat.
  destruct B5 as [B5|[B5|(_ & _ & B6 & B7 & B8 & _)]]; [| |done].
  - exfalso. rewrite B5 in Hat. destruct A4 as [A4|[A4|A4]]; [congruence| |];
      rewrite A4 in Hat; discriminate.
  - exfalso. rewrite B5 in Hat. discriminate.
Qed.

Lemma chaser_ai_transitions_witness :
  let s := server_attack_begins in
  let b := default ServerBobba_zero (bobbas s !! 0%nat) in
  let b' := (update_bobba_ai (libc := libc_zero) b delta_50ms s).1 in
  bobba_active b = true
  ∧ test_multiplayer s = false
  ∧ bobba_state b = BOBBA_ATTACKING
  ∧ bobba_health b' = F32.of_Z 100
  ∧ bobba_state b' = BOBBA_ATTACKING.
Proof.
  intros s b b'.
  assert (H1 : bobba_active b = true) by (vm_compute; reflexivity).
  assert (H2 : test_multiplayer s = false) by (vm_compute; reflexivity).
  split; [exact H1|]. split; [exact H2|]. split; [vm_compute; reflexivity|].
  destruct (chaser_ai_transitions (H := libc_zero) b delta_50ms s H1 H2) as (_ & Hh & _).
  split; [|vm_compute; reflexivity].
  fold b' in Hh. rewrite Hh. vm_compute. reflexivity.
Defined.

(** * The loop's clock *)

(** X19.  The elapsed milliseconds the loop computes from two readings of
    the monotonic clock differ from the true difference by less than one
    millisecond: they are rounded down when the nanosecond field did not
    decrease, and rounded up when it did, so a periodic action can fire
    up to one millisecond early. *)
Theorem elapsed_ms_is_within_a_millisecond (now last : timespec) :
  0 ≤ tv_nsec now < 1000000000 →
  0 ≤ tv_nsec last < 1000000000 →
  let ns t := tv_sec t * 1000000000 + tv_nsec t in
  let diff := ns now - ns last in
  diff - 1000000 < elapsed_ms now last * 1000000 < diff + 1000000
  ∧ (tv_nsec last ≤ tv_nsec now → elapsed_ms now last * 1000000 ≤ diff)
  ∧ (tv_nsec now < tv_nsec last → diff ≤ elapsed_ms now last * 1000000).
Proof.
  intros Hn Hl ns diff. subst ns diff. unfold elapsed_ms. cbv beta.
  set (d := tv_nsec now - tv_nsec last).
  pose proof (Z.quot_rem' d 1000000) as Hqr.
  destruct (Z.le_gt_cases 0 d) as [Hd|Hd].
  - pose proof (Z.rem_bound_pos d 1000000 Hd ltac:(lia)) as Hr. subst d. lia.
  - pose proof (Z.rem_bound_pos_neg d 1000000 ltac:(lia) ltac:(lia)) as Hr. subst d. lia.
Qed.

Lemma elapsed_ms_is_within_a_millisecond_witness :
  let now := {| tv_sec := 1; tv_nsec := 0 |} in
  let last := {| tv_sec := 0; tv_nsec := 950500000 |} in
  0 ≤ tv_nsec now < 1000000000
  ∧ 0 ≤ tv_nsec last < 1000000000
  ∧ elapsed_ms now last = 50
  ∧ 49500000 ≤ elapsed_ms now last * 1000000.
Proof.
  intros now last.
  assert (H1 : 0 ≤ tv_nsec now < 1000000000) by (cbn; lia).
  assert (H2 : 0 ≤ tv_nsec last < 1000000000) by (cbn; lia).
  split; [exact H1|]. split; [exact H2|]. split; [reflexivity|].
  destruct (elapsed_ms_is_within_a_millisecond now last H1 H2) as (_ & _ & Hup).
  apply Hup. cbn. lia.
Defined.

(** * Handlers in sequence *)

Lemma filter_insert_inactive (l : list Player) (i : nat) (x y : Player) :
  l !! i = Some x → pl_active x = false → pl_active y = false →
  filter (λ p, pl_active p = true) (<[i := y]> l) = filter (λ p, pl_active p = true) l.
Proof.
  intros Hi Hx Hy.
  rewrite <- (take_drop_middle l i x Hi) at 2.
  rewrite insert_take_drop by (by eapply lookup_lt_Some).
  rewrite !filter_app, !filter_cons.
  rewrite decide_False by congruence. by rewrite decide_False by congruence.
Qed.

(** The session a join creates. *)
Lemma dispatch_join_fresh `{LibC} s buffer client_addr now slot :
  hdr_type (as_PacketHeader buffer) = PKT_JOIN →
  sizeof_JoinPacket ≤ Z.of_nat (length buffer) →
  find_player_by_addr s client_addr = None →
  find_free_slot s = Some slot →
  ∃ player,
    players (dispatch buffer client_addr now s) = <[slot := player]> (players s)
    ∧ pl_player_id player = next_player_id s
    ∧ pl_addr player = client_addr
    ∧ pl_active player = true
    ∧ next_player_id (dispatch buffer client_addr now s) = u32 (next_player_id s + 1).
Proof.
  intros Ht Hlen Hfind Hfree.
  rewrite dispatch_join by done. unfold handle_join. cbv zeta.
  rewrite find_player_by_addr_promote_spectator, Hfind,
    find_free_slot_promote_spectator, Hfree.
  destruct (generate_spawn_position _) as [[[x y] z] s1] eqn:Eg.
  apply generate_spawn_position_rand_only in Eg as [n ->].
  rewrite broadcast_world_state_eq. fields.
  rewrite players_promote_spectator, !next_player_id_promote_spectator.
  eexists. split; [reflexivity|]. done.
Qed.

(** X20.  A join followed by a leave naming the identifier the join was
    given, from whatever endpoint, gives the slot back: the endpoint has
    no session any more, the slot is again the first free one, the other
    slots and the set of session endpoints are as before the join.  The
    identifier is not given back: the next join gets a new one. *)
Theorem join_then_leave_frees_the_slot `{LibC} (s : Server)
    (join leave : list Byte.byte) (client_addr leaver_addr : sockaddr_in)
    (now now' : Z) (slot : nat) :
  hdr_type (as_PacketHeader join) = PKT_JOIN →
  sizeof_JoinPacket ≤ Z.of_nat (length join) →
  find_player_by_addr s client_addr = None →
  find_free_slot s = Some slot →
  find_player_by_id s (next_player_id s) = None →
  hdr_type (as_PacketHeader leave) = PKT_LEAVE →
  sizeof_PacketHeader ≤ Z.of_nat (length leave) →
  hdr_player_id (as_PacketHeader leave) = next_player_id s →
  let s1 := dispatch join client_addr now s in
  let s2 := dispatch leave leaver_addr now' s1 in
  find_player_by_addr s2 client_addr = None
  ∧ find_free_slot s2 = Some slot
  ∧ (pl_active <$> players s2 !! slot) = Some false
  ∧ (∀ j, j ≠ slot → players s2 !! j = players s !! j)
  ∧ player_addrs s2 = player_addrs s
  ∧ next_player_id s2 = u32 (next_player_id s + 1).
Proof.
  intros Htj Hlj Hfind Hfree Hid Htl Hll Hlid s1 s2.
  destruct (dispatch_join_fresh s join client_addr now slot Htj Hlj Hfind Hfree)
    as (player & Hp1 & Hpid & Hpaddr & Hpact & Hn1). fold s1 in Hp1, Hn1.
  unfold find_free_slot in Hfree.
  destruct (list_find _ (players s)) as [[k q]|] eqn:Efree; [|done].
  injection Hfree as ->.
  apply list_find_Some in Efree as (Hslot & Hq & Hfirst).
  assert (Hlt : (slot < length (players s))%nat) by (by eapply lookup_lt_Some).
  assert (Hfound : find_player_by_id s1 (next_player_id s) = Some (slot, player)).
  { unfold find_player_by_id. rewrite Hp1. apply list_find_Some.
    split; [by apply list_lookup_insert_eq|]. split; [done|].
    intros j p Hj Hjs Hbad. rewrite list_lookup_insert_ne in Hj by lia.
    unfold find_player_by_id in Hid. eapply (proj1 (list_find_None _ _)) in Hid.
    eapply (proj1 (Forall_forall _ _) Hid); [by eapply list_elem_of_lookup_2|done]. }
  assert (Hp2 : players s2 = <[slot := SetPlayer.active false player]> (players s)
                ∧ next_player_id s2 = next_player_id s1).
  { subst s2. rewrite dispatch_leave by done. unfold handle_leave.
    rewrite Hlid, Hfound, broadcast_world_state_eq. fields.
    by rewrite Hp1, list_insert_insert_eq. }
  destruct Hp2 as [Hp2 Hn2].
  split.
  { unfold find_player_by_addr. rewrite Hp2. apply list_find_None, Forall_forall.
    intros p Hp [Hact Hsame]. apply list_elem_of_lookup in Hp as [j Hj].
    destruct (decide (j = slot)) as [->|Hne].
    - rewrite list_lookup_insert_eq in Hj by done. by simplify_eq.
    - rewrite list_lookup_insert_ne in Hj by done.
      unfold find_player_by_addr in Hfind. eapply (proj1 (list_find_None _ _)) in Hfind.
      eapply (proj1 (Forall_forall _ _) Hfind); [by eapply list_elem_of_lookup_2|done]. }
  split.
  { unfold find_free_slot. rewrite Hp2.
    assert (Hff : list_find (λ p, pl_active p = false)
                    (<[slot := SetPlayer.active false player]> (players s))
                  = Some (slot, SetPlayer.active false player)).
    { apply list_find_Some. split; [by apply list_lookup_insert_eq|]. split; [done|].
      intros j p Hj Hjs. rewrite list_lookup_insert_ne in Hj by lia. by eapply Hfirst. }
    by rewrite Hff. }
  split; [by rewrite Hp2, list_lookup_insert_eq|].
  split; [by intros j Hj; rewrite Hp2, list_lookup_insert_ne|].
  split; [|congruence].
  unfold player_addrs. rewrite Hp2. by erewrite filter_insert_inactive.
Qed.

Lemma join_then_leave_frees_the_slot_witness :
  let s := server_one_player in
  let join := client_join 2 in
  let leave := client_leave 3 2 in
  let s2 := dispatch (libc := libc_zero) leave endpoint_A 1002
              (dispatch (libc := libc_zero) join endpoint_B 1001 s) in
  hdr_type (as_PacketHeader join) = PKT_JOIN
  ∧ sizeof_JoinPacket ≤ Z.of_nat (length join)
  ∧ find_player_by_addr s endpoint_B = None
  ∧ find_free_slot s = Some 1%nat
  ∧ find_player_by_id s (next_player_id s) = None
  ∧ hdr_type (as_PacketHeader leave) = PKT_LEAVE
  ∧ sizeof_PacketHeader ≤ Z.of_nat (length leave)
  ∧ hdr_player_id (as_PacketHeader leave) = next_player_id s
  ∧ find_free_slot s2 = Some 1%nat
  ∧ next_player_id s2 = 3.
Proof.
  intros s join leave s2.
  assert (H1 : hdr_type (as_PacketHeader join) = PKT_JOIN) by reflexivity.
  assert (H2 : sizeof_JoinPacket ≤ Z.of_nat (length join)) by (vm_compute; discriminate).
  assert (H3 : find_player_by_addr s endpoint_B = None) by (vm_compute; reflexivity).
  assert (H4 : find_free_slot s = Some 1%nat) by (vm_compute; reflexivity).
  assert (H5 : find_player_by_id s (next_player_id s) = None) by (vm_compute; reflexivity).
  assert (H6 : hdr_type (as_PacketHeader leave) = PKT_LEAVE) by reflexivity.
  assert (H7 : sizeof_PacketHeader ≤ Z.of_nat (length leave)) by (vm_compute; discriminate).
  assert (H8 : hdr_player_id (as_PacketHeader leave) = next_player_id s)
    by (vm_compute; reflexivity).
  split; [exact H1|]. split; [exact H2|]. split; [exact H3|]. split; [exact H4|].
  split; [exact H5|]. split; [exact H6|]. split; [exact H7|]. split; [exact H8|].
  destruct (join_then_leave_frees_the_slot (H := libc_zero) s join leave endpoint_B
              endpoint_A 1001 1002 1%nat H1 H2 H3 H4 H5 H6 H7 H8)
    as (_ & Hf & _ & _ & _ & Hn).
  split; [exact Hf|]. unfold s2. rewrite Hn. vm_compute. reflexivity.
Defined.

(** X21.  What a session sends is what the others get: after an update
    from the bound endpoint of the session in slot [i], the next
    world-state packet lists, at the rank of that session among the
    active ones, the record the update carried with its identifier field
    set to the session's identifier. *)
Theorem stored_update_reaches_the_world_state `{LibC} (s : Server)
    (buffer : list Byte.byte) (client_addr : sockaddr_in) (now : Z)
    (i : nat) (player : Player) :
  hdr_type (as_PacketHeader buffer) = PKT_UPDATE →
  sizeof_UpdatePacket ≤ Z.of_nat (length buffer) →
  find_player_by_id s (hdr_player_id (as_PacketHeader buffer)) = Some (i, player) →
  same_endpoint (pl_addr player) client_addr →
  (length (players s) ≤ Z.to_nat MAX_PLAYERS)%nat →
  let s' := dispatch buffer client_addr now s in
  let pkt := world_state_packet (bump_state_sequence s') in
  let rank := length (filter (λ p, pl_active p = true) (take i (players s))) in
  ws_players pkt !! rank
  = Some (SetPD.player_id (pl_player_id player) (get_PlayerData buffer 9))
  ∧ Z.of_nat rank < ws_player_count pkt
  ∧ ws_player_count pkt = count_active_players s.
Proof.
  intros Ht Hlen Hfind Hsame Hmax s' pkt rank.
  pose proof Hfind as Hf. unfold find_player_by_id in Hf.
  apply list_find_Some in Hf as (Hi & [Hact Hid] & _).
  assert (Hlt : (i < length (players s))%nat) by (by eapply lookup_lt_Some).
  set (stored := SetPlayer.last_seen now
                   (SetPlayer.data
                      (SetPD.player_id (pl_player_id player) (get_PlayerData buffer 9))
                      player)).
  assert (Hs' : players s' = <[i := stored]> (players s)).
  { subst s'. rewrite dispatch_update by done.
    destruct (Z.of_nat (length buffer) >=? sizeof_UpdatePacket) eqn:E; [|lia].
    unfold handle_update. rewrite dispatch_as_update, Hfind.
    destruct Hsame as [Ha Hp]. rewrite decide_False by (intros [?|?]; done).
    reflexivity. }
  assert (Hfilter : filter (λ p, pl_active p = true) (players s')
                    = filter (λ p, pl_active p = true) (take i (players s))
                      ++ stored :: filter (λ p, pl_active p = true)
                                     (drop (S i) (players s))).
  { rewrite Hs', insert_take_drop by done. rewrite filter_app, filter_cons.
    by rewrite decide_True by done. }
  assert (Hcount : length (filter (λ p, pl_active p = true) (players s'))
                   = length (filter (λ p, pl_active p = true) (players s))).
  { rewrite Hfilter. rewrite <- (take_drop_middle (players s) i player Hi) at 3.
    rewrite filter_app, filter_cons, decide_True by done.
    by rewrite !length_app, !length_cons. }
  assert (Hle : (length (filter (λ p, pl_active p = true) (players s')) ≤ 32)%nat).
  { rewrite Hcount. etrans; [apply length_filter|]. exact Hmax. }
  assert (Hrank : (rank < length (filter (λ p, pl_active p = true) (players s')))%nat).
  { rewrite Hfilter, length_app, length_cons. subst rank. lia. }
  subst pkt. unfold world_state_packet, world_records. cbv zeta. fields.
  cbn [ws_players ws_player_count].
  rewrite take_ge by (rewrite length_fmap; exact Hle).
  rewrite length_fmap. split; [|split].
  - rewrite lookup_app_l by (by rewrite length_fmap).
    rewrite list_lookup_fmap, Hfilter.
    rewrite lookup_app_r by (subst rank; lia).
    replace (rank - _)%nat with 0%nat by (subst rank; lia). reflexivity.
  - unfold u8. rewrite Z.mod_small by lia. lia.
  - unfold u8, count_active_players. rewrite Z.mod_small by lia. by rewrite Hcount.
Qed.

Lemma stored_update_reaches_the_world_state_witness :
  let s := server_two_players in
  let buffer := client_update 5 2 1084227584 0 1087373312 in
  let player := default Player_zero (players s !! 1%nat) in
  let s' := dispatch (libc := libc_zero) buffer endpoint_B 1001 s in
  hdr_type (as_PacketHeader buffer) = PKT_UPDATE
  ∧ sizeof_UpdatePacket ≤ Z.of_nat (length buffer)
  ∧ find_player_by_id s (hdr_player_id (as_PacketHeader buffer)) = Some (1%nat, player)
  ∧ same_endpoint (pl_addr player) endpoint_B
  ∧ (length (players s) ≤ Z.to_nat MAX_PLAYERS)%nat
  ∧ (pd_pos_z <$> ws_players (world_state_packet (bump_state_sequence s')) !! 1%nat)
    = Some (F32.lit 13 2).
Proof.
  intros s buffer player s'.
  assert (H1 : hdr_type (as_PacketHeader buffer) = PKT_UPDATE) by reflexivity.
  assert (H2 : sizeof_UpdatePacket ≤ Z.of_nat (length buffer)) by (vm_compute; discriminate).
  assert (H3 : find_player_by_id s (hdr_player_id (as_PacketHeader buffer))
               = Some (1%nat, player)) by (vm_compute; reflexivity).
  assert (H4 : same_endpoint (pl_addr player) endpoint_B) by (split; reflexivity).
  assert (H5 : (length (players s) ≤ Z.to_nat MAX_PLAYERS)%nat) by (vm_compute; lia).
  split; [exact H1|]. split; [exact H2|]. split; [exact H3|]. split; [exact H4|].
  split; [exact H5|].
  destruct (stored_update_reaches_the_world_state (H := libc_zero) s buffer endpoint_B 1001
              1%nat player H1 H2 H3 H4 H5) as (Hl & _).
  change (length (filter (λ p, pl_active p = true) (take 1 (players s)))) with 1%nat in Hl.
  fold s' in Hl. rewrite Hl. vm_compute. reflexivity.
Defined.

(** * The chaser and its target *)

(** X22.  A chaser whose target session is gone, because it left or was
    reaped, behaves in its next update exactly as a chaser without
    target: it forgets the identifier and searches for the nearest active
    session again. *)
Theorem chaser_forgets_a_vanished_target `{LibC} (b : ServerBobba) (delta : float)
    (s : Server) :
  bobba_active b = true →
  test_multiplayer s = false →
  (bobba_stun_timer b >? F32.of_Z 0)%f32 = false →
  bobba_state b ≠ BOBBA_ATTACKING →
  find_player_by_id s (bobba_target_player_id b) = None →
  update_bobba_ai b delta s = update_bobba_ai (SetBobba.target_player_id 0 b) delta s.
Proof.
  intros Ha Ht Hs Hst Hgone. unfold update_bobba_ai. bobba_fields.
  rewrite Ha, Ht, Hs. cbn [negb].
  apply Z.eqb_neq in Hst. rewrite Hst.
  unfold bobba_acquire_target. bobba_fields. rewrite Hgone.
  destruct (Z.eqb_spec (bobba_target_player_id b) 0) as [E|E]; cbn [negb Z.eqb].
  - replace (SetBobba.target_player_id 0 b) with b; [done|].
    destruct b. cbn in E. by subst.
  - cbv beta iota zeta. bobba_fields. reflexivity.
Qed.

Lemma chaser_forgets_a_vanished_target_witness :
  let s := dispatch (libc := libc_zero) (client_leave 9 1) endpoint_B 1002
             server_after_bite in
  let b := default ServerBobba_zero
             (bobbas (server (run_loop (libc := libc_zero) (bite_inputs 32)
                                loop_one_player)) !! 0%nat) in
  bobba_active b = true
  ∧ test_multiplayer s = false
  ∧ (bobba_stun_timer b >? F32.of_Z 0)%f32 = false
  ∧ bobba_state b = BOBBA_CHASING
  ∧ bobba_target_player_id b = 1
  ∧ find_player_by_id s (bobba_target_player_id b) = None
  ∧ bobba_target_player_id (update_bobba_ai (libc := libc_zero) b delta_50ms s).1 = 0
  ∧ bobba_state (update_bobba_ai (libc := libc_zero) b delta_50ms s).1 = BOBBA_ROAMING.
Proof.
  intros s b.
  assert (Ha : bobba_active b = true) by (vm_compute; reflexivity).
  assert (Ht : test_multiplayer s = false) by (vm_compute; reflexivity).
  assert (H1 : (bobba_stun_timer b >? F32.of_Z 0)%f32 = false) by (vm_compute; reflexivity).
  assert (H2 : bobba_state b = BOBBA_CHASING) by (vm_compute; reflexivity).
  assert (H3 : find_player_by_id s (bobba_target_player_id b) = None)
    by (vm_compute; reflexivity).
  split; [exact Ha|]. split; [exact Ht|].
  split; [exact H1|]. split; [exact H2|]. split; [vm_compute; reflexivity|].
  split; [exact H3|].
  rewrite (chaser_forgets_a_vanished_target (H := libc_zero) b delta_50ms s Ha Ht H1
             ltac:(rewrite H2; discriminate) H3).
  split; vm_compute; reflexivity.
Defined.

(** X23.  An active chaser without target that is neither stunned nor
    attacking binds the session [find_nearest_player] returns when its
    distance is at most the detection radius 10, and sends nothing.  If
    that distance is at most the attack distance 2 it starts an attack in
    the same update, without moving; otherwise it is chasing and, when
    the horizontal offset to the session is longer than 0.1, steps along
    it by the chase speed 5 times the elapsed time and turns to face the
    session.  When no session is returned or the nearest is farther than
    10, it stays without target. *)
Theorem chaser_acquires_the_nearest_session `{LibC} (b : ServerBobba) (delta : float)
    (s : Server) :
  bobba_active b = true →
  test_multiplayer s = false →
  (bobba_stun_timer b >? F32.of_Z 0)%f32 = false →
  bobba_state b ≠ BOBBA_ATTACKING →
  bobba_target_player_id b = 0 →
  let b' := (update_bobba_ai b delta s).1 in
  match find_nearest_player (bobba_pos_x b) (bobba_pos_y b) (bobba_pos_z b) s with
  | (Some (i, p), d) =>
    if (d <=? BOBBA_DETECTION_RADIUS)%f32 then
      bobba_target_player_id b' = pl_player_id p
      ∧ (update_bobba_ai b delta s).2 = s
      ∧ if (d <=? BOBBA_ATTACK_DISTANCE)%f32 then
          bobba_state b' = BOBBA_ATTACKING
          ∧ bobba_pos_x b' = bobba_pos_x b ∧ bobba_pos_z b' = bobba_pos_z b
        else
          let dx := (pd_pos_x (pl_data p) - bobba_pos_x b)%f32 in
          let dz := (pd_pos_z (pl_data p) - bobba_pos_z b)%f32 in
          let len := sqrt (dx * dx + dz * dz)%f32 in
          bobba_state b' = BOBBA_CHASING
          ∧ if (len >? F32.lit 1 10)%f32 then
              bobba_pos_x b' = (bobba_pos_x b + dx / len * BOBBA_CHASE_SPEED * delta)%f32
              ∧ bobba_pos_z b' = (bobba_pos_z b + dz / len * BOBBA_CHASE_SPEED * delta)%f32
              ∧ bobba_rot_y b' = atan2f_of (dx / len)%f32 (dz / len)%f32
            else
              bobba_pos_x b' = bobba_pos_x b ∧ bobba_pos_z b' = bobba_pos_z b
    else bobba_target_player_id b' = 0
  | (None, d) => bobba_target_player_id b' = 0
  end.
Proof.
  intros Ha Ht Hs Hst Htarget b'. subst b'.
  unfold update_bobba_ai. rewrite Ha, Ht, Hs. cbn [negb].
  apply Z.eqb_neq in Hst. rewrite Hst.
  unfold bobba_acquire_target. rewrite Htarget. cbn [negb Z.eqb]. cbv beta iota zeta.
  rewrite Htarget. cbn [Z.eqb].
  destruct (find_nearest_player _ _ _ s) as [[[i p]|] d].
  - destruct (d <=? BOBBA_DETECTION_RADIUS)%f32 eqn:Ed.
    + unfold bobba_state_machine. bobba_fields.
      change (BOBBA_CHASING =? BOBBA_ROAMING) with false.
      change (BOBBA_CHASING =? BOBBA_CHASING) with true. cbv beta iota.
      destruct (d <=? BOBBA_ATTACK_DISTANCE)%f32 eqn:Eatt.
      * bobba_fields. by repeat split.
      * cbv zeta. bobba_fields.
        match goal with |- context [if ?c then _ else _] => destruct c eqn:El end;
          bobba_fields; by repeat split.
    + pose proof (bobba_state_machine_keeps b delta s None d) as Hk.
      destruct (bobba_state_machine b delta s None d) as [b2 s2]. cbn [fst].
      destruct (Hk b2 s2 eq_refl) as (_ & _ & _ & -> & _). exact Htarget.
  - pose proof (bobba_state_machine_keeps b delta s None d) as Hk.
    destruct (bobba_state_machine b delta s None d) as [b2 s2]. cbn [fst].
    destruct (Hk b2 s2 eq_refl) as (_ & _ & _ & -> & _). exact Htarget.
Qed.

Lemma chaser_acquires_the_nearest_session_witness :
  let s := server (run_loop (libc := libc_zero) (bite_inputs 0) loop_one_player) in
  let b := default ServerBobba_zero (bobbas s !! 0%nat) in
  let b' := (update_bobba_ai (libc := libc_zero) b delta_50ms s).1 in
  bobba_active b = true
  ∧ test_multiplayer s = false
  ∧ (bobba_stun_timer b >? F32.of_Z 0)%f32 = false
  ∧ bobba_state b ≠ BOBBA_ATTACKING
  ∧ bobba_target_player_id b = 0
  ∧ bobba_target_player_id b' = 1
  ∧ bobba_state b' = BOBBA_ATTACKING.
Proof.
  intros s b b'.
  assert (H1 : bobba_active b = true) by (vm_compute; reflexivity).
  assert (H2 : test_multiplayer s = false) by (vm_compute; reflexivity).
  assert (H3 : (bobba_stun_timer b >? F32.of_Z 0)%f32 = false) by (vm_compute; reflexivity).
  assert (H4 : bobba_state b ≠ BOBBA_ATTACKING) by (vm_compute; discriminate).
  assert (H5 : bobba_target_player_id b = 0) by (vm_compute; reflexivity).
  split; [exact H1|]. split; [exact H2|]. split; [exact H3|]. split; [exact H4|].
  split; [exact H5|].
  pose proof (chaser_acquires_the_nearest_session (H := libc_zero) b delta_50ms s
                H1 H2 H3 H4 H5) as Hthm.
  assert (Hn : find_nearest_player (bobba_pos_x b) (bobba_pos_y b) (bobba_pos_z b) s
               = (Some (0%nat, default Player_zero (players s !! 0%nat)), F32.lit 3 2))
    by (vm_compute; reflexivity).
  rewrite Hn in Hthm.
  change (F32.lit 3 2 <=? BOBBA_DETECTION_RADIUS)%f32 with true in Hthm.
  change (F32.lit 3 2 <=? BOBBA_ATTACK_DISTANCE)%f32 with true in Hthm.
  destruct Hthm as (Ht & _ & Hst & _).
  split; [|exact Hst]. fold b' in Ht. rewrite Ht. vm_compute. reflexivity.
Defined.

(** * The reaper in the loop *)

(** X24.  In an iteration that receives nothing, the session table
    changes only through the reaper, which runs when at least 1000 ms
    have passed since its last run: an active session whose last-seen
    second is more than 10 behind the wall clock is then deactivated,
    every other slot is kept as it is (a session exactly 10 seconds old
    survives), and the reaper's timer is reset; when less than 1000 ms
    have passed the table is unchanged.  The periodic broadcasts and the
    AI update of the same iteration run before the reaper and do not
    touch the table. *)
Theorem stale_sessions_are_reaped_once_a_second `{LibC} (inp : Inputs) (l : Loop) :
  received inp = None →
  let l' := loop_iteration inp l in
  let now := time_now inp in
  if elapsed_ms (clock_now inp) (last_cleanup l) >=? 1000 then
    players (server l')
    = (λ p, if pl_active p && (now - pl_last_seen p >? PLAYER_TIMEOUT_SEC)
            then SetPlayer.active false p else p) <$> players (server l)
    ∧ (∀ i p, players (server l) !! i = Some p → pl_active p = true →
         (pl_active <$> players (server l') !! i)
         = Some (bool_decide (now - pl_last_seen p ≤ 10)))
    ∧ last_cleanup l' = clock_now inp
  else
    players (server l') = players (server l)
    ∧ last_cleanup l' = last_cleanup l.
Proof.
  intros Hrx l' now. subst l'. unfold loop_iteration. cbv beta iota zeta. rewrite Hrx.
  set (s1 := server l).
  set (s2 := if _ >=? BROADCAST_INTERVAL_MS then _ else _).
  assert (H2 : players s2.1 = players s1).
  { subst s2. destruct (_ >=? BROADCAST_INTERVAL_MS); cbn [fst]; [|done].
    by destruct (broadcast_world_state_same_sessions s1) as (-> & _). }
  clearbody s2. destruct s2 as [s2 lb]. cbn [fst] in H2. cbv beta iota zeta.
  set (s3 := if _ >=? ENTITY_UPDATE_INTERVAL_MS then _ else _).
  assert (H3 : players s3.1 = players s1).
  { subst s3. destruct (_ >=? ENTITY_UPDATE_INTERVAL_MS); cbn [fst]; [|done].
    destruct (entity_update_same_sessions
                (elapsed_ms (clock_now inp) (last_entity_update l)) s2) as (-> & _).
    done. }
  clearbody s3. destruct s3 as [s3 le]. cbn [fst] in H3. cbv beta iota zeta.
  destruct (elapsed_ms (clock_now inp) (last_cleanup l) >=? 1000);
    cbv beta iota zeta; cbn [server last_cleanup]; [|done].
  unfold cleanup_inactive_players. fields. rewrite H3.
  split; [done|]. split; [|done].
  intros i p Hi Ha. rewrite list_lookup_fmap, Hi. cbn [fmap option_fmap option_map].
  f_equal. rewrite Ha. cbn [andb]. unfold PLAYER_TIMEOUT_SEC. subst now.
  destruct (time_now inp - pl_last_seen p >? 10) eqn:E.
  - cbn [pl_active SetPlayer.active]. symmetry. apply bool_decide_eq_false. lia.
  - rewrite Ha. symmetry. apply bool_decide_eq_true. lia.
Qed.

Lemma stale_sessions_are_reaped_once_a_second_witness :
  let l := loop_one_player in
  (pl_active <$> players (server (loop_iteration (libc := libc_zero) (at_ms 10000 None) l))
                 !! 0%nat) = Some true
  ∧ (pl_active <$> players (server (loop_iteration (libc := libc_zero) (at_ms 11000 None) l))
                   !! 0%nat) = Some false.
Proof.
  intros l.
  pose proof (stale_sessions_are_reaped_once_a_second (H := libc_zero) (at_ms 10000 None) l
                eq_refl) as H10.
  pose proof (stale_sessions_are_reaped_once_a_second (H := libc_zero) (at_ms 11000 None) l
                eq_refl) as H11.
  change (elapsed_ms (clock_now (at_ms 10000 None)) (last_cleanup l) >=? 1000)
    with true in H10.
  change (elapsed_ms (clock_now (at_ms 11000 None)) (last_cleanup l) >=? 1000)
    with true in H11.
  cbv beta iota zeta in H10, H11.
  destruct H10 as (_ & H10 & _). destruct H11 as (_ & H11 & _).
  assert (Hp : players (server l) !! 0%nat
               = Some (default Player_zero (players (server l) !! 0%nat)))
    by (vm_compute; reflexivity).
  assert (Ha : pl_active (default Player_zero (players (server l) !! 0%nat)) = true)
    by (vm_compute; reflexivity).
  split.
  - rewrite (H10 _ _ Hp Ha). vm_compute. reflexivity.
  - rewrite (H11 _ _ Hp Ha). vm_compute. reflexivity.
Defined.
